(** * Credit-card fraud detection dashboard: the upload pipeline of [app.py]

    A shallow embedding of the Flask view [upload] and of the two views that
    read its result ([dashboard], [results]), together with the fragments of
    Python and pandas semantics that the view relies on:

    - Python floats (binary64, round to nearest even), [int / int],
      [float * int] and the two-argument [round];
    - [str.strip], [str.lower], [str.replace], [repr] of strings and lists
      and [os.path.join], on ASCII strings;
    - a pandas [DataFrame] as a list of column labels and a list of indexed
      rows, with column selection by a list of labels, assignment to
      [df.columns], [dropna], column assignment, boolean-mask selection and
      [astype('category').cat.codes];
    - the module-level dictionary [results_data] as a [gmap], and the files
      the view writes as a map from paths to contents.

    What pandas, scikit-learn, seaborn and matplotlib compute internally
    (CSV parsing, date parsing, HTML and text rendering, the scaler and the
    isolation forest) is not part of the repository: it is collected in the
    record [Library], and every result below holds for every such library.
    Whether a write to the file system succeeds, and the state of the
    process-wide random generator, are collected in the record [World].

    The views around the pipeline are embedded as well: the user loader
    [load_user], [login], [logout] and [download], and the dispatch of a
    request to its view behind [login_required]. Of flask_login the
    development uses that the session carries the identifier of the user who
    logged in, and that a protected view runs only when the user loader finds
    a user for it. Files are told apart by their paths as they are
    written. *)

From Stdlib Require Import ZArith QArith Qround Qpower Qabs Qcanon.
From Stdlib Require Import Lia Lqa Ascii String.
From stdpp Require Import base numbers strings list gmap sorting pretty.

Local Open Scope Z_scope.

(** ** Python floats *)

Module Binary64.

Definition prec : Z := 53.
Definition emin : Z := -1074.

(** The exponent [e] with [2^e <= |q| < 2^(e+1)], for [q] not zero. *)
Definition ilog2 (q : Q) : Z :=
  let n := Z.abs (Qnum q) in
  let d := Zpos (Qden q) in
  let e := Z.log2 n - Z.log2 d in
  if Qle_bool (2 ^ e) (Qabs q) then e else e - 1.

(** Rounding of a rational to the nearest integer, ties to even. *)
Definition round_half_even (x : Q) : Z :=
  let f := Qfloor x in
  match Qcompare (x - inject_Z f) (1 # 2) with
  | Lt => f
  | Gt => f + 1
  | Eq => if Z.even f then f else f + 1
  end.

(** The exponent of the unit in the last place of [q]; the lower bound
    [emin] gives the subnormal numbers. *)
Definition ulp_exp (q : Q) : Z := Z.max (ilog2 q - (prec - 1)) emin.

(** The binary64 number nearest to the rational [q] (ties to even). The
    finite range is modelled: nothing here exceeds the largest double. *)
Definition RN (q : Q) : Q :=
  if Qeq_bool q 0 then 0%Q
  else let p := ulp_exp q in
       Qred (inject_Z (round_half_even (q / 2 ^ p)) * 2 ^ p).

(** [float * float] *)
Definition mul (x y : Q) : Q := RN (x * y).

(** [round(x, ndigits)] on a float: the exact value of [x] is rounded to
    [ndigits] decimals, ties to even, and the decimal result is converted
    back to the nearest double. *)
Definition round (x : Q) (ndigits : Z) : Q :=
  RN (inject_Z (round_half_even (x * 10 ^ ndigits)) / 10 ^ ndigits).

End Binary64.

(** ** Exceptions and the two monads of the view *)

Record Exception := Raise { exc_class : string; exc_str : string }.

(** [str(e)] *)
Definition str (e : Exception) : string := exc_str e.

Definition ZeroDivisionError : Exception :=
  Raise "ZeroDivisionError" "division by zero".
Definition ValueError (msg : string) : Exception := Raise "ValueError" msg.
Definition KeyError (msg : string) : Exception := Raise "KeyError" msg.
Definition FileNotFoundError (msg : string) : Exception :=
  Raise "FileNotFoundError" msg.

(** A computation that returns or raises. *)
Definition Result (A : Type) : Type := Exception + A.

#[global] Instance Result_ret : MRet Result := λ A x, inr x.
#[global] Instance Result_bind : MBind Result := λ A B f m,
  match m with
  | inl e => inl e
  | inr x => f x
  end.

(** [int / int]: the correctly rounded quotient, or [ZeroDivisionError]. *)
Definition truediv (a b : Z) : Result Q :=
  if decide (b = 0) then inl ZeroDivisionError
  else inr (Binary64.RN (inject_Z a / inject_Z b)).

(** ** Python strings *)

Definition nl : string := String "010"%char "".
Definition dquote : ascii := "034"%char.
Definition squote : ascii := "'"%char.
Definition backslash : ascii := "\"%char.

(** White space for [str.strip()], ASCII range. *)
Definition is_py_space (a : ascii) : bool :=
  let n := N.to_nat (N_of_ascii a) in
  ((9 <=? n) && (n <=? 13) || (28 <=? n) && (n <=? 32))%nat.

Fixpoint lstrip (s : string) : string :=
  match s with
  | String a s' => if is_py_space a then lstrip s' else s
  | EmptyString => EmptyString
  end.

Definition strip (s : string) : string :=
  String.rev (lstrip (String.rev (lstrip s))).

Definition lower_char (a : ascii) : ascii :=
  let n := N_of_ascii a in
  if ((65 <=? n) && (n <=? 90))%N then ascii_of_N (n + 32) else a.

Fixpoint string_map (f : ascii → ascii) (s : string) : string :=
  match s with
  | String a s' => String (f a) (string_map f s')
  | EmptyString => EmptyString
  end.

(** [s.lower()] *)
Definition lower : string → string := string_map lower_char.

(** [s.replace(" ", "_")] *)
Definition replace_space : string → string :=
  string_map (λ a, if Ascii.eqb a " "%char then "_"%char else a).

Fixpoint string_mem (c : ascii) (s : string) : bool :=
  match s with
  | String a s' => Ascii.eqb a c || string_mem c s'
  | EmptyString => false
  end.

Definition hex_digit (n : N) : ascii :=
  if (n <? 10)%N then ascii_of_N (48 + n) else ascii_of_N (87 + n).

Fixpoint repr_body (quote : ascii) (s : string) : string :=
  match s with
  | EmptyString => EmptyString
  | String a s' =>
      let n := N_of_ascii a in
      let rest := repr_body quote s' in
      if Ascii.eqb a quote || Ascii.eqb a backslash
      then String backslash (String a rest)
      else if (n =? 9)%N then String backslash (String "t"%char rest)
      else if (n =? 10)%N then String backslash (String "n"%char rest)
      else if (n =? 13)%N then String backslash (String "r"%char rest)
      else if ((n <? 32) || (n =? 127))%N
      then String backslash (String "x"%char
             (String (hex_digit (n / 16)) (String (hex_digit (n mod 16)) rest)))
      else String a rest
  end.

(** [repr(s)] for a string. *)
Definition repr_str (s : string) : string :=
  let quote :=
    if string_mem squote s && negb (string_mem dquote s) then dquote
    else squote in
  String quote (repr_body quote s +:+ String quote "").

(** [repr(l)] for a list of strings, which is what an f-string prints. *)
Definition repr_list (l : list string) : string :=
  "[" +:+ String.concat ", " (repr_str <$> l) +:+ "]".

(** [repr(t)] for a pair of integers such as [df.shape]. *)
Definition repr_shape (t : nat * nat) : string :=
  "(" +:+ pretty t.1 +:+ ", " +:+ pretty t.2 +:+ ")".

Definition starts_with (c : ascii) (s : string) : bool :=
  match s with
  | String a _ => Ascii.eqb a c
  | EmptyString => false
  end.

Definition ends_with (c : ascii) (s : string) : bool :=
  starts_with c (String.rev s).

(** [os.path.join(a, b)] of [posixpath]. *)
Definition path_join (a b : string) : string :=
  if starts_with "/"%char b then b
  else if bool_decide (a = "") || ends_with "/"%char a then a +:+ b
  else a +:+ "/" +:+ b.

(** ** pandas values, series and frames *)

Inductive Value :=
| NA                     (* NaN, None, NaT *)
| Num (q : Qc)           (* int64, float64 and bool cells *)
| Str (s : string)       (* object cells *)
| Timestamp (ns : Z).    (* datetime64[ns] cells *)

#[global] Instance Value_eq_dec : EqDecision Value.
Proof. solve_decision. Defined.

Definition Int (z : Z) : Value := Num (Qc_of_Z z).

Definition isnull (v : Value) : bool :=
  match v with
  | NA => true
  | _ => false
  end.

(** A [Series]: index labels and values. *)
Definition Series : Type := list (Value * Value).

(** A frame: the column labels, and the rows with their index label. The
    cell of a row in column number [k] is [cell cells k]. *)
Record DataFrame := { columns : list string; rows : list (nat * list Value) }.

Definition cell (cells : list Value) (k : nat) : Value :=
  default NA (cells !! k).

(** [len(df)], [df.shape], [df.index] *)
Definition nrows (df : DataFrame) : nat := length (rows df).
Definition shape (df : DataFrame) : nat * nat :=
  (length (rows df), length (columns df)).
Definition index (df : DataFrame) : list nat := (rows df).*1.

(** The cells of a row, one per column. *)
Definition cells_of (df : DataFrame) (r : nat * list Value) : list Value :=
  cell r.2 <$> seq 0 (length (columns df)).

Fixpoint positions_from (k : nat) (lbl : string) (cols : list string)
  : list nat :=
  match cols with
  | [] => []
  | c :: cols' =>
      if decide (c = lbl) then k :: positions_from (S k) lbl cols'
      else positions_from (S k) lbl cols'
  end.

(** The positions of the columns labelled [lbl]. *)
Definition positions (lbl : string) (cols : list string) : list nat :=
  positions_from 0 lbl cols.

(** [df.columns = names] *)
Definition set_columns (df : DataFrame) (names : list string)
  : Result DataFrame :=
  if decide (length names = length (columns df))
  then inr {| columns := names; rows := rows df |}
  else inl (ValueError
    ("Length mismatch: Expected axis has " +:+ pretty (length (columns df))
     +:+ " elements, new values have " +:+ pretty (length names)
     +:+ " elements")).

(** [df[labels]] for a list of labels: every column carrying one of the
    labels is taken, in the order of [labels]; a label that several columns
    carry selects them all. *)
Definition getitem_cols (df : DataFrame) (labels : list string)
  : Result DataFrame :=
  match filter (λ l, l ∉ columns df) labels with
  | [] =>
      let ps := labels ≫= (λ l, positions l (columns df)) in
      inr {| columns := labels ≫= (λ l, (λ _, l) <$> positions l (columns df));
             rows := (λ r, (r.1, cell r.2 <$> ps)) <$> rows df |}
  | missing => inl (KeyError (repr_list missing +:+ " not in index"))
  end.

(** [df[name]] for one label: the values of the column. *)
Definition getitem (df : DataFrame) (name : string) : Result (list Value) :=
  match positions name (columns df) with
  | [] => inl (KeyError (repr_str name))
  | p :: _ => inr ((λ r, cell r.2 p) <$> rows df)
  end.

(** [df[name] = values] *)
Definition setitem (df : DataFrame) (name : string) (values : list Value)
  : Result DataFrame :=
  if decide (length values = nrows df) then
    match positions name (columns df) with
    | [] =>
        inr {| columns := columns df ++ [name];
               rows := zip_with (λ r v, (r.1, cells_of df r ++ [v]))
                         (rows df) values |}
    | ps =>
        inr {| columns := columns df;
               rows := zip_with
                 (λ r v, (r.1, foldr (λ p cs, <[p:=v]> cs) (cells_of df r) ps))
                 (rows df) values |}
    end
  else inl (ValueError
    ("Length of values (" +:+ pretty (length values)
     +:+ ") does not match length of index (" +:+ pretty (nrows df) +:+ ")")).

(** [df.dropna(inplace=True)] *)
Definition notnull_row (df : DataFrame) (r : nat * list Value) : bool :=
  forallb (λ v, negb (isnull v)) (cells_of df r).

Definition dropna (df : DataFrame) : DataFrame :=
  {| columns := columns df;
     rows := filter (λ r, notnull_row df r = true) (rows df) |}.

(** [df.dropna(subset=[name], inplace=True)] *)
Definition dropna_subset (df : DataFrame) (name : string) : Result DataFrame :=
  match positions name (columns df) with
  | [] => inl (KeyError (repr_list [name]))
  | p :: _ =>
      inr {| columns := columns df;
             rows := filter (λ r, isnull (cell r.2 p) = false) (rows df) |}
  end.

(** [df[df[name] == v]] *)
Definition select_eq (df : DataFrame) (name : string) (v : Value)
  : Result DataFrame :=
  match positions name (columns df) with
  | [] => inl (KeyError (repr_str name))
  | p :: _ =>
      inr {| columns := columns df;
             rows := filter (λ r, cell r.2 p = v) (rows df) |}
  end.

(** [df.head(n)] *)
Definition head (n : nat) (df : DataFrame) : DataFrame :=
  {| columns := columns df; rows := take n (rows df) |}.

(** [df.isnull().sum()] *)
Definition isnull_sum (df : DataFrame) : Series :=
  imap (λ k c,
    (Str c,
     Int (Z.of_nat (length (filter (λ r, isnull (cell r.2 k) = true)
                               (rows df))))))
    (columns df).

(** *** Categoricals *)

(** The order in which pandas sorts the distinct values of a column:
    numbers first, then strings. *)
Definition value_le (a b : Value) : Prop :=
  match a, b with
  | Num x, Num y => Qcle x y
  | Num _, _ => True
  | Str _, Num _ => False
  | Str s, Str t => String.le s t
  | Str _, _ => True
  | Timestamp _, (Num _ | Str _) => False
  | Timestamp x, Timestamp y => x ≤ y
  | Timestamp _, NA => True
  | NA, NA => True
  | NA, _ => False
  end.

#[global] Instance value_le_dec : RelDecision value_le.
Proof. intros [] []; simpl; apply _. Defined.

Fixpoint unique_from (seen l : list Value) : list Value :=
  match l with
  | [] => []
  | x :: l' =>
      if decide (x ∈ seen) then unique_from seen l'
      else x :: unique_from (x :: seen) l'
  end.

(** [pandas.unique]: the distinct values in order of first appearance. *)
Definition unique (l : list Value) : list Value := unique_from [] l.

(** The categories of [col.astype('category')]: the distinct non-null
    values, sorted. *)
Definition categories (col : list Value) : list Value :=
  merge_sort value_le (unique (filter (λ v, isnull v = false) col)).

Definition code_in (cats : list Value) (v : Value) : Z :=
  match list_find (λ c, c = v) cats with
  | Some (i, _) => Z.of_nat i
  | None => -1
  end.

(** [col.astype('category').cat.codes] *)
Definition cat_codes (col : list Value) : list Z :=
  code_in (categories col) <$> col.

(** Codes by first appearance, which is how the specification words the
    assignment; the pipeline does not use this function. *)
Definition first_seen_codes (col : list Value) : list Z :=
  code_in (unique (filter (λ v, isnull v = false) col)) <$> col.

(** ** The collaborators of the view *)

(** What is drawn on a figure. *)
Inductive Plot :=
| HistPlot (data : list Value) (bins : Z) (color : string)
| BarPlot (x : list Value) (y : list Value) (palette : string).

Record Figure := {
  figsize : Z * Z;
  plot : Plot;
  title : string;
  xlabel : string;
  ylabel : string
}.

(** pandas, scikit-learn, seaborn and matplotlib. *)
Record Library := {
  Matrix : Type;
  Model : Type;
  (** [pd.read_csv] on the content of a file *)
  read_csv : string → Result DataFrame;
  (** [DataFrame.to_html(classes=..., index=False)] *)
  to_html : string → DataFrame → string;
  (** [Series.to_string()] *)
  series_to_string : Series → string;
  (** [pd.to_datetime(column, errors='coerce')]; [NA] is [NaT] *)
  to_datetime : list Value → Result (list Value);
  (** [.dt.month] and [.dt.dayofweek] of one value *)
  dt_month : Value → Value;
  dt_dayofweek : Value → Value;
  (** [Series.value_counts()], [Series.describe()], [Series.sort_index()] *)
  value_counts : list Value → Series;
  describe : list Value → Series;
  sort_index : Series → Series;
  (** [sns.histplot], [sns.barplot] and [plt.tight_layout] on a figure *)
  draw : Figure → Result unit;
  (** [StandardScaler().fit_transform] *)
  fit_transform : DataFrame → Result Matrix;
  (** [IsolationForest(n_estimators, contamination, random_state).fit];
      the generator is given by its seed *)
  isolation_forest_fit : Z → Q → Z → Matrix → Result Model;
  (** [model.predict] *)
  predict : Model → Matrix → Result (list Z)
}.

(** What a run finds around it: whether the write to a path fails, and the
    seed of the process-wide random generator. *)
Record World := {
  io_error : string → option Exception;
  global_rng : Z
}.

(** [sklearn.utils.check_random_state]: an integer seeds a fresh generator,
    [None] is the process-wide one. *)
Definition check_random_state (random_state : option Z) (w : World) : Z :=
  match random_state with
  | Some seed => seed
  | None => global_rng w
  end.

(** ** The state of the application *)

Inductive PyVal :=
| PStr (s : string)
| PInt (z : Z)
| PFloat (x : Q).

Inductive File :=
| RawFile (content : string)
| PngFile (fig : Figure)
| CsvFile (header : list string) (records : list (list Value)).

Record AppState := {
  results_data : gmap string PyVal;
  fs : gmap string File
}.

(** The dictionary is empty when the module is loaded. *)
Definition startup (files : gmap string File) : AppState :=
  {| results_data := ∅; fs := files |}.

(** A computation on the state that returns or raises. *)
Definition Run (A : Type) : Type := AppState → Result A * AppState.

#[global] Instance Run_ret : MRet Run := λ A x st, (inr x, st).
#[global] Instance Run_bind : MBind Run := λ A B f m st,
  match m st with
  | (inl e, st') => (inl e, st')
  | (inr x, st') => f x st'
  end.

Definition lift {A} (r : Result A) : Run A := λ st, (r, st).

(** A write to [path]: all or nothing. *)
Definition write (w : World) (path : string) (f : File) : Run unit := λ st,
  match io_error w path with
  | Some e => (inl e, st)
  | None => (inr (), {| results_data := results_data st;
                        fs := <[path:=f]> (fs st) |})
  end.

(** [pd.read_csv(path)] *)
Definition pd_read_csv (L : Library) (path : string) : Run DataFrame := λ st,
  match fs st !! path with
  | Some (RawFile content) => (read_csv L content, st)
  | Some _ => (inl (Raise "ParserError" "Error tokenizing data"), st)
  | None => (inl (FileNotFoundError path), st)
  end.

(** [d.update(kvs)] *)
Definition dict_update (d : gmap string PyVal) (kvs : list (string * PyVal))
  : gmap string PyVal :=
  foldl (λ m kv, <[kv.1:=kv.2]> m) d kvs.

Definition results_data_update (kvs : list (string * PyVal)) : Run unit :=
  λ st, (inr (), {| results_data := dict_update (results_data st) kvs;
                    fs := fs st |}).

(** What a view returns to Flask. *)
Inductive ViewResult :=
| Body (body : string)                        (* return "text" *)
| BodyStatus (body : string) (status : Z)     (* return "text", status *)
| Redirect (location : string)                (* return redirect(...) *)
| Template (name : string) (context : list (string * PyVal))
| Unhandled (e : Exception).                  (* the exception leaves the view *)

(** The status of the HTTP response Flask makes of it. *)
Definition status_code (r : ViewResult) : Z :=
  match r with
  | Body _ => 200
  | BodyStatus _ status => status
  | Redirect _ => 302
  | Template _ _ => 200
  | Unhandled _ => 500
  end.

(** ** The view [upload] *)

Definition UPLOAD_FOLDER : string := "upload".
Definition RESULT_FOLDER : string := "result".
Definition STATIC_FOLDER : string := "static".

(** [request.files['file']] *)
Record FileStorage := { filename : string; stream : string }.

Definition expected_cols : list string :=
  ["transaction_date"; "agency_name"; "vendor"; "amount"].

Definition canonical_cols : list string :=
  ["TRANSACTION_DATE"; "AGENCY_NAME"; "MERCHANT_NAME"; "TRANSACTION_AMOUNT"].

Definition feature_cols : list string :=
  ["TRANSACTION_AMOUNT"; "AGENCY_CODE"; "MERCHANT_CODE"; "Month"; "DayOfWeek"].

(** line 93: [col.strip().lower().replace(" ", "_")] *)
Definition normalize_col (col : string) : string :=
  replace_space (lower (strip col)).

(** lines 93-94 *)
Definition normalize (df : DataFrame) : Result DataFrame :=
  set_columns df (normalize_col <$> columns df).

(** line 97 *)
Definition has_expected (actual_cols : list string) : bool :=
  forallb (λ col, bool_decide (col ∈ actual_cols)) expected_cols.

(** lines 100-101 *)
Definition select_expected (df : DataFrame) : Result DataFrame :=
  df ← getitem_cols df expected_cols;
  set_columns df canonical_cols.

(** lines 111-113 *)
Definition clean (L : Library) (df : DataFrame) : Result DataFrame :=
  let df := dropna df in
  dates ← getitem df "TRANSACTION_DATE";
  parsed ← to_datetime L dates;
  df ← setitem df "TRANSACTION_DATE" parsed;
  dropna_subset df "TRANSACTION_DATE".

(** lines 118-121 *)
Definition engineer (L : Library) (df : DataFrame) : Result DataFrame :=
  dates ← getitem df "TRANSACTION_DATE";
  df ← setitem df "Month" (dt_month L <$> dates);
  dates ← getitem df "TRANSACTION_DATE";
  df ← setitem df "DayOfWeek" (dt_dayofweek L <$> dates);
  agencies ← getitem df "AGENCY_NAME";
  df ← setitem df "AGENCY_CODE" (Int <$> cat_codes agencies);
  merchants ← getitem df "MERCHANT_NAME";
  setitem df "MERCHANT_CODE" (Int <$> cat_codes merchants).

(** lines 125-128 *)
Definition eda_text (L : Library) (df : DataFrame) : Result (list string) :=
  agencies ← getitem df "AGENCY_NAME";
  merchants ← getitem df "MERCHANT_NAME";
  amounts ← getitem df "TRANSACTION_AMOUNT";
  months ← getitem df "Month";
  mret [
    "Top 5 Agencies:" +:+ nl
      +:+ series_to_string L (take 5 (value_counts L agencies));
    "Top 5 Merchants:" +:+ nl
      +:+ series_to_string L (take 5 (value_counts L merchants));
    "Transaction Amount Stats:" +:+ nl
      +:+ series_to_string L (describe L amounts);
    "Transactions per Month:" +:+ nl
      +:+ series_to_string L (sort_index L (value_counts L months))
  ].

(** [plt.figure], the seaborn call, the labels, [plt.savefig] and
    [plt.close] *)
Definition savefig (L : Library) (w : World) (path : string) (fig : Figure)
  : Run unit :=
  _ ← lift (draw L fig);
  write w path (PngFile fig).

(** lines 131-138 *)
Definition eda_figure (amounts : list Value) : Figure :=
  {| figsize := (10, 5);
     plot := HistPlot amounts 100 "skyblue";
     title := "Transaction Amount Distribution";
     xlabel := "Amount";
     ylabel := "Frequency" |}.

(** lines 141-147 *)
Definition score (L : Library) (w : World) (df : DataFrame)
  : Result DataFrame :=
  features ← getitem_cols df feature_cols;
  features_scaled ← fit_transform L features;
  model ← isolation_forest_fit L 100 (Binary64.RN (2 # 100))
             (check_random_state (Some 42) w) features_scaled;
  labels ← predict L model features_scaled;
  setitem df "Anomaly" (Int <$> labels).

(** line 155 *)
Definition percentage (fraud_count total_transactions : Z) : Result Q :=
  ratio ← truediv fraud_count total_transactions;
  mret (Binary64.round (Binary64.mul ratio (inject_Z 100)) 2).

(** lines 159-166 *)
Definition fraud_figure (L : Library) (agencies : list Value) : Figure :=
  let top_agencies := take 8 (value_counts L agencies) in
  {| figsize := (10, 4);
     plot := BarPlot top_agencies.*2 top_agencies.*1 "rocket";
     title := "Top Fraud-Prone Agencies";
     xlabel := "Fraud Count";
     ylabel := "" |}.

(** line 170: [anomalies.to_csv(result_path, index=False)] *)
Definition to_csv (w : World) (df : DataFrame) (path : string) : Run unit :=
  write w path (CsvFile (columns df) (cells_of df <$> rows df)).

(** lines 173-183: the dictionary given to [results_data.update] *)
Definition result_set (raw_preview_html : string)
    (preprocessing_info eda_lines : list string)
    (fraud_table_html eda_plot_filename fraud_plot_filename : string)
    (fraud_count total_transactions : Z) (fraud_percentage : Q)
  : list (string * PyVal) := [
  ("raw_preview", PStr raw_preview_html);
  ("preprocessing_summary",
   PStr (String.concat (nl +:+ nl) preprocessing_info));
  ("eda_summary", PStr (String.concat (nl +:+ nl) eda_lines));
  ("fraud_table", PStr fraud_table_html);
  ("eda_plot", PStr eda_plot_filename);
  ("fraud_plot", PStr fraud_plot_filename);
  ("fraud_count", PInt fraud_count);
  ("total_transactions", PInt total_transactions);
  ("fraud_percentage", PFloat fraud_percentage) ].

(** The body of the [try] statement, lines 91-185. *)
Definition try_body (L : Library) (w : World) (filepath : string)
  : Run ViewResult :=
  (* Step 1: Load Data *)
  df ← pd_read_csv L filepath;
  let actual_cols := normalize_col <$> columns df in
  df ← lift (normalize df);
  if negb (has_expected actual_cols) then
    mret (BodyStatus
            ("Required columns missing. Found: " +:+ repr_list actual_cols) 400)
  else
  df ← lift (select_expected df);
  let raw_preview_html := to_html L "table table-bordered" (head 5 df) in
  (* Step 2: Preprocessing *)
  let preprocessing_info := [
    "Initial Shape: " +:+ repr_shape (shape df);
    "Missing Values:" +:+ nl +:+ series_to_string L (isnull_sum df) ] in
  df ← lift (clean L df);
  let preprocessing_info := preprocessing_info ++
    ["After Cleaning Shape: " +:+ repr_shape (shape df)] in
  df ← lift (engineer L df);
  (* Step 3: EDA *)
  eda_lines ← lift (eda_text L df);
  let eda_plot_filename := "eda_plot.png" in
  amounts ← lift (getitem df "TRANSACTION_AMOUNT");
  _ ← savefig L w (path_join STATIC_FOLDER eda_plot_filename)
        (eda_figure amounts);
  (* Step 4: Model *)
  df ← lift (score L w df);
  anomalies ← lift (select_eq df "Anomaly" (Int (-1)));
  let fraud_table_html := to_html L "table table-striped" anomalies in
  let total_transactions := Z.of_nat (nrows df) in
  let fraud_count := Z.of_nat (nrows anomalies) in
  fraud_percentage ← lift (percentage fraud_count total_transactions);
  (* Step 5: Fraud Agency Visualization *)
  let fraud_plot_filename := "fraud_agencies.png" in
  agencies ← lift (getitem anomalies "AGENCY_NAME");
  _ ← savefig L w (path_join STATIC_FOLDER fraud_plot_filename)
        (fraud_figure L agencies);
  let result_path := path_join RESULT_FOLDER "fraud_report.csv" in
  _ ← to_csv w anomalies result_path;
  _ ← results_data_update
        (result_set raw_preview_html preprocessing_info eda_lines
           fraud_table_html eda_plot_filename fraud_plot_filename
           fraud_count total_transactions fraud_percentage);
  mret (Redirect "/results").

(** The view, lines 82-188. A [FileStorage] is false when its file name is
    empty; [file.save] is outside the [try] statement. *)
Definition upload (L : Library) (w : World) (file : FileStorage)
  : AppState → ViewResult * AppState := λ st,
  if bool_decide (filename file = "") then
    (BodyStatus "No file selected" 400, st)
  else
    let filepath := path_join UPLOAD_FOLDER (filename file) in
    match write w filepath (RawFile (stream file)) st with
    | (inl e, st) => (Unhandled e, st)
    | (inr _, st) =>
        match try_body L w filepath st with
        | (inr response, st) => (response, st)
        | (inl e, st) => (Body ("Error while processing file: " +:+ str e), st)
        end
    end.

(** ** The views that show the result *)

(** [results_data[key]] *)
Definition lookup_key (d : gmap string PyVal) (key : string) : Result PyVal :=
  match d !! key with
  | Some v => inr v
  | None => inl (KeyError (repr_str key))
  end.

Definition render (name : string) (context : Result (list (string * PyVal)))
  : ViewResult :=
  match context with
  | inr ctx => Template name ctx
  | inl e => Unhandled e
  end.

(** lines 70-78 *)
Definition dashboard (st : AppState) : ViewResult :=
  let d := results_data st in
  if bool_decide (d = ∅) then
    Template "dashboard.html" [("message", PStr "No dataset uploaded yet.")]
  else
    render "dashboard.html" (
      fraud_count ← lookup_key d "fraud_count";
      total_transactions ← lookup_key d "total_transactions";
      fraud_percentage ← lookup_key d "fraud_percentage";
      mret [("fraud_count", fraud_count);
            ("total_transactions", total_transactions);
            ("fraud_percentage", fraud_percentage);
            ("fraud_plot", PStr "fraud_agencies.png")]).

(** lines 192-205 *)
Definition results (st : AppState) : ViewResult :=
  let d := results_data st in
  if bool_decide (d = ∅) then
    BodyStatus "No results available. Please upload a dataset first." 400
  else
    render "results.html" (
      raw_preview ← lookup_key d "raw_preview";
      preprocessing_summary ← lookup_key d "preprocessing_summary";
      eda_summary ← lookup_key d "eda_summary";
      eda_plot ← lookup_key d "eda_plot";
      fraud_plot ← lookup_key d "fraud_plot";
      fraud_count ← lookup_key d "fraud_count";
      total_transactions ← lookup_key d "total_transactions";
      fraud_percentage ← lookup_key d "fraud_percentage";
      table ← lookup_key d "fraud_table";
      mret [("raw_preview", raw_preview);
            ("preprocessing_summary", preprocessing_summary);
            ("eda_summary", eda_summary);
            ("eda_plot", eda_plot);
            ("fraud_plot", fraud_plot);
            ("fraud_count", fraud_count);
            ("total_transactions", total_transactions);
            ("fraud_percentage", fraud_percentage);
            ("table", table)]).

(** ** The tables of a run, as functions of the uploaded content *)

(** The table of the four expected columns (lines 92-101). *)
Definition selected_table (L : Library) (content : string) : Result DataFrame :=
  df ← read_csv L content;
  df ← normalize df;
  select_expected df.

(** The table that remains after cleaning (lines 92-113). *)
Definition cleaned_table (L : Library) (content : string) : Result DataFrame :=
  df ← selected_table L content;
  clean L df.

(** The table with its [Anomaly] column (lines 92-147). *)
Definition scored_table (L : Library) (w : World) (content : string)
  : Result DataFrame :=
  df ← cleaned_table L content;
  df ← engineer L df;
  score L w df.

(** The path [file.save] writes to (line 87). *)
Definition upload_path (file : FileStorage) : string :=
  path_join UPLOAD_FOLDER (filename file).

Definition report_path : string := path_join RESULT_FOLDER "fraud_report.csv".

(** The keys of the dictionary of lines 173-183. *)
Definition result_keys : list string :=
  ["raw_preview"; "preprocessing_summary"; "eda_summary"; "fraud_table";
   "eda_plot"; "fraud_plot"; "fraud_count"; "total_transactions";
   "fraud_percentage"].

(** The header of the report, as the specification lists it. *)
Definition report_header : list string :=
  ["TRANSACTION_DATE"; "AGENCY_NAME"; "MERCHANT_NAME"; "TRANSACTION_AMOUNT";
   "Month"; "DayOfWeek"; "AGENCY_CODE"; "MERCHANT_CODE"; "Anomaly"].

(** The percentage as the specification writes it:
    [round(100 * fraud_count / total_transactions, 2)]. *)
Definition spec_percentage (fraud_count total_transactions : Z) : Result Q :=
  x ← truediv (100 * fraud_count) total_transactions;
  mret (Binary64.round x 2).

(** The rows that cleaning keeps, given the rows without a null cell and
    the parsed dates of these rows: those whose date is not [NaT], each with
    its parsed date and its other three cells. *)
Definition survivors (kept : list (nat * list Value)) (parsed : list Value)
  : list (nat * list Value) :=
  omap (λ rd : (nat * list Value) * Value,
          if isnull rd.2 then None
          else Some (rd.1.1,
                     [rd.2; cell rd.1.2 1; cell rd.1.2 2; cell rd.1.2 3]))
       (zip kept parsed).

(** What holds of the dictionary once an upload has succeeded. *)
Definition result_set_ok (d : gmap string PyVal) : Prop :=
  ∃ (fraud_count total_transactions : Z) (fraud_percentage : Q),
    d !! "fraud_count" = Some (PInt fraud_count) ∧
    d !! "total_transactions" = Some (PInt total_transactions) ∧
    d !! "fraud_percentage" = Some (PFloat fraud_percentage) ∧
    0 ≤ fraud_count ≤ total_transactions ∧
    (0 <= fraud_percentage)%Q ∧ (fraud_percentage <= 100)%Q ∧
    Forall (λ key, is_Some (d !! key)) result_keys.

(** A sequence of uploads, each in its own world. *)
Fixpoint serve (L : Library) (requests : list (World * FileStorage))
    (st : AppState) : list ViewResult * AppState :=
  match requests with
  | [] => ([], st)
  | (w, file) :: requests' =>
      let (response, st1) := upload L w file st in
      let (responses, st2) := serve L requests' st1 in
      (response :: responses, st2)
  end.

(** ** The values a successful run goes through *)

Record Trace := {
  raw : DataFrame;              (* line 92 *)
  selected : DataFrame;         (* line 101 *)
  cleaned : DataFrame;          (* line 113 *)
  engineered : DataFrame;       (* line 121 *)
  eda_lines : list string;      (* line 128 *)
  amounts : list Value;         (* line 132 *)
  scored : DataFrame;           (* line 147 *)
  anomalies : DataFrame;        (* line 149 *)
  fraud_percentage : Q;         (* line 155 *)
  agencies : list Value         (* line 160 *)
}.

(** [t] records the run of the stages on [content]. *)
Definition traces (L : Library) (w : World) (content : string) (t : Trace)
  : Prop :=
  read_csv L content = inr (raw t) ∧
  has_expected (normalize_col <$> columns (raw t)) = true ∧
  normalize (raw t) ≫= select_expected = inr (selected t) ∧
  clean L (selected t) = inr (cleaned t) ∧
  engineer L (cleaned t) = inr (engineered t) ∧
  eda_text L (engineered t) = inr (eda_lines t) ∧
  getitem (engineered t) "TRANSACTION_AMOUNT" = inr (amounts t) ∧
  score L w (engineered t) = inr (scored t) ∧
  select_eq (scored t) "Anomaly" (Int (-1)) = inr (anomalies t) ∧
  percentage (Z.of_nat (nrows (anomalies t))) (Z.of_nat (nrows (scored t)))
    = inr (fraud_percentage t) ∧
  getitem (anomalies t) "AGENCY_NAME" = inr (agencies t).

(** The dictionary of lines 173-183 for the run [t]. *)
Definition trace_result_set (L : Library) (t : Trace) : list (string * PyVal) :=
  result_set
    (to_html L "table table-bordered" (head 5 (selected t)))
    ["Initial Shape: " +:+ repr_shape (shape (selected t));
     "Missing Values:" +:+ nl
       +:+ series_to_string L (isnull_sum (selected t));
     "After Cleaning Shape: " +:+ repr_shape (shape (cleaned t))]
    (eda_lines t)
    (to_html L "table table-striped" (anomalies t))
    "eda_plot.png" "fraud_agencies.png"
    (Z.of_nat (nrows (anomalies t))) (Z.of_nat (nrows (scored t)))
    (fraud_percentage t).

(** The state the run [t] leaves, from the state [st] in which the [try]
    statement is entered. *)
Definition published (L : Library) (t : Trace) (st : AppState) : AppState :=
  {| results_data := dict_update (results_data st) (trace_result_set L t);
     fs :=
       <[report_path :=
           CsvFile (columns (anomalies t))
                   (cells_of (anomalies t) <$> rows (anomalies t))]>
       (<[path_join STATIC_FOLDER "fraud_agencies.png" :=
            PngFile (fraud_figure L (agencies t))]>
        (<[path_join STATIC_FOLDER "eda_plot.png" :=
             PngFile (eda_figure (amounts t))]> (fs st))) |}.

(** The state after [file.save] (line 88). *)
Definition stored (file : FileStorage) (st : AppState) : AppState :=
  {| results_data := results_data st;
     fs := <[upload_path file := RawFile (stream file)]> (fs st) |}.

(** Column assignment keeps the labels, or appends the new one. *)
Definition add_col (cols : list string) (name : string) : list string :=
  if decide (name ∈ cols) then cols else cols ++ [name].

(** A strict version of the sorting order of categories. *)
Definition value_lt (a b : Value) : Prop := value_le a b ∧ a ≠ b.

(** [codes] numbers the values of [col] by their rank among the distinct
    non-null values of [col]: equal values have equal codes, a smaller value
    has a smaller code, and the codes fill an initial segment of the
    naturals. *)
Definition ranks (col : list Value) (codes : list Z) : Prop :=
  length codes = length col ∧
  (∀ i j v1 v2 c1 c2,
      col !! i = Some v1 → col !! j = Some v2 →
      codes !! i = Some c1 → codes !! j = Some c2 →
      isnull v1 = false → isnull v2 = false →
      (v1 = v2 ↔ c1 = c2) ∧ (value_lt v1 v2 ↔ c1 < c2)) ∧
  (∀ i v c, col !! i = Some v → codes !! i = Some c → isnull v = false →
            0 ≤ c) ∧
  (∀ i c k, codes !! i = Some c → 0 ≤ k ≤ c → k ∈ codes).

(** A computation that leaves the dictionary as it is. *)
Definition keeps_results {A} (m : Run A) : Prop :=
  ∀ st r st', m st = (r, st') → results_data st' = results_data st.

(** A computation that changes the dictionary only when it redirects to the
    results page. *)
Definition keeps_unless_redirect (m : Run ViewResult) : Prop :=
  ∀ st r st', m st = (r, st') → r ≠ inr (Redirect "/results") →
              results_data st' = results_data st.

(** A computation that leaves the file at [path] as it is. *)
Definition keeps_file {A} (path : string) (m : Run A) : Prop :=
  ∀ st r st', m st = (r, st') → fs st' !! path = fs st !! path.

(** A computation that leaves the report as it is when it raises. *)
Definition keeps_report_on_error {A} (m : Run A) : Prop :=
  ∀ st e st', m st = (inl e, st') → fs st' !! report_path = fs st !! report_path.

(** ** Users, sessions and the login views *)

(** lines 19-23 *)
Record User := { id : Z; username : string; password : string }.

(** A dictionary from names to users, in insertion order. *)
Definition Users : Type := list (string * User).

(** line 26 *)
Definition users : Users :=
  [("admin", {| id := 1; username := "admin"; password := "admin123" |})].

(** [d.get(key)] *)
Fixpoint dict_get (d : Users) (key : string) : option User :=
  match d with
  | [] => None
  | (k, user) :: d' => if decide (k = key) then Some user else dict_get d' key
  end.

(** [str(n)] for an integer *)
Definition str_int (n : Z) : string := pretty n.

(** The loop of lines 30-33 over [users.values()]. *)
Fixpoint find_user (values : list User) (user_id : string) : option User :=
  match values with
  | [] => None
  | user :: values' =>
      if decide (str_int (id user) = user_id) then Some user
      else find_user values' user_id
  end.

(** lines 29-33 *)
Definition load_user (us : Users) (user_id : string) : option User :=
  find_user us.*2 user_id.

(** The entry [_user_id] of the Flask session, which is what flask_login
    reads to find the user of a request; the session travels with the
    client. *)
Definition Session : Type := option string.

(** [login_user(user)]: the session receives [user.get_id()], which
    [UserMixin] defines as [str(self.id)]. *)
Definition login_user (user : User) (session : Session) : Session :=
  Some (str_int (id user)).

(** [logout_user()] *)
Definition logout_user (session : Session) : Session := None.

(** [current_user]: the user loader applied to the identifier of the
    session; [None] is the anonymous user. *)
Definition current_user (us : Users) (session : Session) : option User :=
  session ≫= load_user us.

(** flask_login's builder of the address that [login_manager.unauthorized()]
    redirects to: the login view and the address that was asked for. *)
Record FlaskLogin := { login_url : string → string → string }.

(** line 16 *)
Definition login_view : string := "login".

(** [login_manager.unauthorized()] *)
Definition unauthorized (F : FlaskLogin) (url : string) : ViewResult :=
  Redirect (login_url F login_view url).

(** [request.method] and [request.form] *)
Inductive Method := GET | POST.

Record Request := { method : Method; form : gmap string string }.

(** What werkzeug raises for a missing form field. *)
Definition BadRequestKeyError : Exception :=
  Raise "BadRequestKeyError"
    ("400 Bad Request: The browser (or proxy) sent a request that this "
     +:+ "server could not understand.").

(** [request.form[key]] *)
Definition form_getitem (request : Request) (key : string) : Result string :=
  match form request !! key with
  | Some value => inr value
  | None => inl BadRequestKeyError
  end.

(** The view [index], lines 47-48. *)
Definition index_view : ViewResult := Template "login.html" [].

(** lines 51-60; a [User] object is true. *)
Definition login (us : Users) (request : Request) (session : Session)
  : Result ViewResult * Session :=
  match method request with
  | POST =>
      match form_getitem request "username" with
      | inl e => (inl e, session)
      | inr username =>
          match form_getitem request "password" with
          | inl e => (inl e, session)
          | inr password0 =>
              match dict_get us username with
              | Some user =>
                  if decide (password user = password0)
                  then (inr (Redirect "/dashboard"), login_user user session)
                  else (inr (Body "Invalid credentials! Try again."), session)
              | None => (inr (Body "Invalid credentials! Try again."), session)
              end
          end
      end
  | GET => (inr (Template "login.html" []), session)
  end.

(** lines 64-66; [url_for('login')] is the rule of line 50. *)
Definition logout (session : Session) : ViewResult * Session :=
  (Redirect "/login", logout_user session).

(** ** The application *)

(** What Flask receives from a route. *)
Inductive Response :=
| Returned (r : ViewResult)            (* the value the view returned *)
| SendFile (path : string) (f : File)  (* send_file(path, as_attachment=True) *)
| Raised (e : Exception).              (* an exception left the view *)

(** What [send_file] raises for a path that is no file. *)
Definition no_such_file (path : string) : Exception :=
  Raise "FileNotFoundError"
    ("[Errno 2] No such file or directory: " +:+ repr_str path).

(** lines 209-211. The path is relative: the application is run from its
    own directory, where the report is written. *)
Definition download (st : AppState) : Response :=
  let path := path_join RESULT_FOLDER "fraud_report.csv" in
  match fs st !! path with
  | Some f => SendFile path f
  | None => Raised (no_such_file path)
  end.

(** The requests that the routes of lines 46, 50, 62, 68, 80, 190 and 207
    accept. An upload comes with the world in which it runs. *)
Inductive Visit :=
| to_index
| to_login (request : Request)
| to_logout
| to_dashboard
| to_upload (w : World) (file : FileStorage)
| to_results
| to_download.

(** [@login_required]: the view runs for a logged-in user; anybody else is
    sent to the login page, and the view does not run. *)
Definition login_required (F : FlaskLogin) (us : Users) (url : string)
    (session : Session) (st : AppState)
    (view : Response * Session * AppState) : Response * Session * AppState :=
  match current_user us session with
  | Some _ => view
  | None => (Returned (unauthorized F url), session, st)
  end.

Definition of_result (r : Result ViewResult) : Response :=
  match r with
  | inr v => Returned v
  | inl e => Raised e
  end.

(** One request of a client whose session is [session]. *)
Definition handle (F : FlaskLogin) (L : Library) (us : Users) (v : Visit)
    (session : Session) (st : AppState) : Response * Session * AppState :=
  match v with
  | to_index => (Returned index_view, session, st)
  | to_login request =>
      let (r, session') := login us request session in
      (of_result r, session', st)
  | to_logout =>
      login_required F us "/logout" session st
        (let (r, session') := logout session in (Returned r, session', st))
  | to_dashboard =>
      login_required F us "/dashboard" session st
        (Returned (dashboard st), session, st)
  | to_upload w file =>
      login_required F us "/upload" session st
        (let (r, st') := upload L w file st in (Returned r, session, st'))
  | to_results =>
      login_required F us "/results" session st
        (Returned (results st), session, st)
  | to_download =>
      login_required F us "/download" session st (download st, session, st)
  end.

(** The requests of one client, one after the other. *)
Fixpoint browse (F : FlaskLogin) (L : Library) (us : Users)
    (visits : list Visit) (session : Session) (st : AppState)
  : list Response * Session * AppState :=
  match visits with
  | [] => ([], session, st)
  | v :: visits' =>
      let '(r, session1, st1) := handle F L us v session st in
      let '(rs, session2, st2) := browse F L us visits' session1 st1 in
      (r :: rs, session2, st2)
  end.

(** The credentials of a login request are those of a user. *)
Definition valid_login (us : Users) (request : Request) : Prop :=
  ∃ username password0 user,
    method request = POST ∧
    form request !! "username" = Some username ∧
    form request !! "password" = Some password0 ∧
    dict_get us username = Some user ∧ password user = password0.


(** A file name without directory part. *)
Definition plain (name : string) : bool := negb (string_mem "/"%char name).

Definition plain_upload (v : Visit) : bool :=
  match v with
  | to_upload _ file => plain (filename file)
  | _ => true
  end.

(** The paths that the body of [upload] writes to. *)
Definition output_paths : list string :=
  [path_join STATIC_FOLDER "eda_plot.png";
   path_join STATIC_FOLDER "fraud_agencies.png";
   report_path].

(** A character that [str.strip] removes at no end of the string. *)
Definition head_ok (s : string) : bool :=
  match s with
  | String a _ => negb (is_py_space a)
  | EmptyString => true
  end.

Fixpoint all_space (s : string) : bool :=
  match s with
  | String a s' => is_py_space a && all_space s'
  | EmptyString => true
  end.

(** The report and the dictionary tell the same number. *)
Definition report_agrees (st : AppState) : Prop :=
  (results_data st = ∅ ∧ fs st !! report_path = None)
  ∨ ∃ records,
      fs st !! report_path = Some (CsvFile report_header records) ∧
      results_data st !! "fraud_count"
        = Some (PInt (Z.of_nat (length records))).

(** The uploads among the requests of a client, in their order. *)
Definition uploads_of (visits : list Visit) : list (World * FileStorage) :=
  omap (λ v, match v with
             | to_upload w file => Some (w, file)
             | _ => None
             end) visits.

(** Every stage of the [try] statement succeeds on the uploaded content: the
    stages that [traces] lists return, both figures are drawn and written,
    and the report is written. *)
Definition completes (L : Library) (w : World) (content : string) : Prop :=
  ∃ t, traces L w content t ∧
       draw L (eda_figure (amounts t)) = inr () ∧
       io_error w (path_join STATIC_FOLDER "eda_plot.png") = None ∧
       draw L (fraud_figure L (agencies t)) = inr () ∧
       io_error w (path_join STATIC_FOLDER "fraud_agencies.png") = None ∧
       io_error w report_path = None.

(** The run of an upload succeeds: there is a file, it is saved, and every
    stage succeeds. *)
Definition succeeds (L : Library) (w : World) (file : FileStorage) : Prop :=
  filename file ≠ "" ∧ io_error w (upload_path file) = None ∧
  completes L w (stream file).

(** The answers of a run that does not end on the results page. *)
Definition error_answer (r : ViewResult) : Prop :=
  r = BodyStatus "No file selected" 400
  ∨ (∃ e, r = Unhandled e)
  ∨ (∃ actual_cols,
       r = BodyStatus ("Required columns missing. Found: "
                         +:+ repr_list actual_cols) 400)
  ∨ (∃ e, r = Body ("Error while processing file: " +:+ str e)).

(** [str.isascii]: on such strings [strip], [lower] and [replace_space]
    above are the methods of Python; outside the ASCII range Python follows
    Unicode, which is not modelled. *)
Definition is_ascii (a : ascii) : bool := (N_of_ascii a <? 128)%N.

Fixpoint isascii (s : string) : bool :=
  match s with
  | String a s' => is_ascii a && isascii s'
  | EmptyString => true
  end.

(** ** A small library and small uploads, to run the view on *)

Module Demo.

Fixpoint split (sep : ascii) (s : string) : list string :=
  match s with
  | EmptyString => [EmptyString]
  | String a s' =>
      if Ascii.eqb a sep then EmptyString :: split sep s'
      else match split sep s' with
           | field :: fields => String a field :: fields
           | [] => [String a EmptyString]
           end
  end.

Definition is_digit (a : ascii) : bool :=
  (48 <=? N_of_ascii a)%N && (N_of_ascii a <=? 57)%N.

Fixpoint all_digits (s : string) : bool :=
  match s with
  | EmptyString => true
  | String a s' => is_digit a && all_digits s'
  end.

Fixpoint digits_value (acc : Z) (s : string) : Z :=
  match s with
  | EmptyString => acc
  | String a s' => digits_value (10 * acc + Z.of_N (N_of_ascii a) - 48) s'
  end.

(** A column is numeric when each of its fields is empty or a number
    written in digits. *)
Definition numeric_column (records : list (list string)) (k : nat) : bool :=
  forallb (λ fields, all_digits (default EmptyString (fields !! k))) records.

Definition parse_cell (numeric : bool) (field : string) : Value :=
  if bool_decide (field = EmptyString) then NA
  else if numeric then Int (digits_value 0 field)
  else Str field.

(** A reader of comma-separated text without quoting: the first line is
    the header, blank lines are skipped, empty fields are null. *)
Definition csv_reader (content : string) : Result DataFrame :=
  match filter (λ line, line ≠ EmptyString) (split "010" content) with
  | [] => inl (Raise "EmptyDataError" "No columns to parse from file")
  | header :: lines =>
      let names := split "," header in
      let records := split "," <$> lines in
      let numeric := numeric_column records <$> seq 0 (length names) in
      inr {| columns := names;
             rows := imap (λ i fields,
                       (i, imap (λ k field,
                                   parse_cell (default false (numeric !! k))
                                              field)
                                fields))
                       records |}
  end.

(** A date parser that accepts the strings that start with a digit. *)
Definition parse_date (v : Value) : Value :=
  match v with
  | Str (String a _) => if is_digit a then Timestamp 0 else NA
  | _ => NA
  end.

(** A scorer that flags the rows whose first feature is at least 1000. *)
Definition flag (features : list Value) : Z :=
  match features with
  | Num q :: _ => if bool_decide (Qcle (Qc_of_Z 1000) q) then -1 else 1
  | _ => 1
  end.

Definition library : Library :=
  {| Matrix := list (list Value);
     Model := unit;
     read_csv := csv_reader;
     to_html := λ _ df, pretty (nrows df) +:+ " rows";
     series_to_string := λ s, pretty (length s) +:+ " entries";
     to_datetime := λ l, inr (parse_date <$> l);
     dt_month := λ _, Int 1;
     dt_dayofweek := λ _, Int 0;
     value_counts := λ l, (λ v, (v, Int 1)) <$> unique l;
     describe := λ _, [];
     sort_index := λ s, s;
     draw := λ _, inr ();
     fit_transform := λ df,
       match rows df with
       | [] => inl (ValueError "Found array with 0 sample(s)")
       | _ => inr (snd <$> rows df)
       end;
     isolation_forest_fit := λ _ _ _ _, inr ();
     predict := λ _ X, inr (flag <$> X) |}.

(** No write fails. *)
Definition calm : World := {| io_error := λ _, None; global_rng := 0 |}.

(** The write of the report fails. *)
Definition disk_full : World :=
  {| io_error := λ path,
       if bool_decide (path = report_path)
       then Some (Raise "OSError" "No space left on device") else None;
     global_rng := 1 |}.

Definition csv (lines : list string) : string :=
  String.concat nl lines +:+ nl.

(** Five rows: one unparsable date, one missing agency, one large
    amount; and a fifth column. *)
Definition five : FileStorage :=
  {| filename := "five.csv";
     stream := csv [
       "Transaction Date,Agency Name,Vendor,Amount,Memo";
       "2020-01-01,b,v1,10,x";
       "not-a-date,a,v1,20,x";
       "2020-01-03,,v1,30,x";
       "2020-01-04,a,v2,9000,x";
       "2020-01-05,c,v0,5," ] |}.

(** 4000 rows, 59 of them with a large amount. *)
Definition many : FileStorage :=
  {| filename := "many.csv";
     stream := csv (["Transaction Date,Agency Name,Vendor,Amount"]
                    ++ replicate 59 "2020-01-01,a,v,5000"
                    ++ replicate 3941 "2020-01-02,a,v,10") |}.

(** No [vendor] column. *)
Definition no_vendor : FileStorage :=
  {| filename := "no_vendor.csv";
     stream := csv [
       "Transaction Date,Agency Name,Amount,Memo";
       "2020-01-01,a,10,x" ] |}.

(** A fifth column whose name differs from [Amount] by its case only. *)
Definition two_amounts : FileStorage :=
  {| filename := "two_amounts.csv";
     stream := csv [
       "Transaction Date,Agency Name,Vendor,Amount,amount";
       "2020-01-01,a,v,10,11" ] |}.

(** Two rows, one with a large amount. *)
Definition two_rows : FileStorage :=
  {| filename := "two_rows.csv";
     stream := csv [
       "Transaction Date,Agency Name,Vendor,Amount";
       "2021-02-01,d,v3,7000";
       "2021-02-02,e,v4,12" ] |}.

(** The expected columns and no row. *)
Definition no_rows : FileStorage :=
  {| filename := "no_rows.csv";
     stream := csv ["Transaction Date,Agency Name,Vendor,Amount"] |}.

(** The upload of [five], and then an upload whose report cannot be
    written. *)
Definition five_run : ViewResult * AppState :=
  upload library calm five (startup ∅).

Definition failed_run : ViewResult * AppState :=
  upload library disk_full two_rows five_run.2.

(** A login manager whose address for the login page is easy to read. *)
Definition flask_login : FlaskLogin :=
  {| login_url := λ view url, "/" +:+ view +:+ "?next=" +:+ url |}.

Definition post (username password0 : string) : Request :=
  {| method := POST;
     form := <["username" := username]> (<["password" := password0]> ∅) |}.

End Demo.

(** * Properties *)

(** ** Rounding *)

Section float_bounds.
Import Binary64.

Lemma round_half_even_le (x : Q) (k : Z) :
  (x <= inject_Z k)%Q → round_half_even x ≤ k.
Proof.
  intros Hx. unfold round_half_even.
  assert (Hf : Qfloor x ≤ k).
  { rewrite <- (Qfloor_Z k). by apply Qfloor_resp_le. }
  destruct (Qcompare_spec (x - inject_Z (Qfloor x)) (1 # 2)) as [He|Hl|Hg];
    [destruct (Z.even _); [lia|]|lia|].
  all: destruct (decide (Qfloor x = k)) as [Heq|Hne]; [exfalso|lia].
  all: assert (Hle : (x - inject_Z (Qfloor x) <= 0)%Q)
    by (rewrite Heq; apply (Qplus_le_l _ _ (inject_Z k)); by ring_simplify).
  - rewrite He in Hle. by apply Qle_not_lt in Hle.
  - apply (Qlt_not_le _ _ Hg). by apply Qle_trans with (y := 0%Q).
Qed.

Lemma round_half_even_ge (x : Q) (k : Z) :
  (inject_Z k <= x)%Q → k ≤ round_half_even x.
Proof.
  intros Hx. unfold round_half_even.
  assert (Hf : k ≤ Qfloor x).
  { rewrite <- (Qfloor_Z k). by apply Qfloor_resp_le. }
  destruct (Qcompare _ _); [destruct (Z.even _)| |]; lia.
Qed.

Lemma two_power_Q (a : Z) : 0 ≤ a → (2 ^ a == inject_Z (2 ^ a))%Q.
Proof. intros Ha. symmetry. by apply (Zpower_Qpower 2 a). Qed.

Lemma two_power_pos (a : Z) : (0 < 2 ^ a)%Q.
Proof. by apply Qpower_0_lt. Qed.

Lemma two_power_frac (a c : Z) :
  0 ≤ a → 0 ≤ c → (2 ^ (a - c) == (2 ^ a)%Z # Z.to_pos (2 ^ c))%Q.
Proof.
  intros Ha Hc. rewrite Qpower_minus by done. rewrite !two_power_Q by done.
  rewrite (Qmake_Qdiv (2 ^ a) (Z.to_pos (2 ^ c))).
  rewrite Z2Pos.id by (apply Z.pow_pos_nonneg; lia). reflexivity.
Qed.

(** The exponent found by [ilog2] brackets a positive rational. *)
Lemma ilog2_spec (q : Q) :
  (0 < q)%Q → (2 ^ ilog2 q <= q)%Q ∧ (q < 2 ^ (ilog2 q + 1))%Q.
Proof.
  intros Hq. unfold ilog2.
  rewrite (Qabs_pos q) by by apply Qlt_le_weak.
  destruct q as [n d]. simpl Qnum. simpl Qden.
  assert (Hn : 0 < n) by (unfold Qlt in Hq; simpl in Hq; lia).
  rewrite Z.abs_eq by lia.
  pose proof (Z.log2_spec n Hn) as [Hn1 Hn2].
  pose proof (Z.log2_spec (Z.pos d) (Pos2Z.is_pos d)) as [Hd1 Hd2].
  pose proof (Z.log2_nonneg n). pose proof (Z.log2_nonneg (Z.pos d)).
  set (a := Z.log2 n) in *. set (b := Z.log2 (Z.pos d)) in *.
  assert (0 < 2 ^ a) by (apply Z.pow_pos_nonneg; lia).
  assert (0 < 2 ^ b) by (apply Z.pow_pos_nonneg; lia).
  assert (0 < 2 ^ (b + 1)) by (apply Z.pow_pos_nonneg; lia).
  destruct (Qle_bool _ _) eqn:Hb.
  - apply Qle_bool_iff in Hb. split; [done|].
    replace (a - b + 1) with ((a + 1) - b) by lia.
    rewrite two_power_frac by lia. unfold Qlt. simpl.
    rewrite Z2Pos.id by done.
    replace (Z.succ a) with (a + 1) in Hn2 by lia. nia.
  - split.
    + replace (a - b - 1) with (a - (b + 1)) by lia.
      rewrite two_power_frac by lia. unfold Qle. simpl.
      rewrite Z2Pos.id by done.
      replace (Z.succ b) with (b + 1) in Hd2 by lia. nia.
    + replace (a - b - 1 + 1) with (a - b) by lia.
      apply Qnot_le_lt. intros Hle. apply Qle_bool_iff in Hle. congruence.
Qed.

Lemma ulp_exp_nonpos (q : Q) : (0 < q)%Q → (q < 2 ^ 53)%Q → ulp_exp q ≤ 0.
Proof.
  intros Hq Hlt. destruct (ilog2_spec q Hq) as [Hlo _].
  assert (ilog2 q < 53).
  { apply (Qpower_lt_compat_l_inv 2); [|done].
    by apply Qle_lt_trans with (y := q). }
  unfold ulp_exp, prec, emin. lia.
Qed.

Lemma RN_nonneg (q : Q) : (0 <= q)%Q → (0 <= RN q)%Q.
Proof.
  intros Hq. unfold RN. destruct (Qeq_bool q 0); [done|].
  rewrite Qred_correct.
  apply Qmult_le_0_compat; [|apply Qlt_le_weak, two_power_pos].
  change 0%Q with (inject_Z 0). rewrite <- Zle_Qle.
  apply round_half_even_ge. simpl.
  apply Qle_shift_div_l; [apply two_power_pos|]. by rewrite Qmult_0_l.
Qed.

(** Rounding never crosses an integer bound: integers below [2^53] are
    binary64 numbers. *)
Lemma RN_le_Z (q : Q) (b : Z) :
  (0 <= q)%Q → (q <= inject_Z b)%Q → (q < 2 ^ 53)%Q → (RN q <= inject_Z b)%Q.
Proof.
  intros Hq Hb Hlt. unfold RN. destruct (Qeq_bool q 0) eqn:Hz.
  { by apply Qle_trans with (y := q). }
  assert (Hpos : (0 < q)%Q).
  { apply Qle_lt_or_eq in Hq as [?|Heq]; [done|].
    symmetry in Heq. apply Qeq_bool_iff in Heq. congruence. }
  pose proof (ulp_exp_nonpos q Hpos Hlt) as Hp.
  rewrite Qred_correct. set (p := ulp_exp q) in *.
  assert (HN : (2 ^ p == / inject_Z (2 ^ (- p)))%Q).
  { rewrite <- two_power_Q by lia. rewrite <- Qpower_opp.
    by replace (- - p) with p by lia. }
  assert (HNpos : 0 < 2 ^ (- p)) by (apply Z.pow_pos_nonneg; lia).
  assert (HNposQ : (0 < inject_Z (2 ^ (- p)))%Q).
  { change 0%Q with (inject_Z 0). by rewrite <- Zlt_Qlt. }
  set (R := round_half_even (q / 2 ^ p)).
  assert (HR : R ≤ b * 2 ^ (- p)).
  { apply round_half_even_le. rewrite inject_Z_mult.
    assert (Hdiv : (q / 2 ^ p == q * inject_Z (2 ^ (- p)))%Q).
    { unfold Qdiv. apply Qmult_comp; [reflexivity|].
      rewrite <- (Qinv_involutive (inject_Z (2 ^ (- p)))).
      by apply Qinv_comp. }
    rewrite Hdiv. apply Qmult_le_compat_r; [done|by apply Qlt_le_weak]. }
  assert (Hmul : (inject_Z R * 2 ^ p == inject_Z R / inject_Z (2 ^ (- p)))%Q).
  { unfold Qdiv. apply Qmult_comp; [reflexivity|exact HN]. }
  rewrite Hmul. apply Qle_shift_div_r; [done|].
  rewrite <- inject_Z_mult, <- Zle_Qle. exact HR.
Qed.
End float_bounds.

Lemma round_half_even_close (x : Q) :
  (x - (1 # 2) <= inject_Z (Binary64.round_half_even x))%Q ∧
  (inject_Z (Binary64.round_half_even x) <= x + (1 # 2))%Q.
Proof.
  unfold Binary64.round_half_even.
  pose proof (Qfloor_le x) as Hlo. pose proof (Qlt_floor x) as Hhi.
  rewrite inject_Z_plus in Hhi. change (inject_Z 1) with 1%Q in Hhi.
  destruct (Qcompare_spec (x - inject_Z (Qfloor x)) (1 # 2)) as [He|Hl|Hg];
    [destruct (Z.even _)| |];
    rewrite ?inject_Z_plus; change (inject_Z 1) with 1%Q; split; lra.
Qed.

(** The error of one rounding below [2^k], away from the subnormal range. *)
Lemma RN_close (q : Q) (k : Z) :
  (0 <= q)%Q → (q < 2 ^ k)%Q → -1021 ≤ k →
  (q - 2 ^ (k - 54) <= Binary64.RN q)%Q ∧ (Binary64.RN q <= q + 2 ^ (k - 54))%Q.
Proof.
  intros Hq Hlt Hk. pose proof (two_power_pos (k - 54)) as Heps.
  unfold Binary64.RN. destruct (Qeq_bool q 0) eqn:Hz.
  { apply Qeq_bool_iff in Hz. split; lra. }
  assert (Hpos : (0 < q)%Q).
  { apply Qle_lt_or_eq in Hq as [?|Heq]; [done|].
    symmetry in Heq. apply Qeq_bool_iff in Heq. congruence. }
  destruct (ilog2_spec q Hpos) as [Hlo _].
  assert (Hlog : Binary64.ilog2 q < k).
  { apply (Qpower_lt_compat_l_inv 2); [|done]. by apply Qle_lt_trans with (y := q). }
  set (p := Binary64.ulp_exp q).
  assert (Hp : p ≤ k - 53) by (unfold p, Binary64.ulp_exp, Binary64.prec, Binary64.emin; lia).
  rewrite Qred_correct.
  pose proof (two_power_pos p) as Hpp.
  destruct (round_half_even_close (q / 2 ^ p)) as [H1 H2].
  set (R := inject_Z (Binary64.round_half_even (q / 2 ^ p))) in *.
  assert (Hhalf : ((1 # 2) * 2 ^ p <= 2 ^ (k - 54))%Q).
  { replace (k - 54) with ((k - 53) + (-1)) by lia.
    rewrite Qpower_plus by done. change (2 ^ (-1))%Q with (1 # 2)%Q.
    rewrite (Qmult_comm (2 ^ (k - 53))).
    apply Qmult_le_l; [done|]. by apply Qpower_le_compat_l. }
  assert (Hq' : (q == (q / 2 ^ p) * 2 ^ p)%Q).
  { field. intros Hzero. rewrite Hzero in Hpp. by apply Qlt_irrefl in Hpp. }
  assert (Ha : ((q / 2 ^ p - (1 # 2)) * 2 ^ p <= R * 2 ^ p)%Q)
    by (apply Qmult_le_compat_r; [done|by apply Qlt_le_weak]).
  assert (Hb : (R * 2 ^ p <= (q / 2 ^ p + (1 # 2)) * 2 ^ p)%Q)
    by (apply Qmult_le_compat_r; [done|by apply Qlt_le_weak]).
  set (X := (q / 2 ^ p)%Q) in *. set (P := (2 ^ p)%Q) in *.
  set (E := (2 ^ (k - 54))%Q) in *. set (RP := (R * P)%Q) in *.
  assert (Ha' : (X * P - (1 # 2) * P <= RP)%Q).
  { setoid_replace (X * P - (1 # 2) * P)%Q with ((X - (1 # 2)) * P)%Q using relation Qeq by ring.
    exact Ha. }
  assert (Hb' : (RP <= X * P + (1 # 2) * P)%Q).
  { setoid_replace (X * P + (1 # 2) * P)%Q with ((X + (1 # 2)) * P)%Q using relation Qeq by ring.
    exact Hb. }
  set (XP := (X * P)%Q) in *. set (HP := ((1 # 2) * P)%Q) in *.
  split; lra.
Qed.


(** ** Frames *)

Section frames.
Implicit Types (df : DataFrame) (name : string) (r : nat * list Value).

Lemma positions_from_spec k lbl cols p :
  p ∈ positions_from k lbl cols ↔
  (k ≤ p)%nat ∧ cols !! (p - k)%nat = Some lbl.
Proof.
  revert k. induction cols as [|c cols IH]; intros k; simpl.
  - rewrite elem_of_nil. split; [done|]. by intros [_ ?].
  - assert (Hrec : p ∈ positions_from (S k) lbl cols ↔
                   (k < p)%nat ∧ (c :: cols) !! (p - k)%nat = Some lbl).
    { rewrite IH. split; intros [Hk Hl]; (split; [lia|]).
      - by replace (p - k)%nat with (S (p - S k)) by lia.
      - by replace (p - k)%nat with (S (p - S k)) in Hl by lia. }
    destruct (decide (c = lbl)) as [->|Hne].
    + rewrite elem_of_cons, Hrec. split.
      * intros [->|[? ?]]; [|split; [lia|done]].
        split; [lia|]. by rewrite Nat.sub_diag.
      * intros [Hk Hl]. destruct (decide (p = k)) as [->|]; [by left|].
        right. split; [lia|done].
    + rewrite Hrec. split; [intros [? ?]; split; [lia|done]|].
      intros [Hk Hl]. split; [|done].
      destruct (decide (p = k)) as [->|]; [|lia].
      rewrite Nat.sub_diag in Hl. simpl in Hl. congruence.
Qed.

Lemma positions_spec lbl cols p :
  p ∈ positions lbl cols ↔ cols !! p = Some lbl.
Proof.
  unfold positions. rewrite positions_from_spec, Nat.sub_0_r.
  split; [by intros [_ ?]|]. intros ?; split; [lia|done].
Qed.

Lemma positions_nil lbl cols : positions lbl cols = [] ↔ lbl ∉ cols.
Proof.
  split.
  - intros Hnil [p Hp]%list_elem_of_lookup.
    apply positions_spec in Hp. rewrite Hnil in Hp. by apply elem_of_nil in Hp.
  - intros Hnot. destruct (positions lbl cols) as [|p ps] eqn:E; [done|].
    exfalso. apply Hnot. apply (list_elem_of_lookup_2 _ p).
    apply positions_spec. rewrite E. by left.
Qed.

Lemma positions_head lbl cols p ps :
  positions lbl cols = p :: ps → cols !! p = Some lbl.
Proof. intros E. apply positions_spec. rewrite E. by left. Qed.

Lemma positions_from_app k lbl cols cols' :
  positions_from k lbl (cols ++ cols') =
  positions_from k lbl cols ++ positions_from (k + length cols) lbl cols'.
Proof.
  revert k. induction cols as [|c cols IH]; intros k; simpl.
  - by rewrite Nat.add_0_r.
  - rewrite IH. replace (S k + length cols)%nat with (k + S (length cols))%nat by lia.
    by destruct (decide (c = lbl)).
Qed.

Lemma positions_snoc lbl cols name :
  positions lbl (cols ++ [name]) =
  positions lbl cols ++ (if decide (name = lbl) then [length cols] else []).
Proof. unfold positions. by rewrite positions_from_app. Qed.

Lemma length_cells_of df r : length (cells_of df r) = length (columns df).
Proof. unfold cells_of. by rewrite length_fmap, length_seq. Qed.

Lemma cell_cells_of df r k :
  (k < length (columns df))%nat → cell (cells_of df r) k = cell r.2 k.
Proof.
  intros Hk. unfold cells_of, cell at 1.
  rewrite list_lookup_fmap, lookup_seq_lt by done. done.
Qed.

Lemma fmap_zip_with_l {A B C} (g : A → C) (f : A → B → A) (l : list A)
    (vs : list B) :
  (∀ a b, g (f a b) = g a) → length vs = length l →
  g <$> zip_with f l vs = g <$> l.
Proof.
  intros Hg. revert vs. induction l as [|a l IH]; intros [|v vs] Hlen;
    simplify_eq/=; [done|]. f_equal; [apply Hg|]. by apply IH.
Qed.

Lemma fmap_zip_with_r {A B} (g : A → B) (f : A → B → A) (l : list A)
    (vs : list B) :
  (∀ a b, g (f a b) = b) → length vs = length l →
  g <$> zip_with f l vs = vs.
Proof.
  intros Hg. revert vs. induction l as [|a l IH]; intros [|v vs] Hlen;
    simplify_eq/=; [done|]. f_equal; [apply Hg|]. by apply IH.
Qed.

Lemma length_foldr_insert (v : Value) (cs : list Value) (ps : list nat) :
  length (foldr (λ p cs, <[p:=v]> cs) cs ps) = length cs.
Proof. induction ps as [|p ps IH]; simpl; [done|]. by rewrite length_insert. Qed.

Lemma cell_foldr_insert_in (v : Value) (cs : list Value) (ps : list nat) q :
  q ∈ ps → (q < length cs)%nat →
  cell (foldr (λ p cs, <[p:=v]> cs) cs ps) q = v.
Proof.
  intros Hin Hq. unfold cell. induction ps as [|p ps IH]; simpl.
  - by apply elem_of_nil in Hin.
  - destruct (decide (p = q)) as [->|Hne].
    + rewrite list_lookup_insert_eq; [done|]. by rewrite length_foldr_insert.
    + rewrite list_lookup_insert_ne by done. apply IH.
      apply elem_of_cons in Hin as [?|?]; [congruence|done].
Qed.

Lemma cell_foldr_insert_notin (v : Value) (cs : list Value) (ps : list nat) q :
  q ∉ ps → cell (foldr (λ p cs, <[p:=v]> cs) cs ps) q = cell cs q.
Proof.
  intros Hin. unfold cell. induction ps as [|p ps IH]; simpl; [done|].
  apply not_elem_of_cons in Hin as [? ?].
  rewrite list_lookup_insert_ne by done. by apply IH.
Qed.

(** Column assignment keeps the rows, their labels and their order; the
    label is appended when it is new. *)
Lemma setitem_inv df name vs df' :
  setitem df name vs = inr df' →
  length vs = nrows df ∧ index df' = index df ∧
  columns df' = (if decide (name ∈ columns df) then columns df
                 else columns df ++ [name]).
Proof.
  unfold setitem. destruct (decide (length vs = nrows df)) as [Hlen|]; [|done].
  intros H. split; [done|].
  destruct (positions name (columns df)) as [|p ps] eqn:E;
    injection H as <-; unfold index; simpl.
  - apply positions_nil in E. rewrite decide_False by done.
    split; [|done]. by apply fmap_zip_with_l.
  - assert (name ∈ columns df).
    { apply list_elem_of_lookup. exists p. by apply positions_head in E. }
    rewrite decide_True by done. split; [|done]. by apply fmap_zip_with_l.
Qed.

Lemma setitem_nrows df name vs df' :
  setitem df name vs = inr df' → nrows df' = nrows df.
Proof.
  intros (_ & Hi & _)%setitem_inv. unfold nrows.
  apply (f_equal length) in Hi. unfold index in Hi.
  by rewrite !length_fmap in Hi.
Qed.

Lemma getitem_length df name vs :
  getitem df name = inr vs → length vs = nrows df.
Proof.
  unfold getitem. destruct (positions _ _); [done|].
  intros [= <-]. by rewrite length_fmap.
Qed.

(** Reading a column back after it was assigned. *)
Lemma getitem_setitem_eq df name vs df' :
  setitem df name vs = inr df' → getitem df' name = inr vs.
Proof.
  unfold setitem, getitem.
  destruct (decide (length vs = nrows df)) as [Hlen|]; [|done].
  destruct (positions name (columns df)) as [|p ps] eqn:E;
    intros [= <-]; simpl.
  - rewrite positions_snoc, E, decide_True by done. simpl. f_equal.
    apply fmap_zip_with_r; [|done]. intros r v. simpl. unfold cell.
    rewrite lookup_app_r by by rewrite length_cells_of.
    by rewrite length_cells_of, Nat.sub_diag.
  - rewrite E. f_equal. apply fmap_zip_with_r; [|done]. intros r v.
    apply (cell_foldr_insert_in v (cells_of df r) (p :: ps)); [by left|].
    rewrite length_cells_of. apply positions_head in E.
    by apply lookup_lt_Some in E.
Qed.

(** Assigning a column does not change the other columns. *)
Lemma getitem_setitem_ne df name vs df' other :
  setitem df name vs = inr df' → other ≠ name →
  getitem df' other = getitem df other.
Proof.
  unfold setitem, getitem.
  destruct (decide (length vs = nrows df)) as [Hlen|]; [|done].
  destruct (positions name (columns df)) as [|p ps] eqn:E;
    intros [= <-] Hne; simpl.
  - rewrite positions_snoc, decide_False, app_nil_r by done.
    destruct (positions other (columns df)) as [|q qs] eqn:Eo; [done|].
    f_equal. apply positions_head, lookup_lt_Some in Eo.
    rewrite <- (fmap_zip_with_l (λ r, cell r.2 q)
      (λ r v, (r.1, cells_of df r ++ [v])) (rows df) vs); [done| |done].
    intros r v. simpl. unfold cell at 1.
    rewrite lookup_app_l by by rewrite length_cells_of.
    by apply cell_cells_of.
  - destruct (positions other (columns df)) as [|q qs] eqn:Eo; [done|].
    f_equal. apply positions_head in Eo.
    rewrite <- (fmap_zip_with_l (λ r, cell r.2 q)
      (λ r v, (r.1, foldr (λ p cs, <[p:=v]> cs) (cells_of df r) (p :: ps)))
      (rows df) vs); [done| |done].
    intros r v. cbv beta. 
    change (cell (foldr (λ p cs, <[p:=v]> cs) (cells_of df r) (p :: ps)) q = cell r.2 q).
    rewrite cell_foldr_insert_notin.
    + apply cell_cells_of. by apply lookup_lt_Some in Eo.
    + rewrite <- E. intros Hin%positions_spec. congruence.
Qed.
End frames.

Lemma positions_from_nodup k lbl cols p :
  NoDup cols → cols !! p = Some lbl →
  positions_from k lbl cols = [(k + p)%nat].
Proof.
  intros Hnd. revert k p.
  induction Hnd as [|c cols Hc Hnd IH]; intros k p Hp; [done|].
  simpl. destruct p as [|p]; simpl in Hp.
  - injection Hp as ->. rewrite decide_True by done.
    rewrite Nat.add_0_r. f_equal.
    destruct (positions_from (S k) lbl cols) as [|q qs] eqn:E; [done|].
    exfalso. apply Hc.
    assert (Hq : q ∈ positions_from (S k) lbl cols) by (rewrite E; by left).
    apply positions_from_spec in Hq as [_ Hq].
    by apply list_elem_of_lookup_2 in Hq.
  - rewrite decide_False.
    + rewrite (IH (S k) p Hp). f_equal. lia.
    + intros ->. apply Hc. by apply list_elem_of_lookup_2 in Hp.
Qed.

Lemma positions_nodup lbl cols :
  NoDup cols → lbl ∈ cols → ∃ p, positions lbl cols = [p].
Proof.
  intros Hnd [p Hp]%list_elem_of_lookup. exists p.
  unfold positions. by rewrite (positions_from_nodup 0 lbl cols p).
Qed.


(** ** The monads *)

Section monads.
Context {A B : Type}.

Lemma Result_bind_inr (m : Result A) (f : A → Result B) b :
  m ≫= f = inr b → ∃ a, m = inr a ∧ f a = inr b.
Proof. destruct m as [e|a]; [done|]. intros H. by exists a. Qed.

Lemma Run_bind_inr (m : Run A) (f : A → Run B) st st' b :
  (m ≫= f) st = (inr b, st') →
  ∃ a st1, m st = (inr a, st1) ∧ f a st1 = (inr b, st').
Proof.
  unfold mbind, Run_bind. destruct (m st) as [[e|a] st1]; [done|].
  intros H. by exists a, st1.
Qed.

Lemma lift_inr (r : Result A) st st' a :
  lift r st = (inr a, st') → r = inr a ∧ st' = st.
Proof. unfold lift. by intros [= -> ->]. Qed.
End monads.

Lemma write_inr w path f st st' u :
  write w path f st = (inr u, st') →
  io_error w path = None ∧
  st' = {| results_data := results_data st; fs := <[path:=f]> (fs st) |}.
Proof. unfold write. destruct (io_error w path); [done|]. by intros [= _ <-]. Qed.

Lemma pd_read_csv_inr L path st st' df :
  pd_read_csv L path st = (inr df, st') →
  ∃ content, fs st !! path = Some (RawFile content) ∧
             read_csv L content = inr df ∧ st' = st.
Proof.
  unfold pd_read_csv. destruct (fs st !! path) as [[content| |]|]; try done.
  intros [= H <-]. by exists content.
Qed.

Lemma keeps_ret {A} (a : A) : keeps_results (mret a).
Proof. by intros st r st' [= _ <-]. Qed.

Lemma keeps_lift {A} (r : Result A) : keeps_results (lift r).
Proof. by intros st r' st' [= _ <-]. Qed.

Lemma keeps_write w path f : keeps_results (write w path f).
Proof.
  intros st r st'. unfold write. destruct (io_error w path); by intros [= _ <-].
Qed.

Lemma keeps_pd_read_csv L path : keeps_results (pd_read_csv L path).
Proof.
  intros st r st'. unfold pd_read_csv.
  destruct (fs st !! path) as [[| |]|]; by intros [= _ <-].
Qed.

Lemma keeps_bind {A B} (m : Run A) (f : A → Run B) :
  keeps_results m → (∀ a, keeps_results (f a)) → keeps_results (m ≫= f).
Proof.
  intros Hm Hf st r st'. unfold mbind, Run_bind.
  destruct (m st) as [[e|a] st1] eqn:E.
  - intros [= _ <-]. by eapply Hm.
  - intros H. rewrite (Hf _ _ _ _ H). by eapply Hm.
Qed.

Lemma keeps_savefig L w path fig : keeps_results (savefig L w path fig).
Proof. apply keeps_bind; [apply keeps_lift|intros; apply keeps_write]. Qed.

Lemma unless_bind {A} (m : Run A) (f : A → Run ViewResult) :
  keeps_results m → (∀ a, keeps_unless_redirect (f a)) →
  keeps_unless_redirect (m ≫= f).
Proof.
  intros Hm Hf st r st'. unfold mbind, Run_bind.
  destruct (m st) as [[e|a] st1] eqn:E.
  - intros [= _ <-] _. by eapply Hm.
  - intros H Hr. rewrite (Hf _ _ _ _ H Hr). by eapply Hm.
Qed.

Lemma unless_keeps (m : Run ViewResult) :
  keeps_results m → keeps_unless_redirect m.
Proof. intros Hm st r st' H _. by eapply Hm. Qed.

Lemma try_body_keeps L w path : keeps_unless_redirect (try_body L w path).
Proof.
  unfold try_body.
  apply unless_bind; [apply keeps_pd_read_csv|intros raw].
  apply unless_bind; [apply keeps_lift|intros normalized].
  destruct (negb _); [apply unless_keeps, keeps_ret|].
  repeat (apply unless_bind;
          [first [apply keeps_lift|apply keeps_savefig|apply keeps_write]
          |intros ?]).
  intros st r st'. unfold mbind, Run_bind, results_data_update, mret, Run_ret.
  by intros [= <- _] Hr.
Qed.

Lemma try_body_inr L w path st r st' :
  try_body L w path st = (inr r, st') →
  ∃ content raw0,
    fs st !! path = Some (RawFile content) ∧ read_csv L content = inr raw0 ∧
    ((has_expected (normalize_col <$> columns raw0) = false ∧
      r = BodyStatus ("Required columns missing. Found: "
                        +:+ repr_list (normalize_col <$> columns raw0)) 400 ∧
      st' = st)
     ∨ (∃ t, traces L w content t ∧ raw t = raw0 ∧
             r = Redirect "/results" ∧ st' = published L t st ∧
             io_error w report_path = None)).
Proof.
  unfold try_body. intros H.
  apply Run_bind_inr in H as (raw0 & st1 & (content & Hfs & Hread & ->)%pd_read_csv_inr & H).
  apply Run_bind_inr in H as (normalized & st1 & [Hnorm ->]%lift_inr & H).
  exists content, raw0. split; [done|]. split; [done|].
  destruct (has_expected _) eqn:Hexp; simpl in H.
  2:{ left. by injection H as <- <-. }
  right.
  apply Run_bind_inr in H as (sel & st1 & [Hsel ->]%lift_inr & H).
  apply Run_bind_inr in H as (cl & st1 & [Hcl ->]%lift_inr & H).
  apply Run_bind_inr in H as (eng & st1 & [Heng ->]%lift_inr & H).
  apply Run_bind_inr in H as (lines & st1 & [Hlines ->]%lift_inr & H).
  apply Run_bind_inr in H as (am & st1 & [Ham ->]%lift_inr & H).
  apply Run_bind_inr in H as ([] & st1 & H1 & H).
  apply Run_bind_inr in H1 as ([] & st0 & [_ ->]%lift_inr & [Hio1 ->]%write_inr).
  apply Run_bind_inr in H as (sc & st1 & [Hsc ->]%lift_inr & H).
  apply Run_bind_inr in H as (an & st1 & [Han ->]%lift_inr & H).
  apply Run_bind_inr in H as (pct & st1 & [Hpct ->]%lift_inr & H).
  apply Run_bind_inr in H as (ag & st1 & [Hag ->]%lift_inr & H).
  apply Run_bind_inr in H as ([] & st1 & H2 & H).
  apply Run_bind_inr in H2 as ([] & st0 & [_ ->]%lift_inr & [Hio2 ->]%write_inr).
  apply Run_bind_inr in H as ([] & st1 & [Hio3 ->]%write_inr & H).
  apply Run_bind_inr in H as ([] & st1 & Hup & H).
  injection Hup as <-. injection H as <- <-.
  exists {| raw := raw0; selected := sel; cleaned := cl; engineered := eng;
            eda_lines := lines; amounts := am; scored := sc; anomalies := an;
            fraud_percentage := pct; agencies := ag |}.
  split; [|done].
  unfold traces; simpl. rewrite Hnorm. simpl. done.
Qed.

(** ** The stages *)

Lemma index_nrows df df' : index df' = index df → nrows df' = nrows df.
Proof.
  unfold index, nrows. intros H%(f_equal length). by rewrite !length_fmap in H.
Qed.

Lemma setitem_columns df name vs df' :
  setitem df name vs = inr df' → columns df' = add_col (columns df) name.
Proof. by intros (_ & _ & ?)%setitem_inv. Qed.

Lemma setitem_index df name vs df' :
  setitem df name vs = inr df' → index df' = index df.
Proof. by intros (_ & ? & _)%setitem_inv. Qed.

Lemma normalize_inv df df' :
  normalize df = inr df' →
  columns df' = normalize_col <$> columns df ∧ rows df' = rows df.
Proof.
  unfold normalize, set_columns. destruct (decide _); [|done].
  by intros [= <-].
Qed.

Lemma getitem_cols_inv df labels df' :
  getitem_cols df labels = inr df' →
  Forall (λ l, l ∈ columns df) labels ∧ index df' = index df.
Proof.
  unfold getitem_cols.
  destruct (filter (λ l, l ∉ columns df) labels) as [|m ms] eqn:E; [|done].
  intros [= <-]. split.
  - apply Forall_forall. intros l Hl.
    destruct (decide (l ∈ columns df)) as [|Hn]; [done|].
    assert (l ∈ filter (λ l, l ∉ columns df) labels)
      by by apply list_elem_of_filter.
    rewrite E in H. by apply elem_of_nil in H.
  - unfold index. simpl. rewrite <- list_fmap_compose. done.
Qed.

Lemma select_expected_inv df df' :
  select_expected df = inr df' →
  has_expected (columns df) = true ∧ columns df' = canonical_cols ∧
  index df' = index df.
Proof.
  unfold select_expected. intros (df1 & H1 & H2)%Result_bind_inr.
  apply getitem_cols_inv in H1 as [Hall Hi].
  unfold set_columns in H2. destruct (decide _); [|done].
  injection H2 as <-. split; [|split; [done|exact Hi]].
  unfold has_expected. apply forallb_forall. intros l Hl.
  apply bool_decide_eq_true. rewrite Forall_forall in Hall.
  by apply Hall, list_elem_of_In.
Qed.

Lemma select_eq_inv df name v df' :
  select_eq df name v = inr df' →
  columns df' = columns df ∧
  ∃ p, columns df !! p = Some name ∧
       rows df' = filter (λ r, cell r.2 p = v) (rows df) ∧
       getitem df name = inr ((λ r, cell r.2 p) <$> rows df).
Proof.
  unfold select_eq, getitem.
  destruct (positions name (columns df)) as [|p ps] eqn:E; [done|].
  intros [= <-]. split; [done|]. exists p.
  split; [by apply positions_head in E|done].
Qed.

Lemma length_filter_eq_fmap {A B} `{EqDecision B} (f : A → B) (v : B)
    (l : list A) :
  length (filter (λ a, f a = v) l) = length (filter (λ x, x = v) (f <$> l)).
Proof.
  induction l as [|a l IH]; [done|]. rewrite fmap_cons, !filter_cons.
  destruct (decide (f a = v)); simpl; by rewrite IH.
Qed.

(** The number of selected rows is the number of values of the column that
    equal [v]. *)
Lemma select_eq_count df name v df' vs :
  select_eq df name v = inr df' → getitem df name = inr vs →
  nrows df' = length (filter (λ x, x = v) vs) ∧ (nrows df' ≤ nrows df)%nat.
Proof.
  intros (_ & p & _ & Hrows & Hget)%select_eq_inv Hvs.
  rewrite Hget in Hvs. injection Hvs as <-. unfold nrows. rewrite Hrows. split.
  - apply (length_filter_eq_fmap (λ r : nat * list Value, cell r.2 p)).
  - apply length_filter.
Qed.


Lemma engineer_inv L df df' :
  engineer L df = inr df' →
  index df' = index df ∧
  columns df' =
    foldl add_col (columns df)
      ["Month"; "DayOfWeek"; "AGENCY_CODE"; "MERCHANT_CODE"] ∧
  ∃ dates agencies merchants,
    getitem df "TRANSACTION_DATE" = inr dates ∧
    getitem df "AGENCY_NAME" = inr agencies ∧
    getitem df "MERCHANT_NAME" = inr merchants ∧
    getitem df' "Month" = inr (dt_month L <$> dates) ∧
    getitem df' "DayOfWeek" = inr (dt_dayofweek L <$> dates) ∧
    getitem df' "AGENCY_CODE" = inr (Int <$> cat_codes agencies) ∧
    getitem df' "MERCHANT_CODE" = inr (Int <$> cat_codes merchants) ∧
    ∀ other, other ∉ ["Month"; "DayOfWeek"; "AGENCY_CODE"; "MERCHANT_CODE"] →
             getitem df' other = getitem df other.
Proof.
  unfold engineer. intros H.
  apply Result_bind_inr in H as (dates & Hd & H).
  apply Result_bind_inr in H as (df1 & H1 & H).
  apply Result_bind_inr in H as (dates' & Hd' & H).
  apply Result_bind_inr in H as (df2 & H2 & H).
  apply Result_bind_inr in H as (ags & Ha & H).
  apply Result_bind_inr in H as (df3 & H3 & H).
  apply Result_bind_inr in H as (mers & Hm & H4).
  rewrite (getitem_setitem_ne _ _ _ _ _ H1) in Hd' by done.
  assert (dates' = dates) as -> by congruence.
  rewrite (getitem_setitem_ne _ _ _ _ _ H2), (getitem_setitem_ne _ _ _ _ _ H1)
    in Ha by done.
  rewrite (getitem_setitem_ne _ _ _ _ _ H3), (getitem_setitem_ne _ _ _ _ _ H2),
    (getitem_setitem_ne _ _ _ _ _ H1) in Hm by done.
  split.
  { rewrite (setitem_index _ _ _ _ H4), (setitem_index _ _ _ _ H3),
      (setitem_index _ _ _ _ H2). by apply setitem_index in H1. }
  split.
  { simpl. rewrite (setitem_columns _ _ _ _ H4), (setitem_columns _ _ _ _ H3),
      (setitem_columns _ _ _ _ H2). by rewrite (setitem_columns _ _ _ _ H1). }
  exists dates, ags, mers. repeat (split; [done|]).
  split.
  { rewrite (getitem_setitem_ne _ _ _ _ _ H4), (getitem_setitem_ne _ _ _ _ _ H3),
      (getitem_setitem_ne _ _ _ _ _ H2) by done.
    by apply getitem_setitem_eq in H1. }
  split.
  { rewrite (getitem_setitem_ne _ _ _ _ _ H4), (getitem_setitem_ne _ _ _ _ _ H3)
      by done. by apply getitem_setitem_eq in H2. }
  split.
  { rewrite (getitem_setitem_ne _ _ _ _ _ H4) by done.
    by apply getitem_setitem_eq in H3. }
  split; [by apply getitem_setitem_eq in H4|].
  intros other Hother.
  rewrite !not_elem_of_cons in Hother. destruct Hother as (?&?&?&?&_).
  rewrite (getitem_setitem_ne _ _ _ _ _ H4), (getitem_setitem_ne _ _ _ _ _ H3),
    (getitem_setitem_ne _ _ _ _ _ H2), (getitem_setitem_ne _ _ _ _ _ H1) by done.
  done.
Qed.

Lemma score_inv L w df df' :
  score L w df = inr df' →
  index df' = index df ∧
  columns df' = add_col (columns df) "Anomaly" ∧
  (∃ features X model labels,
     getitem_cols df feature_cols = inr features ∧
     fit_transform L features = inr X ∧
     isolation_forest_fit L 100 (Binary64.RN (2 # 100)) 42 X = inr model ∧
     predict L model X = inr labels ∧
     getitem df' "Anomaly" = inr (Int <$> labels)) ∧
  ∀ other, other ≠ "Anomaly" → getitem df' other = getitem df other.
Proof.
  unfold score. intros H.
  apply Result_bind_inr in H as (features & Hf & H).
  apply Result_bind_inr in H as (X & HX & H).
  apply Result_bind_inr in H as (model & Hm & H).
  apply Result_bind_inr in H as (labels & Hl & H).
  split; [by apply setitem_index in H|].
  split; [by apply setitem_columns in H|].
  split.
  - exists features, X, model, labels. repeat (split; [done|]).
    by apply getitem_setitem_eq in H.
  - intros other Hne. by apply (getitem_setitem_ne _ _ _ _ _ H).
Qed.

(** The scorer is seeded by the view: the process-wide generator plays no
    part. *)
Lemma score_seeded L w1 w2 df : score L w1 df = score L w2 df.
Proof. reflexivity. Qed.

Lemma survivors_cons r kept v parsed :
  survivors (r :: kept) (v :: parsed) =
  (if isnull v then []
   else [(r.1, [v; cell r.2 1; cell r.2 2; cell r.2 3])])
  ++ survivors kept parsed.
Proof. unfold survivors. simpl. by destruct (isnull v). Qed.

Lemma survivors_sublist kept parsed :
  sublist (survivors kept parsed).*1 kept.*1.
Proof.
  revert parsed. induction kept as [|r kept IH]; intros [|v parsed];
    try apply sublist_nil_l.
  rewrite survivors_cons. destruct (isnull v); simpl.
  - apply sublist_cons, IH.
  - apply sublist_skip, IH.
Qed.

(** Cleaning, on a table of the four canonical columns. *)
Lemma clean_inv L df df' :
  columns df = canonical_cols → clean L df = inr df' →
  columns df' = canonical_cols ∧
  ∃ dates parsed,
    getitem (dropna df) "TRANSACTION_DATE" = inr dates ∧
    to_datetime L dates = inr parsed ∧
    length parsed = nrows (dropna df) ∧
    rows df' = survivors (rows (dropna df)) parsed.
Proof.
  intros Hcols. unfold clean. intros H.
  apply Result_bind_inr in H as (dates & Hd & H).
  apply Result_bind_inr in H as (parsed & Hp & H).
  apply Result_bind_inr in H as (df1 & H1 & H).
  pose proof (setitem_inv _ _ _ _ H1) as (Hlen & _ & Hc1).
  simpl in Hc1. rewrite Hcols in Hc1. simpl in Hc1.
  unfold dropna_subset in H. rewrite Hc1 in H. simpl in H.
  injection H as <-. simpl. split; [done|].
  exists dates, parsed. repeat (split; [done|]).
  unfold setitem in H1. rewrite decide_True in H1 by done.
  simpl in H1. rewrite Hcols in H1. simpl in H1. injection H1 as <-. simpl.
  clear Hd Hp Hc1. unfold nrows in Hlen. simpl in Hlen.
  unfold cells_of. simpl. rewrite Hcols. simpl.
  revert parsed Hlen.
  generalize (filter (λ r, notnull_row df r = true) (rows df)).
  intros kept. induction kept as [|r kept IH]; intros [|v parsed] Hlen;
    simplify_eq/=; [done|].
  rewrite survivors_cons, filter_cons. simpl.
  case_decide as Hdec.
  - change (isnull v = false) in Hdec. rewrite Hdec. simpl. f_equal.
    by apply IH.
  - change (isnull v ≠ false) in Hdec. destruct (isnull v); [|done].
    simpl. by apply IH.
Qed.

(** The surviving rows keep their order. *)
Lemma clean_sublist L df df' :
  columns df = canonical_cols → clean L df = inr df' →
  sublist (index df') (index df).
Proof.
  intros Hcols (_ & dates & parsed & _ & _ & _ & Hrows)%clean_inv; [|done].
  unfold index. rewrite Hrows.
  etrans; [apply survivors_sublist|]. simpl.
  apply fmap_sublist, sublist_filter.
Qed.

(** When the normalised names are pairwise distinct, the selection of the
    expected columns succeeds and the other columns are dropped. *)
Lemma select_expected_nodup df :
  NoDup (columns df) → has_expected (columns df) = true →
  ∃ df', select_expected df = inr df' ∧ columns df' = canonical_cols ∧
         index df' = index df ∧
         Forall (λ r, length r.2 = 4%nat) (rows df').
Proof.
  intros Hnd Hexp. unfold has_expected, expected_cols in Hexp. simpl in Hexp.
  repeat (apply andb_prop in Hexp as [?%bool_decide_eq_true Hexp]).
  destruct (positions_nodup "transaction_date" _ Hnd) as [p1 Hp1]; [done|].
  destruct (positions_nodup "agency_name" _ Hnd) as [p2 Hp2]; [done|].
  destruct (positions_nodup "vendor" _ Hnd) as [p3 Hp3]; [done|].
  destruct (positions_nodup "amount" _ Hnd) as [p4 Hp4]; [done|].
  unfold select_expected, getitem_cols, expected_cols.
  rewrite !filter_cons, filter_nil, !decide_False by by intros [].
  simpl. rewrite Hp1, Hp2, Hp3, Hp4. simpl. unfold set_columns. simpl.
  eexists. split; [reflexivity|]. simpl. split; [done|]. split.
  - unfold index. simpl. by rewrite <- list_fmap_compose.
  - apply Forall_fmap, Forall_forall. by intros r _.
Qed.

(** ** The view *)

Lemma upload_cases L w file st r st' :
  upload L w file st = (r, st') →
  (filename file = "" ∧ r = BodyStatus "No file selected" 400 ∧ st' = st)
  ∨ (filename file ≠ "" ∧
     ∃ e, io_error w (upload_path file) = Some e ∧ r = Unhandled e ∧ st' = st)
  ∨ (filename file ≠ "" ∧ io_error w (upload_path file) = None ∧
     ((∃ e, try_body L w (upload_path file) (stored file st) = (inl e, st') ∧
            r = Body ("Error while processing file: " +:+ str e))
      ∨ try_body L w (upload_path file) (stored file st) = (inr r, st'))).
Proof.
  unfold upload. intros H. case_bool_decide as Hname.
  { injection H as <- <-. by left. }
  right. fold (upload_path file) in H. unfold write in H.
  destruct (io_error w (upload_path file)) as [e|] eqn:Hio.
  { injection H as <- <-. left. split; [done|]. by exists e. }
  right. split; [done|]. split; [done|].
  fold (stored file st) in H.
  destruct (try_body L w (upload_path file) (stored file st)) as [[e|r'] st2].
  - injection H as <- <-. left. by exists e.
  - injection H as <- <-. by right.
Qed.

(** What a successful upload has gone through, and the state it leaves. *)
Lemma upload_redirect L w file st st' :
  upload L w file st = (Redirect "/results", st') →
  ∃ t, traces L w (stream file) t ∧ st' = published L t (stored file st).
Proof.
  intros [(_ & ? & _)|[(_ & e & _ & ? & _)|(_ & _ & [(e & _ & ?)|H])]]%upload_cases;
    try done.
  apply try_body_inr in H as (content & raw0 & Hfs & Hread & [(_ & ? & _)|H]);
    [done|].
  destruct H as (t & Ht & _ & _ & -> & _).
  exists t. split; [|done].
  unfold stored in Hfs. simpl in Hfs. rewrite lookup_insert_eq in Hfs.
  by injection Hfs as <-.
Qed.

(** An upload that does not end on the results page leaves the dictionary
    as it was. *)
Lemma upload_keeps L w file st r st' :
  upload L w file st = (r, st') → r ≠ Redirect "/results" →
  results_data st' = results_data st.
Proof.
  intros [(_ & _ & ->)|[(_ & e & _ & _ & ->)|(_ & _ & [(e & H & _)|H])]]%upload_cases
    Hr; try done.
  - by rewrite (try_body_keeps L w _ _ _ _ H).
  - rewrite (try_body_keeps L w _ _ _ _ H); [done|congruence].
Qed.

(** The nine entries of the dictionary after [update]. *)
Lemma lookup_result_set (d : gmap string PyVal) a b c e f g h i j :
  let d' := dict_update d (result_set a b c e f g h i j) in
  d' !! "raw_preview" = Some (PStr a) ∧
  d' !! "preprocessing_summary" = Some (PStr (String.concat (nl +:+ nl) b)) ∧
  d' !! "eda_summary" = Some (PStr (String.concat (nl +:+ nl) c)) ∧
  d' !! "fraud_table" = Some (PStr e) ∧
  d' !! "eda_plot" = Some (PStr f) ∧
  d' !! "fraud_plot" = Some (PStr g) ∧
  d' !! "fraud_count" = Some (PInt h) ∧
  d' !! "total_transactions" = Some (PInt i) ∧
  d' !! "fraud_percentage" = Some (PFloat j).
Proof.
  unfold dict_update, result_set. simpl.
  repeat split; by simplify_map_eq.
Qed.

Lemma lookup_result_set_keys (d : gmap string PyVal) a b c e f g h i j :
  Forall (λ key, is_Some (dict_update d (result_set a b c e f g h i j) !! key))
         result_keys.
Proof.
  pose proof (lookup_result_set d a b c e f g h i j) as H. simpl in H.
  destruct H as (?&?&?&?&?&?&?&?&?).
  unfold result_keys. repeat (constructor; [eauto|]). constructor.
Qed.

(** The entries do not depend on what the dictionary held before. *)
Lemma lookup_result_set_fresh (d1 d2 : gmap string PyVal) kvs key :
  key ∈ kvs.*1 → dict_update d1 kvs !! key = dict_update d2 kvs !! key.
Proof.
  unfold dict_update. revert d1 d2.
  induction kvs as [|[k v] kvs IH] using rev_ind; intros d1 d2 Hin.
  { by apply elem_of_nil in Hin. }
  rewrite !foldl_app. simpl.
  destruct (decide (k = key)) as [->|Hne].
  - by rewrite !lookup_insert_eq.
  - rewrite !lookup_insert_ne by done. apply IH.
    rewrite fmap_app in Hin. apply elem_of_app in Hin as [?|Hin]; [done|].
    apply list_elem_of_singleton in Hin. simpl in Hin. congruence.
Qed.

Lemma traces_functional L w1 w2 content t1 t2 :
  traces L w1 content t1 → traces L w2 content t2 → t1 = t2.
Proof.
  intros (H1&_&H2&H3&H4&H5&H6&H7&H8&H9&H10) (G1&_&G2&G3&G4&G5&G6&G7&G8&G9&G10).
  destruct t1, t2; simpl in *.
  rewrite (score_seeded L w2 w1) in G7.
  repeat match goal with
         | H : ?x = inr ?a, G : ?x = inr ?b |- _ =>
             assert (a = b) by congruence; subst; clear G
         end.
  done.
Qed.

(** ** The counters *)

Lemma percentage_bounds (f t : Z) (x : Q) :
  0 ≤ f ≤ t → percentage f t = inr x → (0 <= x)%Q ∧ (x <= 100)%Q.
Proof.
  intros Hft. unfold percentage, truediv.
  destruct (decide (t = 0)) as [|Ht]; [done|]. simpl. intros [= <-].
  assert (Htpos : (0 < inject_Z t)%Q).
  { change 0%Q with (inject_Z 0). rewrite <- Zlt_Qlt. lia. }
  assert (Hq0 : (0 <= inject_Z f / inject_Z t)%Q).
  { apply Qle_shift_div_l; [done|]. rewrite Qmult_0_l.
    change 0%Q with (inject_Z 0). rewrite <- Zle_Qle. lia. }
  assert (Hq1 : (inject_Z f / inject_Z t <= inject_Z 1)%Q).
  { apply Qle_shift_div_r; [done|]. rewrite Qmult_1_l, <- Zle_Qle. lia. }
  set (ratio := Binary64.RN (inject_Z f / inject_Z t)).
  assert (Hr0 : (0 <= ratio)%Q) by by apply RN_nonneg.
  assert (Hr1 : (ratio <= inject_Z 1)%Q).
  { apply RN_le_Z; [done..|]. by apply Qle_lt_trans with (y := inject_Z 1). }
  unfold Binary64.mul. set (scaled := (ratio * inject_Z 100)%Q).
  assert (Hs0 : (0 <= scaled)%Q) by by apply Qmult_le_0_compat.
  assert (Hs1 : (scaled <= inject_Z 100)%Q).
  { unfold scaled. rewrite <- (Qmult_1_l (inject_Z 100)) at 2.
    by apply Qmult_le_compat_r. }
  set (m := Binary64.RN scaled).
  assert (Hm0 : (0 <= m)%Q) by by apply RN_nonneg.
  assert (Hm1 : (m <= inject_Z 100)%Q).
  { apply RN_le_Z; [done..|]. by apply Qle_lt_trans with (y := inject_Z 100). }
  unfold Binary64.round. change (10 ^ 2)%Q with (inject_Z 100).
  set (y := Binary64.round_half_even (m * inject_Z 100)).
  assert (Hy0 : 0 ≤ y).
  { apply round_half_even_ge. by apply Qmult_le_0_compat. }
  assert (Hy1 : y ≤ 10000).
  { apply round_half_even_le. change (inject_Z 10000) with (inject_Z 100 * inject_Z 100)%Q.
    by apply Qmult_le_compat_r. }
  assert (Hd0 : (0 <= inject_Z y / inject_Z 100)%Q).
  { apply Qle_shift_div_l; [done|]. rewrite Qmult_0_l.
    change 0%Q with (inject_Z 0). by rewrite <- Zle_Qle. }
  assert (Hd1 : (inject_Z y / inject_Z 100 <= inject_Z 100)%Q).
  { apply Qle_shift_div_r; [done|]. rewrite <- inject_Z_mult, <- Zle_Qle. lia. }
  split; [by apply RN_nonneg|].
  apply RN_le_Z; [done..|]. by apply Qle_lt_trans with (y := inject_Z 100).
Qed.

Lemma percentage_zero (f : Z) : percentage f 0 = inl ZeroDivisionError.
Proof. reflexivity. Qed.


(** The stored percentage is within half a hundredth, and four roundings,
    of the exact percentage. *)
Lemma percentage_close (f t : Z) (x : Q) :
  0 ≤ f ≤ t → percentage f t = inr x →
  let exact := (inject_Z (100 * f) / inject_Z t)%Q in
  (exact - (1 # 200) - 2 ^ (-44) <= x)%Q ∧ (x <= exact + (1 # 200) + 2 ^ (-44))%Q.
Proof.
  intros Hft Hpct. cbv zeta.
  change (2 ^ (-44))%Q with (1 # 17592186044416)%Q.
  unfold percentage, truediv in Hpct.
  destruct (decide (t = 0)) as [|Ht]; [done|]. simpl in Hpct.
  injection Hpct as <-.
  assert (Htpos : (0 < inject_Z t)%Q).
  { change 0%Q with (inject_Z 0). rewrite <- Zlt_Qlt. lia. }
  assert (Hq0 : (0 <= inject_Z f / inject_Z t)%Q).
  { apply Qle_shift_div_l; [done|]. rewrite Qmult_0_l.
    change 0%Q with (inject_Z 0). rewrite <- Zle_Qle. lia. }
  assert (Hq1 : (inject_Z f / inject_Z t <= 1)%Q).
  { apply Qle_shift_div_r; [done|]. rewrite Qmult_1_l, <- Zle_Qle. lia. }
  assert (Hexact : (inject_Z (100 * f) / inject_Z t
                    == 100 * (inject_Z f / inject_Z t))%Q).
  { rewrite inject_Z_mult. change (inject_Z 100) with 100%Q. field.
    intros Hzero. rewrite Hzero in Htpos. by apply Qlt_irrefl in Htpos. }
  rewrite Hexact. set (q := (inject_Z f / inject_Z t)%Q) in *.
  destruct (RN_close q 1) as [Hr1 Hr2]; [done|lra|lia|].
  pose proof (RN_nonneg q Hq0) as Hr0.
  assert (Hr3 : (Binary64.RN q <= inject_Z 1)%Q) by (apply RN_le_Z; [done|done|lra]).
  change (inject_Z 1) with 1%Q in Hr3.
  change (2 ^ (1 - 54))%Q with (1 # 9007199254740992)%Q in Hr1, Hr2.
  set (ratio := Binary64.RN q) in *.
  unfold Binary64.mul. change (inject_Z 100) with 100%Q.
  destruct (RN_close (ratio * 100) 7) as [Hm1 Hm2]; [lra|lra|lia|].
  assert (Hm0 : (0 <= Binary64.RN (ratio * 100))%Q) by (apply RN_nonneg; lra).
  assert (Hm3 : (Binary64.RN (ratio * 100) <= inject_Z 100)%Q)
    by (apply RN_le_Z; change (inject_Z 100) with 100%Q; lra).
  change (inject_Z 100) with 100%Q in Hm3.
  change (2 ^ (7 - 54))%Q with (1 # 140737488355328)%Q in Hm1, Hm2.
  set (m := Binary64.RN (ratio * 100)) in *.
  unfold Binary64.round. change (10 ^ 2)%Q with 100%Q.
  destruct (round_half_even_close (m * 100)) as [Hy1 Hy2].
  set (y := inject_Z (Binary64.round_half_even (m * 100))) in *.
  assert (Hd : (y / 100 == y * (1 # 100))%Q) by (field).
  assert (Hy0 : (inject_Z 0 <= y)%Q).
  { unfold y. rewrite <- Zle_Qle. apply round_half_even_ge.
    change (inject_Z 0) with 0%Q. lra. }
  change (inject_Z 0) with 0%Q in Hy0.
  assert (Hy3 : (y <= inject_Z 10000)%Q).
  { unfold y. rewrite <- Zle_Qle. apply round_half_even_le.
    change (inject_Z 10000) with 10000%Q. lra. }
  change (inject_Z 10000) with 10000%Q in Hy3.
  set (d := (y / 100)%Q) in *.
  destruct (RN_close d 7) as [Hx1 Hx2]; [lra|lra|lia|].
  change (2 ^ (7 - 54))%Q with (1 # 140737488355328)%Q in Hx1, Hx2.
  set (x := Binary64.RN d) in *.
  split; lra.
Qed.

(** The counters of a run. *)
Lemma traces_counters L w content t :
  traces L w content t →
  index (scored t) = index (cleaned t) ∧
  (nrows (anomalies t) ≤ nrows (scored t))%nat ∧
  nrows (scored t) = nrows (cleaned t) ∧
  ∃ flags, getitem (scored t) "Anomaly" = inr flags ∧
           nrows (anomalies t) = length (filter (λ v, v = Int (-1)) flags).
Proof.
  intros (_&_&_&_&Heng&_&_&Hsc&Han&_&_).
  apply engineer_inv in Heng as (Hi1 & _).
  apply score_inv in Hsc as (Hi2 & _ & (?&?&?&labels&_&_&_&_&Hflags) & _).
  assert (Hi : index (scored t) = index (cleaned t)) by congruence.
  destruct (select_eq_count _ _ _ _ _ Han Hflags) as [Hc Hle].
  split; [done|]. split; [done|]. split; [by apply index_nrows|].
  by exists (Int <$> labels).
Qed.

Lemma traces_tables L w content t :
  traces L w content t →
  selected_table L content = inr (selected t) ∧
  cleaned_table L content = inr (cleaned t) ∧
  scored_table L w content = inr (scored t).
Proof.
  intros (Hraw&_&Hsel&Hcl&Heng&_&_&Hsc&_).
  assert (Hs : selected_table L content = inr (selected t)).
  { unfold selected_table. rewrite Hraw. simpl.
    destruct (normalize (raw t)) as [|n]; [done|]. exact Hsel. }
  assert (Hc : cleaned_table L content = inr (cleaned t)).
  { unfold cleaned_table. by rewrite Hs. }
  repeat (split; [done|]).
  unfold scored_table. rewrite Hc. simpl. by rewrite Heng.
Qed.

Lemma traces_columns L w content t :
  traces L w content t →
  columns (selected t) = canonical_cols ∧
  columns (cleaned t) = canonical_cols ∧
  columns (scored t) = report_header ∧
  columns (anomalies t) = report_header.
Proof.
  intros (_&_&Hsel&Hcl&Heng&_&_&Hsc&Han&_).
  apply Result_bind_inr in Hsel as (n & _ & Hsel).
  apply select_expected_inv in Hsel as (_ & Hc0 & _).
  apply clean_inv in Hcl as (Hc1 & _); [|done].
  apply engineer_inv in Heng as (_ & Hc2 & _).
  apply score_inv in Hsc as (_ & Hc3 & _).
  apply select_eq_inv in Han as (Hc4 & _).
  rewrite Hc1 in Hc2. rewrite Hc2 in Hc3. rewrite Hc3 in Hc4.
  by repeat split.
Qed.

(** ** Runs that succeed and runs that fail *)

(** The dictionary that a successful upload leaves. *)
Lemma upload_result_set_ok L w file st st' :
  upload L w file st = (Redirect "/results", st') →
  result_set_ok (results_data st').
Proof.
  intros (t & Ht & ->)%upload_redirect.
  destruct (traces_counters _ _ _ _ Ht) as (_ & Hle & _).
  pose proof Ht as (_&_&_&_&_&_&_&_&_&Hpct&_).
  apply percentage_bounds in Hpct as [Hp0 Hp1]; [|lia].
  unfold published, trace_result_set. cbn [results_data].
  match goal with
  | |- context [dict_update ?d (result_set ?a ?b ?c ?e ?f ?g ?h ?i ?j)] =>
      pose proof (lookup_result_set d a b c e f g h i j) as Hlook;
      pose proof (lookup_result_set_keys d a b c e f g h i j) as Hkeys
  end.
  cbv zeta in Hlook. destruct Hlook as (_&_&_&_&_&_&Hfc&Htt&Hfp).
  exists (Z.of_nat (nrows (anomalies t))), (Z.of_nat (nrows (scored t))),
    (fraud_percentage t).
  repeat (split; [done || lia|]). done.
Qed.

(** A run of the [try] statement that ends on the results page has been
    through every stage. *)
Lemma try_body_redirect L w path st st' content :
  fs st !! path = Some (RawFile content) →
  try_body L w path st = (inr (Redirect "/results"), st') →
  completes L w content.
Proof.
  unfold try_body. intros Hfs0 H.
  apply Run_bind_inr in H
    as (raw0 & st1 & (content' & Hfs & Hread & ->)%pd_read_csv_inr & H).
  assert (content' = content) as -> by congruence.
  apply Run_bind_inr in H as (normalized & st1 & [Hnorm ->]%lift_inr & H).
  destruct (has_expected _) eqn:Hexp; simpl in H; [|by injection H].
  apply Run_bind_inr in H as (sel & st1 & [Hsel ->]%lift_inr & H).
  apply Run_bind_inr in H as (cl & st1 & [Hcl ->]%lift_inr & H).
  apply Run_bind_inr in H as (eng & st1 & [Heng ->]%lift_inr & H).
  apply Run_bind_inr in H as (lines & st1 & [Hlines ->]%lift_inr & H).
  apply Run_bind_inr in H as (am & st1 & [Ham ->]%lift_inr & H).
  apply Run_bind_inr in H as ([] & st1 & H1 & H).
  apply Run_bind_inr in H1
    as ([] & st0 & [Hdraw1 ->]%lift_inr & [Hio1 ->]%write_inr).
  apply Run_bind_inr in H as (sc & st1 & [Hsc ->]%lift_inr & H).
  apply Run_bind_inr in H as (an & st1 & [Han ->]%lift_inr & H).
  apply Run_bind_inr in H as (pct & st1 & [Hpct ->]%lift_inr & H).
  apply Run_bind_inr in H as (ag & st1 & [Hag ->]%lift_inr & H).
  apply Run_bind_inr in H as ([] & st1 & H2 & H).
  apply Run_bind_inr in H2
    as ([] & st0 & [Hdraw2 ->]%lift_inr & [Hio2 ->]%write_inr).
  apply Run_bind_inr in H as ([] & st1 & [Hio3 ->]%write_inr & H).
  exists {| raw := raw0; selected := sel; cleaned := cl; engineered := eng;
            eda_lines := lines; amounts := am; scored := sc; anomalies := an;
            fraud_percentage := pct; agencies := ag |}.
  split; [|done].
  unfold traces; simpl. rewrite Hnorm. simpl. done.
Qed.

(** When every stage succeeds the [try] statement ends on the results page
    and publishes. *)
Lemma try_body_complete L w path st content :
  fs st !! path = Some (RawFile content) →
  completes L w content →
  ∃ st', try_body L w path st = (inr (Redirect "/results"), st').
Proof.
  intros Hfs (t & Ht & Hd1 & Hio1 & Hd2 & Hio2 & Hio3).
  destruct Ht as (Hraw & Hexp & Hsel & Hcl & Heng & Heda & Ham & Hsc & Han
                  & Hpct & Hag).
  apply Result_bind_inr in Hsel as (n & Hn & Hsel).
  unfold try_body, mbind at 1, Run_bind, pd_read_csv. rewrite Hfs, Hraw.
  unfold mbind at 1, Run_bind, lift. rewrite Hn, Hexp. simpl negb. cbv iota.
  unfold mbind at 1, Run_bind. rewrite Hsel.
  unfold mbind at 1, Run_bind. rewrite Hcl.
  unfold mbind at 1, Run_bind. rewrite Heng.
  unfold mbind at 1, Run_bind. rewrite Heda.
  unfold mbind at 1, Run_bind. rewrite Ham.
  unfold mbind at 1, Run_bind, savefig, mbind at 1, Run_bind, lift, write.
  rewrite Hd1, Hio1.
  unfold mbind at 1, Run_bind. rewrite Hsc.
  unfold mbind at 1, Run_bind. rewrite Han.
  unfold mbind at 1, Run_bind. rewrite Hpct.
  unfold mbind at 1, Run_bind. rewrite Hag.
  unfold mbind at 1, Run_bind, mbind at 1, Run_bind. rewrite Hd2, Hio2.
  unfold mbind at 1, Run_bind, to_csv, write.
  change (path_join RESULT_FOLDER "fraud_report.csv") with report_path.
  rewrite Hio3.
  unfold mbind at 1, Run_bind, results_data_update, mret, Run_ret.
  by eexists.
Qed.

Lemma upload_succeeds L w file st :
  (upload L w file st).1 = Redirect "/results" ↔ succeeds L w file.
Proof.
  destruct (upload L w file st) as [r st'] eqn:Hup. simpl. split.
  - intros ->.
    destruct (upload_cases _ _ _ _ _ _ Hup)
      as [(_ & ? & _)|[(_ & e & _ & ? & _)|(Hname & Hio & [(e & _ & ?)|H])]];
      try done.
    split; [done|]. split; [done|].
    apply (try_body_redirect L w _ _ _ (stream file)) in H; [done|].
    simpl. by rewrite lookup_insert_eq.
  - intros (Hname & Hio & Hc).
    destruct (try_body_complete L w (upload_path file) (stored file st)
                (stream file)) as [st1 H]; [|done|].
    { simpl. by rewrite lookup_insert_eq. }
    unfold upload in Hup. rewrite bool_decide_eq_false_2 in Hup by done.
    fold (upload_path file) in Hup. unfold write in Hup. rewrite Hio in Hup.
    fold (stored file st) in Hup. rewrite H in Hup. by injection Hup as <- _.
Qed.

Lemma upload_error_answer L w file st :
  (upload L w file st).1 ≠ Redirect "/results" →
  error_answer (upload L w file st).1.
Proof.
  destruct (upload L w file st) as [r st'] eqn:Hup. simpl. intros Hr.
  destruct (upload_cases _ _ _ _ _ _ Hup)
    as [(_ & -> & _)|[(_ & e & _ & -> & _)|(_ & _ & [(e & _ & ->)|H])]].
  - by left.
  - right. left. by exists e.
  - do 3 right. by exists e.
  - apply try_body_inr in H as (content & raw0 & _ & _ & [(_ & -> & _)|H]).
    + right. right. left. by eexists.
    + by destruct H as (t & _ & _ & -> & _).
Qed.

(** Each of the stage failures that the specification names keeps the run
    from succeeding. *)
Lemma stage_failure L w file :
  (∃ e, selected_table L (stream file) = inl e)
  ∨ (∃ e, cleaned_table L (stream file) = inl e)
  ∨ (∃ table e, cleaned_table L (stream file) = inr table ∧
                engineer L table = inl e)
  ∨ (∃ e, scored_table L w (stream file) = inl e)
  ∨ (∃ t e, traces L w (stream file) t ∧
            (draw L (eda_figure (amounts t)) = inl e
             ∨ io_error w (path_join STATIC_FOLDER "eda_plot.png") = Some e
             ∨ draw L (fraud_figure L (agencies t)) = inl e
             ∨ io_error w (path_join STATIC_FOLDER "fraud_agencies.png")
               = Some e
             ∨ io_error w report_path = Some e)) →
  ¬ succeeds L w file.
Proof.
  intros Hfail (_ & _ & t & Ht & Hd1 & Hio1 & Hd2 & Hio2 & Hio3).
  destruct (traces_tables _ _ _ _ Ht) as (Hsel & Hcl & Hsc).
  destruct Hfail as [[e H]|[[e H]|[(table & e & H & He)|[[e H]|H]]]];
    try congruence.
  - pose proof Ht as (_&_&_&_&Heng&_). congruence.
  - destruct H as (t' & e & Ht' & H).
    assert (t' = t) as -> by by eapply traces_functional.
    destruct H as [?|[?|[?|[?|?]]]]; congruence.
Qed.

(** ** The rows of the report *)




(** ** Categories *)

#[local] Instance value_le_total : Total value_le.
Proof.
  intros [|x|s|x] [|y|t|y]; simpl; auto.
  - apply (total Qcle).
  - apply (total String.le).
  - apply (total Z.le).
Qed.

#[local] Instance value_le_trans : Transitive value_le.
Proof.
  intros [|x|s|x] [|y|t|y] [|z|u|z]; simpl; try done.
  - apply (transitivity (R := Qcle)).
  - apply (transitivity (R := String.le)).
  - apply (transitivity (R := Z.le)).
Qed.

#[local] Instance value_le_antisym : AntiSymm (=) value_le.
Proof.
  intros [|x|s|x] [|y|t|y]; simpl; try done.
  - intros ??. f_equal. by apply (anti_symm Qcle).
  - intros ??. f_equal. by apply (anti_symm String.le).
  - intros ??. f_equal. lia.
Qed.

Lemma elem_of_unique_from seen l x :
  x ∈ unique_from seen l ↔ x ∈ l ∧ x ∉ seen.
Proof.
  revert seen. induction l as [|y l IH]; intros seen; simpl.
  - rewrite !elem_of_nil. tauto.
  - destruct (decide (y ∈ seen)) as [Hin|Hnot].
    + rewrite IH, elem_of_cons. split; [tauto|].
      intros [[->|?] ?]; [done|tauto].
    + rewrite !elem_of_cons, IH, not_elem_of_cons.
      destruct (decide (x = y)) as [->|]; [tauto|]. tauto.
Qed.

Lemma NoDup_unique_from seen l : NoDup (unique_from seen l).
Proof.
  revert seen. induction l as [|y l IH]; intros seen; simpl; [constructor|].
  destruct (decide (y ∈ seen)); [apply IH|].
  constructor; [|apply IH].
  rewrite elem_of_unique_from, not_elem_of_cons. tauto.
Qed.

Lemma elem_of_categories col v :
  v ∈ categories col ↔ v ∈ col ∧ isnull v = false.
Proof.
  unfold categories, unique.
  rewrite merge_sort_Permutation, elem_of_unique_from, list_elem_of_filter.
  rewrite elem_of_nil. tauto.
Qed.

Lemma NoDup_categories col : NoDup (categories col).
Proof.
  unfold categories. rewrite merge_sort_Permutation. apply NoDup_unique_from.
Qed.

Lemma StronglySorted_categories col : StronglySorted value_le (categories col).
Proof. apply StronglySorted_merge_sort; apply _. Qed.

Lemma StronglySorted_lookup_lt {A} (R : relation A) l i j x y :
  StronglySorted R l → l !! i = Some x → l !! j = Some y → (i < j)%nat → R x y.
Proof.
  intros Hl. revert i j. induction Hl as [|a l Hl IH Hall]; intros i j Hi Hj Hlt.
  { by rewrite lookup_nil in Hi. }
  destruct j as [|j]; [lia|]. simpl in Hj. destruct i as [|i]; simpl in Hi.
  - injection Hi as <-. rewrite Forall_forall in Hall.
    by apply Hall, list_elem_of_lookup_2 with j.
  - apply (IH i j); [done..|lia].
Qed.

(** The code of a category is its position among the sorted categories. *)
Lemma code_in_lookup cats v :
  NoDup cats → v ∈ cats →
  ∃ i, code_in cats v = Z.of_nat i ∧ cats !! i = Some v.
Proof.
  intros Hnd [i Hi]%list_elem_of_lookup. unfold code_in.
  destruct (list_find (λ c, c = v) cats) as [[j c]|] eqn:E.
  - apply list_find_Some in E as (Hj & -> & _). by exists j.
  - apply list_find_None in E. rewrite Forall_forall in E.
    exfalso. apply (E v); [|done]. by apply list_elem_of_lookup_2 with i.
Qed.

Lemma code_in_null cats v : v ∉ cats → code_in cats v = -1.
Proof.
  intros Hnot. unfold code_in.
  destruct (list_find (λ c, c = v) cats) as [[j c]|] eqn:E; [|done].
  apply list_find_Some in E as (Hj & -> & _).
  exfalso. by apply Hnot, list_elem_of_lookup_2 with j.
Qed.

(** The codes of a column are the ranks of its values. *)
Lemma cat_codes_ranks col : ranks col (cat_codes col).
Proof.
  unfold ranks, cat_codes. set (cats := categories col).
  pose proof (NoDup_categories col) as Hnd.
  pose proof (StronglySorted_categories col) as Hsorted.
  assert (Hcode : ∀ i v, col !! i = Some v → isnull v = false →
            ∃ k, code_in cats v = Z.of_nat k ∧ cats !! k = Some v).
  { intros i v Hi Hv. apply code_in_lookup; [done|].
    apply elem_of_categories. split; [|done]. by apply list_elem_of_lookup_2 with i. }
  split; [by rewrite length_fmap|]. split; [|split].
  - intros i j v1 v2 c1 c2 Hi Hj Hc1 Hc2 Hn1 Hn2.
    rewrite list_lookup_fmap, Hi in Hc1. rewrite list_lookup_fmap, Hj in Hc2.
    simplify_eq/=.
    destruct (Hcode i v1 Hi Hn1) as (k1 & -> & Hk1).
    destruct (Hcode j v2 Hj Hn2) as (k2 & -> & Hk2).
    split.
    + split; [intros ->; f_equal; by eapply NoDup_lookup|].
      intros ?%Nat2Z.inj. congruence.
    + unfold value_lt. split.
      * intros [Hle Hne].
        destruct (decide (k1 < k2)%nat) as [|Hge]; [lia|]. exfalso.
        destruct (decide (k1 = k2)) as [->|]; [congruence|].
        apply Hne, (anti_symm value_le); [done|].
        eapply (StronglySorted_lookup_lt value_le cats k2 k1); [done..|lia].
      * intros Hlt. split.
        { eapply (StronglySorted_lookup_lt value_le cats k1 k2); [done..|lia]. }
        intros ->. assert (k1 = k2) by by eapply NoDup_lookup. lia.
  - intros i v c Hi Hc Hn. rewrite list_lookup_fmap, Hi in Hc. simplify_eq/=.
    destruct (Hcode i v Hi Hn) as (k & -> & _). lia.
  - intros i c k Hc Hk. rewrite list_lookup_fmap in Hc.
    destruct (col !! i) as [v|] eqn:Hi; simplify_eq/=.
    destruct (decide (v ∈ cats)) as [Hin|Hnot].
    2:{ rewrite code_in_null in Hk by done. lia. }
    destruct (code_in_lookup cats v Hnd Hin) as (kv & Hkv & Hlook).
    rewrite Hkv in Hk.
    assert (Hlt : (Z.to_nat k < length cats)%nat).
    { apply lookup_lt_Some in Hlook. lia. }
    apply lookup_lt_is_Some in Hlt as [u Hu].
    assert (Hucol : u ∈ col ∧ isnull u = false).
    { apply elem_of_categories. by apply list_elem_of_lookup_2 with (Z.to_nat k). }
    destruct Hucol as [[iu Hiu]%list_elem_of_lookup Hun].
    apply list_elem_of_fmap. exists u. split; [|by apply list_elem_of_lookup_2 with iu].
    destruct (Hcode iu u Hiu Hun) as (ku & -> & Hku).
    assert (ku = Z.to_nat k) by by eapply NoDup_lookup. lia.
Qed.

(** The sorting order on the values of one kind. *)
Lemma value_lt_kinds :
  (∀ x y : Qc, value_lt (Num x) (Num y) ↔ (x < y)%Qc) ∧
  (∀ s t : string, value_lt (Str s) (Str t) ↔ (s <? t)%string = true).
Proof.
  unfold value_lt. simpl. split.
  - intros x y. split.
    + intros [Hle Hne]. apply Qcle_lt_or_eq in Hle as [?| ->]; [done|].
      by destruct Hne.
    + intros Hlt. split; [by apply Qclt_le_weak|].
      intros [= ->]. by apply Qclt_not_eq in Hlt.
  - intros s t. unfold String.le, String.leb, String.ltb.
    destruct (String.compare s t) eqn:E; simpl.
    + apply String.compare_eq_iff in E as ->. split; [by intros [_ []]|done].
    + split; [done|]. intros _. split; [done|].
      intros [= ->]. pose proof (String.compare_antisym t t) as Ha.
      rewrite E in Ha. discriminate Ha.
    + split; [by intros [[] _]|done].
Qed.

(** ** The report file on a failed run *)

Lemma keeps_file_lift {A} path (r : Result A) : keeps_file path (lift r).
Proof. by intros st r' st' [= _ <-]. Qed.

Lemma keeps_file_write w path path' f :
  path' ≠ path → keeps_file path (write w path' f).
Proof.
  intros Hne st r st'. unfold write.
  destruct (io_error w path'); intros [= _ <-]; [done|].
  simpl. by rewrite lookup_insert_ne.
Qed.

Lemma keeps_file_pd_read_csv L path path' : keeps_file path (pd_read_csv L path').
Proof.
  intros st r st'. unfold pd_read_csv.
  destruct (fs st !! path') as [[| |]|]; by intros [= _ <-].
Qed.

Lemma keeps_file_bind {A B} path (m : Run A) (f : A → Run B) :
  keeps_file path m → (∀ a, keeps_file path (f a)) → keeps_file path (m ≫= f).
Proof.
  intros Hm Hf st r st'. unfold mbind, Run_bind.
  destruct (m st) as [[e|a] st1] eqn:E.
  - intros [= _ <-]. by eapply Hm.
  - intros H. rewrite (Hf _ _ _ _ H). by eapply Hm.
Qed.

Lemma keeps_file_savefig L w path path' fig :
  path' ≠ path → keeps_file path (savefig L w path' fig).
Proof.
  intros. apply keeps_file_bind; [apply keeps_file_lift|].
  intros. by apply keeps_file_write.
Qed.

Lemma on_error_bind {A B} (m : Run A) (f : A → Run B) :
  keeps_file report_path m → (∀ a, keeps_report_on_error (f a)) →
  keeps_report_on_error (m ≫= f).
Proof.
  intros Hm Hf st e st'. unfold mbind, Run_bind.
  destruct (m st) as [[e'|a] st1] eqn:E.
  - intros [= _ <-]. by eapply Hm.
  - intros H. rewrite (Hf _ _ _ _ H). by eapply Hm.
Qed.

Lemma on_error_ret {A} (a : A) : keeps_report_on_error (mret a).
Proof. by intros st e st' [=]. Qed.

Lemma try_body_report L w path : keeps_report_on_error (try_body L w path).
Proof.
  unfold try_body.
  apply on_error_bind; [apply keeps_file_pd_read_csv|intros raw].
  apply on_error_bind; [apply keeps_file_lift|intros normalized].
  destruct (negb _); [apply on_error_ret|].
  repeat (apply on_error_bind;
          [first [apply keeps_file_lift|by apply keeps_file_savefig]
          |intros ?]).
  intros st e st'. unfold mbind, Run_bind, to_csv, write.
  destruct (io_error w _); [by intros [= _ <-]|]. by intros [=].
Qed.

Lemma upload_path_not_report file : upload_path file ≠ report_path.
Proof.
  unfold upload_path, path_join. destruct (filename file) as [|a s]; [done|].
  simpl. destruct (Ascii.eqb a "/") eqn:E.
  - apply Ascii.eqb_eq in E as ->. done.
  - done.
Qed.

(** A run that does not end on the results page has not written the
    report. *)
Lemma upload_keeps_report L w file st r st' :
  upload L w file st = (r, st') → r ≠ Redirect "/results" →
  fs st' !! report_path = fs st !! report_path.
Proof.
  assert (Hstored : fs (stored file st) !! report_path = fs st !! report_path).
  { simpl. rewrite lookup_insert_ne; [done|apply upload_path_not_report]. }
  intros [(_ & _ & ->)|[(_ & e & _ & _ & ->)|(_ & _ & [(e & H & _)|H])]]%upload_cases
    Hr; try done.
  - by rewrite (try_body_report L w _ _ _ _ H).
  - apply try_body_inr in H as (content & raw0 & _ & _ & [(_ & _ & ->)|H]);
      [done|].
    by destruct H as (t & _ & _ & -> & _).
Qed.
(** * The claims *)

(** C1, as amended: after a successful upload, [total_transactions] is the
    number of rows of the cleaned table, [fraud_count] is the number of rows
    whose [Anomaly] value is [-1], and [fraud_percentage] is
    [round((fraud_count / total_transactions) * 100, 2)] in double
    precision, the quotient being rounded before it is multiplied; it lies
    within [0.005 + 2^-44] of the exact percentage. *)
Theorem C1_result_counters L w file st st' :
  upload L w file st = (Redirect "/results", st') →
  ∃ table scored flags ratio,
    cleaned_table L (stream file) = inr table ∧
    scored_table L w (stream file) = inr scored ∧
    index scored = index table ∧
    getitem scored "Anomaly" = inr flags ∧
    let total_transactions := Z.of_nat (nrows table) in
    let fraud_count := Z.of_nat (length (filter (λ v, v = Int (-1)) flags)) in
    let pct := Binary64.round (Binary64.mul ratio (inject_Z 100)) 2 in
    let exact :=
      (inject_Z (100 * fraud_count) / inject_Z total_transactions)%Q in
    results_data st' !! "total_transactions" = Some (PInt total_transactions) ∧
    results_data st' !! "fraud_count" = Some (PInt fraud_count) ∧
    truediv fraud_count total_transactions = inr ratio ∧
    results_data st' !! "fraud_percentage" = Some (PFloat pct) ∧
    (exact - (1 # 200) - 2 ^ (-44) <= pct)%Q ∧
    (pct <= exact + (1 # 200) + 2 ^ (-44))%Q.
Proof.
  intros (t & Ht & ->)%upload_redirect.
  destruct (traces_tables _ _ _ _ Ht) as (_ & Hcl & Hsc).
  destruct (traces_counters _ _ _ _ Ht)
    as (Hi & Hle & Hn & flags & Hflags & Hcount).
  pose proof Ht as (_&_&_&_&_&_&_&_&_&Hpct&_).
  pose proof (percentage_close _ _ _ (conj (Nat2Z.is_nonneg _)
                (proj1 (Nat2Z.inj_le _ _) Hle)) Hpct) as Hclose.
  apply Result_bind_inr in Hpct as (ratio & Hratio & [= Hpct]).
  exists (cleaned t), (scored t), flags, ratio.
  repeat (split; [done|]). cbv zeta. rewrite <- Hcount, <- Hn, Hpct.
  unfold published, trace_result_set. cbn [results_data].
  match goal with
  | |- context [dict_update ?d (result_set ?a ?b ?c ?e ?f ?g ?h ?i ?j)] =>
      pose proof (lookup_result_set d a b c e f g h i j) as Hlook
  end.
  cbv zeta in Hlook. destruct Hlook as (_&_&_&_&_&_&Hfc&Htt&Hfp).
  cbv zeta in Hclose. destruct Hclose as [Hlo Hhi].
  rewrite Hfc, Htt, Hfp. by repeat split.
Qed.

(** C1, witness: the upload of the five-row file. *)
Lemma C1_result_counters_witness :
  upload Demo.library Demo.calm Demo.five (startup ∅)
    = (Redirect "/results", Demo.five_run.2) ∧
  results_data Demo.five_run.2 !! "total_transactions" = Some (PInt 3) ∧
  results_data Demo.five_run.2 !! "fraud_count" = Some (PInt 1).
Proof.
  assert (H : upload Demo.library Demo.calm Demo.five (startup ∅)
              = (Redirect "/results", Demo.five_run.2))
    by (vm_compute; reflexivity).
  split; [exact H|].
  destruct (C1_result_counters _ _ _ _ _ H)
    as (table & scored & flags & ratio & Hc & Hs & _ & Hf & Ht & Hn & _).
  vm_compute in Hc. injection Hc as <-.
  vm_compute in Hs. injection Hs as <-.
  vm_compute in Hf. injection Hf as <-.
  split; [exact Ht|exact Hn].
Defined.

(** C1, counterexample: with 59 flagged rows among 4000 cleaned rows the
    exact percentage is 1.475. The view stores the double nearest to 1.47:
    [59 / 4000] is rounded to a double before it is multiplied by 100, and
    the product lies below 1.475. [round(100 * fraud_count /
    total_transactions, 2)] is the double nearest to 1.48, and so is the
    exact percentage rounded to two decimals. *)
Lemma C1_percentage_counterexample :
  let out := upload Demo.library Demo.calm Demo.many (startup ∅) in
  out.1 = Redirect "/results" ∧
  results_data out.2 !! "total_transactions" = Some (PInt 4000) ∧
  results_data out.2 !! "fraud_count" = Some (PInt 59) ∧
  results_data out.2 !! "fraud_percentage"
    = Some (PFloat (Binary64.RN (147 # 100))) ∧
  spec_percentage 59 4000 = inr (Binary64.RN (148 # 100)) ∧
  Binary64.round_half_even (inject_Z (100 * 59) / inject_Z 4000 * 100) = 148 ∧
  ¬ (Binary64.RN (147 # 100) == Binary64.RN (148 # 100))%Q.
Proof. vm_compute. repeat split; done. Qed.

(** C2: two runs on the same file give the same flagged rows and the same
    [fraud_count], whatever the worlds and the states they start from: the
    scorer is seeded by the view ([random_state=42]), so the scored table is
    a function of the uploaded content alone; two successful runs store the
    same nine entries and write the same report. *)
Theorem C2_same_file_same_flags L file w1 w2 st1 st2 st1' st2' :
  upload L w1 file st1 = (Redirect "/results", st1') →
  upload L w2 file st2 = (Redirect "/results", st2') →
  scored_table L w1 (stream file) = scored_table L w2 (stream file) ∧
  (∀ key, key ∈ result_keys →
          results_data st1' !! key = results_data st2' !! key) ∧
  fs st1' !! report_path = fs st2' !! report_path.
Proof.
  intros (t1 & Ht1 & ->)%upload_redirect (t2 & Ht2 & ->)%upload_redirect.
  assert (t1 = t2) as -> by by eapply traces_functional.
  split; [reflexivity|]. split.
  - intros key Hkey. unfold published. cbn [results_data].
    by apply lookup_result_set_fresh.
  - unfold published. cbn [fs]. by rewrite !lookup_insert_eq.
Qed.

(** C2, witness: the five-row file uploaded twice, the second time in
    another world and on top of the result of the first. *)
Lemma C2_same_file_same_flags_witness :
  let w2 := {| io_error := λ _, None; global_rng := 12345 |} in
  let second := upload Demo.library w2 Demo.five
                  Demo.five_run.2 in
  upload Demo.library Demo.calm Demo.five (startup ∅)
    = (Redirect "/results", Demo.five_run.2) ∧
  upload Demo.library w2 Demo.five Demo.five_run.2
    = (Redirect "/results", second.2) ∧
  results_data Demo.five_run.2 !! "fraud_count"
    = results_data second.2 !! "fraud_count" ∧
  fs Demo.five_run.2 !! report_path = fs second.2 !! report_path.
Proof.
  intros w2 second.
  assert (H1 : upload Demo.library Demo.calm Demo.five (startup ∅)
              = (Redirect "/results", Demo.five_run.2))
    by (vm_compute; reflexivity).
  assert (H2 : upload Demo.library w2 Demo.five
                 Demo.five_run.2 = (Redirect "/results", second.2))
    by (vm_compute; reflexivity).
  split; [exact H1|]. split; [exact H2|].
  destruct (C2_same_file_same_flags _ _ _ _ _ _ _ _ H1 H2) as (_ & Hkeys & Hfs).
  split; [|exact Hfs].
  apply Hkeys. unfold result_keys.
  do 6 apply list_elem_of_further. apply list_elem_of_here.
Defined.

(** A missing expected column is answered with status 400 and the list of
    the normalised column names; the dictionary is not touched. *)
Lemma upload_schema_error L w file st raw0 :
  filename file ≠ "" →
  io_error w (upload_path file) = None →
  read_csv L (stream file) = inr raw0 →
  has_expected (normalize_col <$> columns raw0) = false →
  upload L w file st =
    (BodyStatus ("Required columns missing. Found: "
                   +:+ repr_list (normalize_col <$> columns raw0)) 400,
     stored file st).
Proof.
  intros Hname Hio Hread Hexp. unfold upload.
  rewrite bool_decide_eq_false_2 by done.
  fold (upload_path file). unfold write. rewrite Hio. fold (stored file st).
  unfold try_body, mbind, Run_bind, pd_read_csv. simpl.
  rewrite lookup_insert_eq, Hread. unfold lift, normalize, set_columns.
  rewrite decide_True by by rewrite length_fmap.
  by rewrite Hexp.
Qed.

(** C3, the failing input: a file with the four expected columns and a
    fifth one, [amount], next to [Amount]. Both are normalised to [amount],
    [df[expected_cols]] takes the two of them, and the assignment of four
    names to five columns raises; the upload ends in the [except] clause
    although only an extra column was added. *)
Theorem C3_extra_column_error :
  (read_csv Demo.library (stream Demo.two_amounts) ≫= λ df, mret (columns df))
    = inr ["Transaction Date"; "Agency Name"; "Vendor"; "Amount"; "amount"] ∧
  has_expected
    (normalize_col
       <$> ["Transaction Date"; "Agency Name"; "Vendor"; "Amount"; "amount"])
    = true ∧
  upload Demo.library Demo.calm Demo.two_amounts (startup ∅)
  = (Body ("Error while processing file: Length mismatch: "
           +:+ "Expected axis has 5 elements, new values have 4 elements"),
     stored Demo.two_amounts (startup ∅)) ∧
  upload Demo.library Demo.calm Demo.no_vendor (startup ∅)
  = (BodyStatus ("Required columns missing. Found: "
                 +:+ "['transaction_date', 'agency_name', 'amount', 'memo']")
                400,
     stored Demo.no_vendor (startup ∅)).
Proof. vm_compute. done. Qed.

(** The views that read the dictionary show the same thing as long as the
    dictionary is the same. *)
Lemma views_same st st' :
  results_data st' = results_data st →
  results st' = results st ∧ dashboard st' = dashboard st.
Proof. unfold results, dashboard. by intros ->. Qed.

(** C4: an upload ends on the results page exactly when every stage of the
    run succeeds: the file is there and is saved, the stages of the [try]
    statement return, both figures are drawn and written and the report is
    written. A failure of the ingest, of the cleaning, of the feature build,
    of the scoring or of the writing of a figure or of the report is such a
    run. A run in which a stage fails answers with an error and not with the
    redirect, and leaves the dictionary, and with it what [/results] and
    [/dashboard] show, as it was; so does any sequence of such runs; and a
    run that succeeds stores its own nine entries. *)
Theorem C4_failed_uploads_keep_result_set L :
  (∀ w file st r st',
     upload L w file st = (r, st') →
     (r = Redirect "/results" ↔ succeeds L w file)) ∧
  (∀ w file,
     (∃ e, selected_table L (stream file) = inl e)
     ∨ (∃ e, cleaned_table L (stream file) = inl e)
     ∨ (∃ table e, cleaned_table L (stream file) = inr table ∧
                   engineer L table = inl e)
     ∨ (∃ e, scored_table L w (stream file) = inl e)
     ∨ (∃ t e, traces L w (stream file) t ∧
               (draw L (eda_figure (amounts t)) = inl e
                ∨ io_error w (path_join STATIC_FOLDER "eda_plot.png") = Some e
                ∨ draw L (fraud_figure L (agencies t)) = inl e
                ∨ io_error w (path_join STATIC_FOLDER "fraud_agencies.png")
                  = Some e
                ∨ io_error w report_path = Some e)) →
     ¬ succeeds L w file) ∧
  (∀ w file st r st',
     upload L w file st = (r, st') →
     ¬ succeeds L w file →
     error_answer r ∧
     results_data st' = results_data st ∧
     results st' = results st ∧ dashboard st' = dashboard st) ∧
  (∀ requests st responses st',
     serve L requests st = (responses, st') →
     Forall (λ rq, ¬ succeeds L rq.1 rq.2) requests →
     Forall error_answer responses ∧
     results_data st' = results_data st ∧
     results st' = results st ∧ dashboard st' = dashboard st) ∧
  (∀ w file st r st',
     upload L w file st = (r, st') →
     succeeds L w file →
     r = Redirect "/results" ∧ result_set_ok (results_data st')).
Proof.
  assert (Hiff : ∀ w file st r st',
            upload L w file st = (r, st') →
            (r = Redirect "/results" ↔ succeeds L w file)).
  { intros w file st r st' Hup. rewrite <- (upload_succeeds L w file st).
    by rewrite Hup. }
  assert (Hone : ∀ w file st r st',
            upload L w file st = (r, st') →
            ¬ succeeds L w file →
            error_answer r ∧ results_data st' = results_data st).
  { intros w file st r st' Hup Hfail.
    assert (Hr : r ≠ Redirect "/results") by by rewrite (Hiff _ _ _ _ _ Hup).
    split; [|by eapply upload_keeps].
    pose proof (upload_error_answer L w file st) as He.
    rewrite Hup in He. by apply He. }
  split; [exact Hiff|]. split; [apply stage_failure|].
  split; [|split].
  - intros w file st r st' Hup Hfail.
    destruct (Hone _ _ _ _ _ Hup Hfail) as [He Hd].
    destruct (views_same _ _ Hd). by repeat split.
  - intros requests st responses st' Hserve Hfail.
    cut (Forall error_answer responses ∧ results_data st' = results_data st).
    { intros [He Hd]. destruct (views_same _ _ Hd). by repeat split. }
    revert st responses Hserve.
    induction Hfail as [|[w file] requests Hrq Hfail IH];
      intros st responses Hserve.
    { by injection Hserve as <- <-. }
    simpl in Hserve.
    destruct (upload L w file st) as [r st1] eqn:Hup.
    destruct (serve L requests st1) as [rs st2] eqn:Hrest.
    injection Hserve as <- <-.
    destruct (Hone _ _ _ _ _ Hup Hrq) as [He Hd].
    destruct (IH _ _ Hrest) as [Hes Hds].
    split; [by constructor|congruence].
  - intros w file st r st' Hup Hs.
    apply (Hiff _ _ _ _ _ Hup) in Hs as ->. split; [done|].
    by eapply upload_result_set_ok.
Qed.

(** C4, witness: after the upload of the five-row file, the upload of
    another file whose report cannot be written. *)
Lemma C4_failed_uploads_keep_result_set_witness :
  let L := Demo.library in
  serve L [(Demo.disk_full, Demo.two_rows)] Demo.five_run.2
    = ([Body "Error while processing file: No space left on device"],
       Demo.failed_run.2) ∧
  results_data Demo.failed_run.2 = results_data Demo.five_run.2 ∧
  results Demo.failed_run.2 = results Demo.five_run.2.
Proof.
  intros L.
  assert (H : serve L [(Demo.disk_full, Demo.two_rows)] Demo.five_run.2
              = ([Body "Error while processing file: No space left on device"],
                 Demo.failed_run.2))
    by (vm_compute; reflexivity).
  split; [exact H|].
  assert (Hfail : Forall (λ rq, ¬ succeeds L rq.1 rq.2)
                    [(Demo.disk_full, Demo.two_rows)]).
  { constructor; [|constructor].
    intros (_ & _ & t & _ & _ & _ & _ & _ & Hio).
    vm_compute in Hio. discriminate Hio. }
  destruct (proj1 (proj2 (proj2 (proj2
              (C4_failed_uploads_keep_result_set L))))
              _ _ _ _ H Hfail) as (_ & Hd & Hr & _).
  split; [exact Hd|exact Hr].
Defined.

(** C5, as amended: the two code columns number the values of the agency
    and merchant columns of the current table by their rank among the
    sorted distinct values of the column, the values being the cells as
    [read_csv] parsed them: equal values have equal codes, a smaller value
    has a smaller code, the codes of a column fill an initial segment of
    the naturals, and they are a function of that column alone. Numbers are
    sorted by their value and texts character by character; so the agencies
    10, 9, 100 read as numbers have the codes 1, 0, 2, and read as texts the
    codes 0, 2, 1. *)
Theorem C5_codes_are_ranks L df df' :
  engineer L df = inr df' →
  ∃ agencies merchants,
    getitem df "AGENCY_NAME" = inr agencies ∧
    getitem df "MERCHANT_NAME" = inr merchants ∧
    getitem df' "AGENCY_CODE" = inr (Int <$> cat_codes agencies) ∧
    getitem df' "MERCHANT_CODE" = inr (Int <$> cat_codes merchants) ∧
    ranks agencies (cat_codes agencies) ∧
    ranks merchants (cat_codes merchants) ∧
    (∀ x y : Qc, value_lt (Num x) (Num y) ↔ (x < y)%Qc) ∧
    (∀ s t : string, value_lt (Str s) (Str t) ↔ (s <? t)%string = true).
Proof.
  intros (_ & _ & dates & ags & mers & _ & Ha & Hm & _ & _ & Hac & Hmc & _)%engineer_inv.
  exists ags, mers. repeat (split; [done|]).
  split; [apply cat_codes_ranks|]. split; [apply cat_codes_ranks|].
  apply value_lt_kinds.
Qed.

(** C5, witness: the codes of the three cleaned rows of the five-row
    file; and the codes of 10, 9, 100 as numbers and as texts. *)
Lemma C5_codes_are_ranks_witness :
  let L := Demo.library in
  let table := {| columns := canonical_cols;
                  rows := [(0, [Timestamp 0; Str "b"; Str "v1"; Int 10]);
                           (3, [Timestamp 0; Str "a"; Str "v2"; Int 9000]);
                           (4, [Timestamp 0; Str "c"; Str "v0"; Int 5])]%nat |} in
  cleaned_table L (stream Demo.five) = inr table ∧
  (∃ df', engineer L table = inr df' ∧
          getitem df' "AGENCY_CODE" = inr [Int 1; Int 0; Int 2] ∧
          getitem df' "MERCHANT_CODE" = inr [Int 1; Int 2; Int 0]) ∧
  cat_codes [Int 10; Int 9; Int 100] = [1; 0; 2] ∧
  cat_codes [Str "10"; Str "9"; Str "100"] = [0; 2; 1].
Proof.
  intros L table.
  split; [vm_compute; reflexivity|].
  split; [|split; vm_compute; reflexivity].
  destruct (engineer L table) as [e|df'] eqn:He; [vm_compute in He; discriminate|].
  exists df'. split; [reflexivity|].
  destruct (C5_codes_are_ranks L table df' He)
    as (ags & mers & Ha & Hm & Hac & Hmc & _).
  vm_compute in Ha. injection Ha as <-.
  vm_compute in Hm. injection Hm as <-.
  split; [exact Hac|exact Hmc].
Defined.

(** C5, counterexample: in the upload of the five-row file the cleaned
    rows have the agencies [b], [a], [c] and the merchants [v1], [v2],
    [v0], in this order. Numbering by first appearance would give the
    flagged row (agency [a], merchant [v2]) the codes 1 and 1; the report
    has 0 and 2. *)
Lemma C5_first_seen_counterexample :
  let L := Demo.library in
  (cleaned_table L (stream Demo.five) ≫= λ df, getitem df "AGENCY_NAME")
    = inr [Str "b"; Str "a"; Str "c"] ∧
  (cleaned_table L (stream Demo.five) ≫= λ df, getitem df "MERCHANT_NAME")
    = inr [Str "v1"; Str "v2"; Str "v0"] ∧
  first_seen_codes [Str "b"; Str "a"; Str "c"] = [0; 1; 2] ∧
  first_seen_codes [Str "v1"; Str "v2"; Str "v0"] = [0; 1; 2] ∧
  cat_codes [Str "b"; Str "a"; Str "c"] = [1; 0; 2] ∧
  cat_codes [Str "v1"; Str "v2"; Str "v0"] = [1; 2; 0] ∧
  fs Demo.five_run.2 !! report_path =
    Some (CsvFile report_header
            [[Timestamp 0; Str "a"; Str "v2"; Int 9000;
              Int 1; Int 0; Int 0; Int 2; Int (-1)]]) ∧
  cat_codes [Str "b"; Str "a"; Str "c"]
    ≠ first_seen_codes [Str "b"; Str "a"; Str "c"].
Proof. vm_compute. repeat split; done. Qed.

(** What the [except] clause returns is a plain string, which Flask sends
    with status 200. *)
Lemma upload_error_status L w file st e st1 :
  filename file ≠ "" →
  io_error w (upload_path file) = None →
  try_body L w (upload_path file) (stored file st) = (inl e, st1) →
  upload L w file st = (Body ("Error while processing file: " +:+ str e), st1) ∧
  status_code (Body ("Error while processing file: " +:+ str e)) = 200.
Proof.
  intros Hname Hio Htry. split; [|done]. unfold upload.
  rewrite bool_decide_eq_false_2 by done.
  fold (upload_path file). unfold write. rewrite Hio. fold (stored file st).
  by rewrite Htry.
Qed.

(** C6, the failing inputs: a file without rows, on which the scaler
    raises, and a run whose report cannot be written. In both the view
    returns the text of the exception in a plain string, so the status is
    200 and not 500. *)
Theorem C6_internal_failure_status :
  let scoring :=
    upload Demo.library Demo.calm Demo.no_rows (startup ∅) in
  let writing :=
    upload Demo.library Demo.disk_full Demo.five (startup ∅) in
  scoring.1 = Body "Error while processing file: Found array with 0 sample(s)" ∧
  status_code scoring.1 = 200 ∧
  writing.1 = Body "Error while processing file: No space left on device" ∧
  status_code writing.1 = 200.
Proof. vm_compute. done. Qed.



(** C8: a successful upload writes the report at the fixed path
    [result/fraud_report.csv], replacing what was there; its header is the
    nine column names in the order of the specification, and its records
    are the rows of the scored table whose [Anomaly] cell is [-1], with all
    nine cells; their number is the [fraud_count] of the dictionary. *)
Theorem C8_report_file L w file st st' :
  upload L w file st = (Redirect "/results", st') →
  ∃ scored records,
    scored_table L w (stream file) = inr scored ∧
    columns scored = report_header ∧
    records = cells_of scored
                <$> filter (λ r, cell r.2 8 = Int (-1)) (rows scored) ∧
    fs st' !! "result/fraud_report.csv" = Some (CsvFile report_header records) ∧
    Forall (λ record, length record = 9%nat) records ∧
    results_data st' !! "fraud_count" = Some (PInt (Z.of_nat (length records))).
Proof.
  intros (t & Ht & ->)%upload_redirect.
  destruct (traces_tables _ _ _ _ Ht) as (_ & _ & Hsc).
  destruct (traces_columns _ _ _ _ Ht) as (_ & _ & Hcs & Hca).
  pose proof Ht as (_&_&_&_&_&_&_&_&Han&_).
  unfold select_eq in Han. rewrite Hcs in Han.
  change (positions "Anomaly" report_header) with [8%nat] in Han.
  injection Han as Han.
  exists (scored t), (cells_of (scored t)
            <$> filter (λ r, cell r.2 8 = Int (-1)) (rows (scored t))).
  split; [done|]. split; [done|]. split; [done|].
  assert (Hrec : cells_of (anomalies t) <$> rows (anomalies t) =
                 cells_of (scored t)
                   <$> filter (λ r, cell r.2 8 = Int (-1)) (rows (scored t))).
  { rewrite <- Han. simpl. unfold cells_of. simpl. by rewrite Hcs. }
  split; [|split].
  - change "result/fraud_report.csv" with report_path.
    unfold published. cbn [fs]. rewrite lookup_insert_eq. by rewrite Hca, Hrec.
  - apply Forall_fmap, Forall_forall. intros r _. simpl.
    by rewrite length_cells_of, Hcs.
  - unfold published, trace_result_set. cbn [results_data].
    match goal with
    | |- context [dict_update ?d (result_set ?a ?b ?c ?e ?f ?g ?h ?i ?j)] =>
        pose proof (lookup_result_set d a b c e f g h i j) as Hlook
    end.
    cbv zeta in Hlook. destruct Hlook as (_&_&_&_&_&_&Hfc&_&_).
    rewrite Hfc. do 3 f_equal. unfold nrows. rewrite <- Han. simpl.
    by rewrite length_fmap.
Qed.

(** C8, witness: the report of the five-row upload. *)
Lemma C8_report_file_witness :
  upload Demo.library Demo.calm Demo.five (startup ∅)
    = (Redirect "/results", Demo.five_run.2) ∧
  fs Demo.five_run.2 !! report_path =
    Some (CsvFile report_header
            [[Timestamp 0; Str "a"; Str "v2"; Int 9000;
              Int 1; Int 0; Int 0; Int 2; Int (-1)]]) ∧
  results_data Demo.five_run.2 !! "fraud_count" = Some (PInt 1).
Proof.
  assert (H : upload Demo.library Demo.calm Demo.five (startup ∅)
              = (Redirect "/results", Demo.five_run.2))
    by (vm_compute; reflexivity).
  split; [exact H|].
  destruct (C8_report_file _ _ _ _ _ H)
    as (scored & records & Hs & _ & Hr & Hfs & _ & Hfc).
  vm_compute in Hs. injection Hs as <-.
  vm_compute in Hr. subst records.
  split; [exact Hfs|exact Hfc].
Defined.

(** C9: when the cleaned table has no row the upload never succeeds: the
    percentage is a division by [total_transactions] without a guard, so a
    run that gets as far as line 155 raises [ZeroDivisionError] there; the
    exception, or the one an earlier step raised, is caught by the
    [except] clause, and the dictionary is not updated. *)
Theorem C9_empty_table_aborts L w file st table :
  filename file ≠ "" →
  io_error w (upload_path file) = None →
  cleaned_table L (stream file) = inr table →
  nrows table = 0%nat →
  (∀ fraud_count, percentage fraud_count 0 = inl ZeroDivisionError) ∧
  ∃ e st',
    upload L w file st
      = (Body ("Error while processing file: " +:+ str e), st') ∧
    results_data st' = results_data st.
Proof.
  intros Hname Hio Hclean Hzero. split; [apply percentage_zero|].
  destruct (upload L w file st) as [r st'] eqn:Hup.
  pose proof Hup as
    [(? & _)|[(_ & e & ? & _)|(_ & _ & [(e & H & ->)|H])]]%upload_cases;
    [done|congruence| |].
  { exists e, st'. split; [done|]. by rewrite (try_body_keeps L w _ _ _ _ H). }
  exfalso.
  apply try_body_inr in H as (content & raw0 & Hfs & Hread & H).
  simpl in Hfs. rewrite lookup_insert_eq in Hfs. injection Hfs as <-.
  unfold cleaned_table, selected_table in Hclean. rewrite Hread in Hclean.
  simpl in Hclean.
  destruct (normalize raw0) as [|n] eqn:Hn; [done|]. simpl in Hclean.
  destruct (select_expected n) as [|s] eqn:Hs; [done|]. simpl in Hclean.
  destruct H as [(Hexp & _)|(t & Ht & Hraw & _)].
  - apply select_expected_inv in Hs as (Hexp' & _).
    apply normalize_inv in Hn as [Hcols _]. congruence.
  - destruct (traces_counters _ _ _ _ Ht) as (_ & _ & Hrows & _).
    destruct Ht as (_&_&Hsel&Hcl&_&_&_&_&_&Hpct&_).
    rewrite Hraw, Hn in Hsel. simpl in Hsel.
    assert (selected t = s) as Hst by congruence. rewrite Hst in Hcl.
    assert (cleaned t = table) as Hct by congruence.
    rewrite Hrows, Hct, Hzero in Hpct. by rewrite percentage_zero in Hpct.
Qed.

(** C9, witness: a file with the four columns and no row. *)
Lemma C9_empty_table_aborts_witness :
  let L := Demo.library in
  cleaned_table L (stream Demo.no_rows)
    = inr {| columns := canonical_cols; rows := [] |} ∧
  ∃ e st',
    upload L Demo.calm Demo.no_rows (startup ∅)
      = (Body ("Error while processing file: " +:+ str e), st') ∧
    results_data st' = ∅.
Proof.
  intros L.
  assert (Hc : cleaned_table L (stream Demo.no_rows)
               = inr {| columns := canonical_cols; rows := [] |})
    by (vm_compute; reflexivity).
  split; [exact Hc|].
  refine (proj2 (C9_empty_table_aborts L Demo.calm Demo.no_rows (startup ∅)
                   _ _ _ Hc _)); [discriminate|reflexivity|reflexivity].
Defined.

Lemma redirect_elem_of_dec (rs : list ViewResult) :
  Redirect "/results" ∈ rs ∨ Redirect "/results" ∉ rs.
Proof.
  induction rs as [|r rs [IH|IH]].
  - right. by intros ?%elem_of_nil.
  - left. by right.
  - assert (Hr : r = Redirect "/results" ∨ r ≠ Redirect "/results").
    { destruct r as [| |loc| |]; try (by right).
      destruct (decide (loc = "/results")) as [->|]; [by left|].
      right. congruence. }
    destruct Hr as [->|Hr]; [left; by left|].
    right. apply not_elem_of_cons. split; [congruence|done].
Qed.

Lemma serve_result_set L requests st responses st' :
  serve L requests st = (responses, st') →
  (Redirect "/results" ∈ responses → result_set_ok (results_data st')) ∧
  (Redirect "/results" ∉ responses → results_data st' = results_data st).
Proof.
  revert st responses.
  induction requests as [|[w file] requests IH]; intros st responses Hserve.
  { injection Hserve as <- <-. split; [by intros ?%elem_of_nil|done]. }
  simpl in Hserve.
  destruct (upload L w file st) as [r st1] eqn:Hup.
  destruct (serve L requests st1) as [rs st2] eqn:Hrest.
  injection Hserve as <- <-.
  destruct (IH _ _ Hrest) as [IHin IHnot].
  split.
  - intros Hin. destruct (redirect_elem_of_dec rs) as [|Hnot];
      [by apply IHin|].
    apply elem_of_cons in Hin as [<-|?]; [|done].
    rewrite IHnot by done. by eapply upload_result_set_ok.
  - intros [Hr Hrs]%not_elem_of_cons. rewrite IHnot by done.
    eapply upload_keeps; [done|congruence].
Qed.

(** C10: after a successful upload the dictionary has its nine entries,
    with [0 <= fraud_count <= total_transactions] and
    [0 <= fraud_percentage <= 100]; and in every state reached from the
    empty dictionary by uploads, successful or not, either no upload has
    succeeded and the dictionary is still empty, or the same holds. *)
Theorem C10_result_set_invariant L :
  (∀ w file st st',
     upload L w file st = (Redirect "/results", st') →
     result_set_ok (results_data st')) ∧
  (∀ files requests responses st,
     serve L requests (startup files) = (responses, st) →
     (Redirect "/results" ∈ responses → result_set_ok (results_data st)) ∧
     (Redirect "/results" ∉ responses → results_data st = ∅)).
Proof.
  split; [apply upload_result_set_ok|].
  intros files requests responses st Hserve.
  by apply serve_result_set in Hserve.
Qed.

(** C10, witness: a successful upload followed by a failed one. *)
Lemma C10_result_set_invariant_witness :
  let L := Demo.library in
  let requests := [(Demo.calm, Demo.five); (Demo.disk_full, Demo.five)] in
  let out := serve L requests (startup ∅) in
  out.1 = [Redirect "/results";
           Body "Error while processing file: No space left on device"] ∧
  result_set_ok (results_data out.2).
Proof.
  intros L requests out.
  assert (H1 : out.1 = [Redirect "/results";
                 Body "Error while processing file: No space left on device"])
    by (vm_compute; reflexivity).
  split; [exact H1|].
  assert (Hserve : serve L requests (startup ∅) = (out.1, out.2))
    by exact (surjective_pairing out).
  apply (proj2 (C10_result_set_invariant L) ∅ requests out.1 out.2 Hserve).
  rewrite H1. apply list_elem_of_here.
Defined.

(** * Further properties *)

(** ** Users and sessions *)

Lemma find_user_Some values user_id user :
  find_user values user_id = Some user →
  user ∈ values ∧ str_int (id user) = user_id.
Proof.
  induction values as [|u values IH]; [done|]. simpl.
  destruct (decide (str_int (id u) = user_id)) as [Heq|Hne].
  - intros [= <-]. split; [apply list_elem_of_here|done].
  - intros [Hin ?]%IH. split; [by apply list_elem_of_further|done].
Qed.

Lemma find_user_None values user_id :
  find_user values user_id = None ↔
  ∀ user, user ∈ values → str_int (id user) ≠ user_id.
Proof.
  induction values as [|u values IH]; simpl.
  { split; [|done]. by intros _ user ?%elem_of_nil. }
  destruct (decide (str_int (id u) = user_id)) as [Heq|Hne]; split.
  - done.
  - intros H. destruct (H u); [apply list_elem_of_here|done].
  - intros H user [->|Hin]%elem_of_cons; [done|]. by apply IH.
  - intros H. apply IH. intros user Hin. apply H. by apply list_elem_of_further.
Qed.

Lemma find_user_is_Some values user :
  user ∈ values → is_Some (find_user values (str_int (id user))).
Proof.
  intros Hin. destruct (find_user values (str_int (id user))) eqn:E; [done|].
  rewrite find_user_None in E. by destruct (E user Hin).
Qed.

Lemma dict_get_Some us key user :
  dict_get us key = Some user → (key, user) ∈ us.
Proof.
  induction us as [|[k u] us IH]; [done|]. simpl.
  destruct (decide (k = key)) as [->|Hne].
  - intros [= ->]. apply list_elem_of_here.
  - intros ?%IH. by apply list_elem_of_further.
Qed.

(** X1: [load_user] returns the first user of the dictionary whose
    identifier prints as the given string: a user it returns is a value of
    the dictionary with this identifier, and it returns [None] exactly when
    no user has it. *)
Theorem X1_load_user_sound (us : Users) (user_id : string) :
  (∀ user, load_user us user_id = Some user →
           user ∈ us.*2 ∧ str_int (id user) = user_id) ∧
  (load_user us user_id = None ↔
   ∀ user, user ∈ us.*2 → str_int (id user) ≠ user_id).
Proof.
  split.
  - intros user. apply find_user_Some.
  - apply find_user_None.
Qed.

(** X2: when the identifiers of the users are pairwise distinct, loading the
    identifier that [login_user] puts in the session gives the user back. *)
Theorem X2_load_user_get_id (us : Users) (key : string) (user : User)
    (session : Session) :
  NoDup (id <$> us.*2) → (key, user) ∈ us →
  current_user us (login_user user session) = Some user.
Proof.
  intros Hnd Hin. unfold login_user, current_user, load_user. simpl.
  assert (Hu : user ∈ us.*2).
  { apply list_elem_of_fmap. by exists (key, user). }
  destruct (find_user_is_Some _ _ Hu) as [u' Hu'].
  rewrite Hu'. f_equal.
  apply find_user_Some in Hu' as [Hin' Heq].
  apply (inj pretty) in Heq.
  apply list_elem_of_lookup in Hin' as [i Hi].
  apply list_elem_of_lookup in Hu as [j Hj].
  assert (i = j).
  { eapply NoDup_lookup; [exact Hnd|..].
    - by rewrite list_lookup_fmap, Hi.
    - rewrite list_lookup_fmap, Hj. simpl. by rewrite Heq. }
  congruence.
Qed.

(** X2, witness: the dictionary of line 26 and its only user. *)
Lemma X2_load_user_get_id_witness :
  current_user users
    (login_user {| id := 1; username := "admin"; password := "admin123" |}
                None)
  = Some {| id := 1; username := "admin"; password := "admin123" |}.
Proof.
  apply (X2_load_user_get_id users "admin").
  - vm_compute. apply NoDup_singleton.
  - apply list_elem_of_here.
Defined.

(** ** The login views *)

Lemma login_cases us request session r session' :
  login us request session = (r, session') →
  (valid_login us request ∧ r = inr (Redirect "/dashboard") ∧
   ∃ key user, (key, user) ∈ us ∧ session' = login_user user session)
  ∨ (¬ valid_login us request ∧ session' = session ∧
     r ≠ inr (Redirect "/dashboard")).
Proof.
  unfold login, form_getitem.
  destruct (method request) eqn:Hm.
  { intros [= <- <-]. right. split; [|done].
    intros (?&?&?&?&_). congruence. }
  destruct (form request !! "username") as [username|] eqn:Hu.
  2:{ intros [= <- <-]. right. split; [|done].
      intros (?&?&?&_&?&_). congruence. }
  destruct (form request !! "password") as [password0|] eqn:Hp.
  2:{ intros [= <- <-]. right. split; [|done].
      intros (?&?&?&_&_&?&_). congruence. }
  destruct (dict_get us username) as [user|] eqn:Hg.
  2:{ intros [= <- <-]. right. split; [|done].
      intros (?&?&?&_&?&_&?&_). congruence. }
  destruct (decide (password user = password0)) as [Hpw|Hpw].
  - intros [= <- <-]. left. split; [by exists username, password0, user|].
    split; [done|]. exists username, user. split; [|done].
    by apply dict_get_Some.
  - intros [= <- <-]. right. split; [|done].
    intros (?&?&?&_&?&?&?&?). congruence.
Qed.

(** X3: a request to [/login] logs a user in exactly when it is a POST whose
    [username] field is a key of the dictionary and whose [password] field
    equals the stored password; it then redirects to the dashboard. Every
    other request leaves the session as it was, and what it answers is not
    this redirect; wrong credentials are answered with a plain text, which
    Flask sends with status 200. *)
Theorem X3_login_credentials (us : Users) (request : Request)
    (session : Session) :
  (valid_login us request ↔
   (login us request session).1 = inr (Redirect "/dashboard")) ∧
  (¬ valid_login us request → (login us request session).2 = session) ∧
  (∀ username password0,
     method request = POST →
     form request !! "username" = Some username →
     form request !! "password" = Some password0 →
     ¬ valid_login us request →
     (login us request session).1
       = inr (Body "Invalid credentials! Try again.") ∧
     status_code (Body "Invalid credentials! Try again.") = 200).
Proof.
  destruct (login us request session) as [r session'] eqn:E.
  pose proof (login_cases _ _ _ _ _ E) as [(Hv & -> & _)|(Hv & -> & Hr)];
    simpl.
  - by repeat split.
  - split; [by split|]. split; [done|].
    intros username password0 Hm Hu Hp _. split; [|done].
    unfold login, form_getitem in E. rewrite Hm, Hu, Hp in E.
    destruct (dict_get us username) as [user|] eqn:Hg.
    + destruct (decide (password user = password0)) as [Hpw|Hpw].
      * destruct Hv. by exists username, password0, user.
      * by injection E as <-.
    + by injection E as <-.
Qed.

Lemma current_user_login us key user session :
  (key, user) ∈ us → is_Some (current_user us (login_user user session)).
Proof.
  intros Hin. unfold current_user, login_user. simpl.
  apply find_user_is_Some, list_elem_of_fmap. by exists (key, user).
Qed.

(** X4: after a login that redirected to the dashboard, the session
    identifies a user, and the protected views run: [/dashboard],
    [/results] and [/download] answer what the views compute on the state,
    and [/upload] runs the upload. *)
Theorem X4_login_opens F L (us : Users) (request : Request)
    (session session' : Session) (st : AppState) :
  login us request session = (inr (Redirect "/dashboard"), session') →
  is_Some (current_user us session') ∧
  handle F L us to_dashboard session' st
    = (Returned (dashboard st), session', st) ∧
  handle F L us to_results session' st
    = (Returned (results st), session', st) ∧
  handle F L us to_download session' st = (download st, session', st) ∧
  ∀ w file,
    handle F L us (to_upload w file) session' st
    = (Returned (upload L w file st).1, session', (upload L w file st).2).
Proof.
  intros [(_ & _ & key & user & Hin & ->)|(_ & _ & ?)]%login_cases; [|done].
  destruct (current_user_login us key user session Hin) as [u Hu].
  split; [by exists u|].
  unfold handle, login_required. rewrite Hu.
  repeat (split; [done|]). intros w file. by destruct (upload L w file st).
Qed.

(** X4, witness: the login of [admin], and the results page of the five-row
    upload. *)
Lemma X4_login_opens_witness :
  login users (Demo.post "admin" "admin123") None
    = (inr (Redirect "/dashboard"), Some "1") ∧
  handle Demo.flask_login Demo.library users to_results (Some "1")
         Demo.five_run.2
    = (Returned (results Demo.five_run.2), Some "1", Demo.five_run.2).
Proof.
  assert (H : login users (Demo.post "admin" "admin123") None
              = (inr (Redirect "/dashboard"), Some "1"))
    by (vm_compute; reflexivity).
  split; [exact H|].
  exact (proj1 (proj2 (proj2
    (X4_login_opens Demo.flask_login Demo.library users _ _ _
       Demo.five_run.2 H)))).
Defined.

(** X5: a request to [/logout] always ends with a session that identifies
    nobody, whether the client was logged in or not; it answers with a
    redirect and does not touch the state of the application. *)
Theorem X5_logout_closes F L (us : Users) (session : Session)
    (st : AppState) :
  ∃ location session',
    handle F L us to_logout session st
      = (Returned (Redirect location), session', st) ∧
    current_user us session' = None ∧
    (is_Some (current_user us session) →
     location = "/login" ∧ session' = None) ∧
    ∀ v, v ≠ to_index → (∀ request, v ≠ to_login request) →
         ∃ url, handle F L us v session' st
                = (Returned (unauthorized F url), session', st).
Proof.
  unfold handle at 1. unfold login_required.
  destruct (current_user us session) as [u|] eqn:Hu.
  - exists "/login", None. split; [done|]. split; [done|].
    split; [done|].
    intros v Hi Hl. destruct v; try done; try (by eexists).
    by destruct (Hl request).
  - exists (login_url F login_view "/logout"), session.
    split; [done|]. split; [done|]. split; [by intros []|].
    intros v Hi Hl. unfold handle, login_required. rewrite Hu.
    destruct v; try done; try (by eexists).
    by destruct (Hl request).
Qed.

(** ** Requests without a login *)




(** ** The files an upload writes *)

Lemma keeps_file_ret {A} path (a : A) : keeps_file path (mret a).
Proof. by intros st r st' [= _ <-]. Qed.

Lemma try_body_frame L w path p :
  p ∉ output_paths → keeps_file p (try_body L w path).
Proof.
  intros Hp. unfold output_paths in Hp.
  rewrite !not_elem_of_cons in Hp. destruct Hp as (H1 & H2 & H3 & _).
  unfold try_body.
  apply keeps_file_bind; [apply keeps_file_pd_read_csv|intros raw].
  apply keeps_file_bind; [apply keeps_file_lift|intros normalized].
  destruct (negb _); [apply keeps_file_ret|].
  repeat (apply keeps_file_bind;
          [first [apply keeps_file_lift
                 |by apply keeps_file_savefig
                 |by apply keeps_file_write]
          |intros ?]).
  apply keeps_file_bind; [|intros; apply keeps_file_ret].
  by intros st r st' [= _ <-].
Qed.

Lemma string_mem_app c s t :
  string_mem c (s +:+ t) = string_mem c s || string_mem c t.
Proof.
  induction s as [|a s IH]; [done|]. simpl. by rewrite IH, orb_assoc.
Qed.

Lemma upload_path_plain file :
  filename file ≠ "" → plain (filename file) = true →
  upload_path file = "upload/" +:+ filename file.
Proof.
  intros Hne Hplain. unfold upload_path, path_join.
  destruct (filename file) as [|a s] eqn:E; [done|].
  unfold plain in Hplain. simpl in Hplain.
  destruct (Ascii.eqb a "/") eqn:Ha; [done|]. simpl. by rewrite Ha.
Qed.

Lemma upload_path_not_output file : upload_path file ∉ output_paths.
Proof.
  unfold upload_path, path_join, output_paths.
  destruct (filename file) as [|a s]; simpl.
  { rewrite !not_elem_of_cons. by repeat split; try apply not_elem_of_nil. }
  destruct (Ascii.eqb a "/") eqn:E.
  - apply Ascii.eqb_eq in E as ->.
    rewrite !not_elem_of_cons. by repeat split; try apply not_elem_of_nil.
  - rewrite !not_elem_of_cons. by repeat split; try apply not_elem_of_nil.
Qed.

(** X7: [file.save] comes before the [try] statement and nothing removes
    the saved file: for a non-empty file name without directory part, either
    the save fails, the exception leaves the view and nothing has changed,
    or the uploaded content is in the file [upload/<name>] when the view
    returns, whatever it returns. *)
Theorem X7_upload_is_stored L w (file : FileStorage) (st : AppState) :
  filename file ≠ "" → plain (filename file) = true →
  let path := "upload/" +:+ filename file in
  let out := upload L w file st in
  match io_error w path with
  | Some e => out = (Unhandled e, st)
  | None => fs out.2 !! path = Some (RawFile (stream file))
  end.
Proof.
  intros Hname Hplain path out. unfold path.
  rewrite <- (upload_path_plain file Hname Hplain).
  destruct (upload L w file st) as [r st'] eqn:Hup. subst out.
  destruct (upload_cases _ _ _ _ _ _ Hup)
    as [(? & _)|[(_ & e & -> & -> & ->)|(_ & -> & Hbody)]]; [done|done|].
  assert (Hkeep : fs st' !! upload_path file
                  = fs (stored file st) !! upload_path file).
  { destruct Hbody as [(e & H & _)|H];
      exact (try_body_frame L w _ _ (upload_path_not_output file) _ _ _ H). }
  simpl. rewrite Hkeep. simpl. by rewrite lookup_insert_eq.
Qed.

(** X7, witness: the upload of the file without rows, which fails in the
    scaler. *)
Lemma X7_upload_is_stored_witness :
  fs (upload Demo.library Demo.calm Demo.no_rows (startup ∅)).2
    !! "upload/no_rows.csv"
  = Some (RawFile (stream Demo.no_rows)).
Proof.
  exact (X7_upload_is_stored Demo.library Demo.calm Demo.no_rows (startup ∅)
           ltac:(discriminate) eq_refl).
Defined.

(** X8: an upload writes at most four files: the saved upload, the two
    figures and the report. Every other path holds what it held before, and
    an upload without a file name writes nothing at all. *)
Theorem X8_upload_frame L w (file : FileStorage) (st : AppState) r st' :
  upload L w file st = (r, st') →
  (∀ p, p ≠ upload_path file → p ∉ output_paths →
        fs st' !! p = fs st !! p) ∧
  (filename file = "" → st' = st).
Proof.
  intros Hup. split.
  - intros p Hp Hout.
    destruct (upload_cases _ _ _ _ _ _ Hup)
      as [(_ & _ & ->)|[(_ & e & _ & _ & ->)|(_ & _ & Hbody)]]; [done|done|].
    assert (Hkeep : fs st' !! p = fs (stored file st) !! p).
    { destruct Hbody as [(e & H & _)|H];
        exact (try_body_frame L w _ _ Hout _ _ _ H). }
    rewrite Hkeep. simpl. by rewrite lookup_insert_ne.
  - intros Hname.
    destruct (upload_cases _ _ _ _ _ _ Hup)
      as [(_ & _ & ->)|[(? & _)|(? & _)]]; done.
Qed.

(** X8, witness: the file of an earlier upload is still there after the next
    one. *)
Lemma X8_upload_frame_witness :
  fs (upload Demo.library Demo.calm Demo.two_rows Demo.five_run.2).2
    !! "upload/five.csv"
  = Some (RawFile (stream Demo.five)).
Proof.
  pose proof (X8_upload_frame Demo.library Demo.calm Demo.two_rows
                Demo.five_run.2 _ _ (surjective_pairing _)) as [H _].
  rewrite (H "upload/five.csv"); [reflexivity|discriminate|].
  apply (proj1 (bool_decide_eq_false _)). vm_compute. reflexivity.
Defined.

(** X9: the file name is used as the client sent it: when it starts with
    [/], [os.path.join] drops the upload folder, the content is saved under
    the file name itself and the processing reads it from there. *)
Theorem X9_absolute_file_name L w (file : FileStorage) (st : AppState) :
  starts_with "/" (filename file) = true →
  io_error w (filename file) = None →
  upload_path file = filename file ∧
  fs (stored file st) !! filename file = Some (RawFile (stream file)) ∧
  (upload L w file st).2
    = (try_body L w (filename file) (stored file st)).2.
Proof.
  intros Habs Hio.
  assert (Hpath : upload_path file = filename file).
  { unfold upload_path, path_join. by rewrite Habs. }
  assert (Hname : filename file ≠ "").
  { intros E. by rewrite E in Habs. }
  split; [done|]. split.
  { simpl. by rewrite Hpath, lookup_insert_eq. }
  unfold upload. rewrite bool_decide_eq_false_2 by done.
  fold (upload_path file). unfold write. rewrite Hpath, Hio.
  replace {| results_data := results_data st;
             fs := <[filename file:=RawFile (stream file)]> (fs st) |}
    with (stored file st) by (unfold stored; by rewrite Hpath).
  by destruct (try_body L w (filename file) (stored file st)) as [[] ?].
Qed.

(** X9, witness: a file named [/etc/motd]. *)
Lemma X9_absolute_file_name_witness :
  let file := {| filename := "/etc/motd"; stream := "hello" |} in
  upload_path file = "/etc/motd" ∧
  fs (upload Demo.library Demo.calm file (startup ∅)).2 !! "/etc/motd"
    = Some (RawFile "hello").
Proof.
  intros file.
  destruct (X9_absolute_file_name Demo.library Demo.calm file (startup ∅)
              eq_refl eq_refl) as (Hp & _ & Hst).
  split; [exact Hp|]. rewrite Hst. reflexivity.
Defined.

(** ** The states the application reaches *)

Lemma handle_state F L us v session st r session' st' :
  handle F L us v session st = (r, session', st') →
  st' = st ∨
  ∃ w file r0, v = to_upload w file ∧ upload L w file st = (r0, st').
Proof.
  unfold handle, login_required, logout.
  destruct v as [|request| | |w file| |];
    try match goal with
        | |- context [current_user us session] =>
            destruct (current_user us session)
        end;
    try (intros [= <- <- <-]; by left).
  - destruct (login us request session). intros [= <- <- <-]. by left.
  - destruct (upload L w file st) as [r0 st0] eqn:E.
    intros [= <- <- <-]. right. by exists w, file, r0.
Qed.

(** What every upload with an accepted file keeps holds in every state that
    a client reaches. *)
Lemma browse_invariant F L us (Q : FileStorage → Prop) (P : AppState → Prop)
    visits session st rs session' st' :
  (∀ w file st r st', Q file → P st → upload L w file st = (r, st') → P st') →
  Forall (λ v, ∀ w file, v = to_upload w file → Q file) visits →
  P st →
  browse F L us visits session st = (rs, session', st') → P st'.
Proof.
  intros Hstep Hall. revert session st rs.
  induction Hall as [|v visits Hv Hall IH]; intros session st rs HP; simpl.
  { by intros [= _ _ <-]. }
  destruct (handle F L us v session st) as [[r s1] st1] eqn:E.
  destruct (browse F L us visits s1 st1) as [[rs0 s2] st2] eqn:E2.
  intros [= <- <- <-]. apply (IH s1 st1 rs0); [|done].
  apply handle_state in E as [->|(w & file & r0 & -> & Hup)]; [done|].
  by eapply Hstep; [eapply Hv| |].
Qed.

Lemma redirect_dec (r : ViewResult) :
  r = Redirect "/results" ∨ r ≠ Redirect "/results".
Proof.
  destruct r as [| |loc| |]; try (by right).
  destruct (decide (loc = "/results")) as [->|]; [by left|].
  right. congruence.
Qed.

Lemma result_set_ok_views st :
  result_set_ok (results_data st) →
  ∃ raw_preview preprocessing_summary eda_summary eda_plot fraud_plot
    fraud_count total_transactions fraud_percentage table,
    dashboard st =
      Template "dashboard.html"
        [("fraud_count", PInt fraud_count);
         ("total_transactions", PInt total_transactions);
         ("fraud_percentage", PFloat fraud_percentage);
         ("fraud_plot", PStr "fraud_agencies.png")] ∧
    results st =
      Template "results.html"
        [("raw_preview", raw_preview);
         ("preprocessing_summary", preprocessing_summary);
         ("eda_summary", eda_summary);
         ("eda_plot", eda_plot);
         ("fraud_plot", fraud_plot);
         ("fraud_count", PInt fraud_count);
         ("total_transactions", PInt total_transactions);
         ("fraud_percentage", PFloat fraud_percentage);
         ("table", table)] ∧
    0 ≤ fraud_count ≤ total_transactions ∧
    results_data st !! "fraud_count" = Some (PInt fraud_count).
Proof.
  intros (fc & tt & fp & Hfc & Htt & Hfp & Hle & _ & _ & Hkeys).
  pose proof Hfc as Hcount. revert Hcount.
  unfold result_keys in Hkeys.
  repeat match goal with
         | H : Forall _ (_ :: _) |- _ => apply Forall_cons in H as [[? ?] H]
         end.
  assert (Hne : results_data st ≠ ∅).
  { intros E. rewrite E in Hfc. by rewrite lookup_empty in Hfc. }
  repeat match goal with
         | H1 : ?a = Some ?x, H2 : ?a = Some (?c ?y) |- _ =>
             is_var x; assert (x = c y) by congruence; subst x; clear H1
         end.
  unfold dashboard, results, lookup_key.
  rewrite bool_decide_eq_false_2 by done.
  repeat match goal with
         | H : results_data st !! _ = Some _ |- _ => rewrite H; clear H
         end.
  simpl. intros Hcount. do 5 eexists. by exists fc, tt, fp, x2.
Qed.

(** X10: in every state that a client reaches from the start of the
    application, by requests of any kind, the two views that read the
    dictionary do not raise: either no upload has succeeded, the dashboard
    shows its message and [/results] answers with status 400, or both
    render their template, with all the entries they look up, and show the
    same three counters. *)
Theorem X10_views_never_raise F L (us : Users) files (visits : list Visit)
    (session : Session) rs session' st' :
  browse F L us visits session (startup files) = (rs, session', st') →
  (results_data st' = ∅ ∧
   dashboard st' = Template "dashboard.html"
                     [("message", PStr "No dataset uploaded yet.")] ∧
   results st' = BodyStatus
                   "No results available. Please upload a dataset first." 400)
  ∨ (∃ raw_preview preprocessing_summary eda_summary eda_plot fraud_plot
       fraud_count total_transactions fraud_percentage table,
       dashboard st' =
         Template "dashboard.html"
           [("fraud_count", PInt fraud_count);
            ("total_transactions", PInt total_transactions);
            ("fraud_percentage", PFloat fraud_percentage);
            ("fraud_plot", PStr "fraud_agencies.png")] ∧
       results st' =
         Template "results.html"
           [("raw_preview", raw_preview);
            ("preprocessing_summary", preprocessing_summary);
            ("eda_summary", eda_summary);
            ("eda_plot", eda_plot);
            ("fraud_plot", fraud_plot);
            ("fraud_count", PInt fraud_count);
            ("total_transactions", PInt total_transactions);
            ("fraud_percentage", PFloat fraud_percentage);
            ("table", table)] ∧
       0 ≤ fraud_count ≤ total_transactions).
Proof.
  intros Hbrowse.
  assert (H : results_data st' = ∅ ∨ result_set_ok (results_data st')).
  { eapply (browse_invariant F L us (λ _, True)
              (λ st, results_data st = ∅ ∨ result_set_ok (results_data st)));
      [..|exact Hbrowse].
    - intros w file st r st1 _ HP Hup.
      destruct (redirect_dec r) as [->|Hr].
      + right. by eapply upload_result_set_ok.
      + by rewrite (upload_keeps _ _ _ _ _ _ Hup Hr).
    - by apply Forall_forall.
    - by left. }
  destruct H as [He|Hok].
  - left. split; [done|]. unfold dashboard, results. by rewrite He.
  - right. destruct (result_set_ok_views _ Hok)
      as (a & b & c & d & e & f & g & h & i & Hd & Hr & Hle & _).
    by exists a, b, c, d, e, f, g, h, i.
Qed.

(** X10, witness: a login, a successful upload, a failed one, and the results
    page. *)
Lemma X10_views_never_raise_witness :
  let visits := [to_login (Demo.post "admin" "admin123");
                 to_upload Demo.calm Demo.five;
                 to_upload Demo.disk_full Demo.two_rows;
                 to_results] in
  let out := browse Demo.flask_login Demo.library users visits None
                    (startup ∅) in
  ∃ ctx, last out.1.1 = Some (Returned (Template "results.html" ctx)) ∧
         results out.2 = Template "results.html" ctx.
Proof.
  intros visits out.
  assert (Hlast : last out.1.1 = Some (Returned (results out.2)))
    by (vm_compute; reflexivity).
  destruct (X10_views_never_raise Demo.flask_login Demo.library users ∅
              visits None out.1.1 out.1.2 out.2)
    as [(He & _)|(a & b & c & d & e & f & g & h & i & _ & Hres & _)].
  - unfold out. by destruct (browse _ _ _ _ _ _) as [[] ?].
  - apply (f_equal (λ m : gmap string PyVal, m !! "fraud_count")) in He.
    vm_compute in He. discriminate He.
  - eexists. split; [|exact Hres]. by rewrite Hlast, Hres.
Defined.

(** ** The report that [/download] sends *)

Lemma published_report L t st :
  fs (published L t st) !! report_path
  = Some (CsvFile (columns (anomalies t))
                  (cells_of (anomalies t) <$> rows (anomalies t))) ∧
  results_data (published L t st) !! "fraud_count"
  = Some (PInt (Z.of_nat (nrows (anomalies t)))).
Proof.
  unfold published, trace_result_set. cbn [fs results_data]. split.
  - by rewrite lookup_insert_eq.
  - match goal with
    | |- context [dict_update ?d (result_set ?a ?b ?c ?e ?f ?g ?h ?i ?j)] =>
        pose proof (lookup_result_set d a b c e f g h i j) as Hlook
    end.
    cbv zeta in Hlook. by destruct Hlook as (_&_&_&_&_&_&Hfc&_&_).
Qed.

Lemma upload_report_agrees L w file st r st' :
  report_agrees st → upload L w file st = (r, st') → report_agrees st'.
Proof.
  intros HP Hup. destruct (redirect_dec r) as [->|Hr].
  - apply upload_redirect in Hup as (t & Ht & ->).
    destruct (traces_columns _ _ _ _ Ht) as (_ & _ & _ & Hca).
    destruct (published_report L t (stored file st)) as [Hfs Hfc].
    right. exists (cells_of (anomalies t) <$> rows (anomalies t)).
    rewrite Hfs, Hfc, Hca, length_fmap. done.
  - unfold report_agrees.
    rewrite (upload_keeps _ _ _ _ _ _ Hup Hr),
      (upload_keeps_report _ _ _ _ _ _ Hup Hr). exact HP.
Qed.

(** X11: the report that [/download] sends and the number the dashboard
    shows belong together in every state reached from a start without
    report, by requests of any kind whose uploads carry plain file names:
    either no upload has succeeded, the dictionary is empty and the
    download raises [FileNotFoundError]; or the download sends the report
    with the nine-column header, and the dictionary holds the number of its
    records as [fraud_count]. An upload that fails after an earlier success
    changes neither. *)
Theorem X11_download_agrees F L (us : Users) files (visits : list Visit)
    (session : Session) rs session' st' :
  files !! report_path = None →
  Forall (λ v, plain_upload v = true) visits →
  browse F L us visits session (startup files) = (rs, session', st') →
  (results_data st' = ∅ ∧
   ∃ e, download st' = Raised e ∧ exc_class e = "FileNotFoundError")
  ∨ ∃ records,
      download st'
        = SendFile "result/fraud_report.csv" (CsvFile report_header records) ∧
      results_data st' !! "fraud_count"
        = Some (PInt (Z.of_nat (length records))).
Proof.
  intros Hfiles Hplain Hbrowse.
  assert (H : report_agrees st').
  { eapply (browse_invariant F L us (λ _, True) report_agrees);
      [..|exact Hbrowse].
    - intros w file st r st1 _ HP Hup. by eapply upload_report_agrees.
    - by apply Forall_forall.
    - by left. }
  unfold download. change (path_join RESULT_FOLDER "fraud_report.csv")
    with report_path.
  destruct H as [[He Hfs]|(records & Hfs & Hfc)]; rewrite Hfs.
  - left. split; [done|]. by eexists.
  - right. by exists records.
Qed.

(** X11, witness: a download before any upload, and one after a successful and
    a failed upload. *)
Lemma X11_download_agrees_witness :
  let visits := [to_login (Demo.post "admin" "admin123");
                 to_download;
                 to_upload Demo.calm Demo.five;
                 to_upload Demo.disk_full Demo.two_rows;
                 to_download] in
  let out := browse Demo.flask_login Demo.library users visits None
                    (startup ∅) in
  out.1.1 !! 1%nat = Some (Raised (no_such_file "result/fraud_report.csv")) ∧
  ∃ records,
    out.1.1 !! 4%nat
      = Some (SendFile "result/fraud_report.csv"
                (CsvFile report_header records)) ∧
    results_data out.2 !! "fraud_count"
      = Some (PInt (Z.of_nat (length records))).
Proof.
  intros visits out.
  assert (H1 : out.1.1 !! 1%nat
               = Some (Raised (no_such_file "result/fraud_report.csv")))
    by (vm_compute; reflexivity).
  assert (H4 : out.1.1 !! 4%nat = Some (download out.2))
    by (vm_compute; reflexivity).
  split; [exact H1|].
  destruct (X11_download_agrees Demo.flask_login Demo.library users ∅
              visits None out.1.1 out.1.2 out.2)
    as [(He & _)|(records & Hd & Hfc)].
  - reflexivity.
  - repeat constructor.
  - unfold out. by destruct (browse _ _ _ _ _ _) as [[] ?].
  - apply (f_equal (λ m : gmap string PyVal, m !! "fraud_count")) in He.
    vm_compute in He. discriminate He.
  - exists records. split; [|exact Hfc]. by rewrite H4, Hd.
Defined.

(** X12: the dictionary lives in the process and the report on the disk:
    when the application is started again on the files that a successful
    upload left, [/results] answers with status 400 and the dashboard shows
    its message, while [/download] still sends the report of that upload. *)
Theorem X12_restart_keeps_report L w (file : FileStorage) (st st' : AppState) :
  upload L w file st = (Redirect "/results", st') →
  let restarted := startup (fs st') in
  results restarted
    = BodyStatus "No results available. Please upload a dataset first." 400 ∧
  dashboard restarted
    = Template "dashboard.html" [("message", PStr "No dataset uploaded yet.")] ∧
  download restarted = download st' ∧
  ∃ records,
    download st'
      = SendFile "result/fraud_report.csv" (CsvFile report_header records) ∧
    results_data st' !! "fraud_count"
      = Some (PInt (Z.of_nat (length records))).
Proof.
  intros Hup restarted. repeat (split; [done|]).
  apply upload_redirect in Hup as (t & Ht & ->).
  destruct (traces_columns _ _ _ _ Ht) as (_ & _ & _ & Hca).
  destruct (published_report L t (stored file st)) as [Hfs Hfc].
  exists (cells_of (anomalies t) <$> rows (anomalies t)).
  unfold download. change (path_join RESULT_FOLDER "fraud_report.csv")
    with report_path.
  by rewrite Hfs, Hfc, Hca, length_fmap.
Qed.

(** X12, witness: a restart on the files of the five-row upload. *)
Lemma X12_restart_keeps_report_witness :
  results (startup (fs Demo.five_run.2))
    = BodyStatus "No results available. Please upload a dataset first." 400 ∧
  download (startup (fs Demo.five_run.2)) = download Demo.five_run.2.
Proof.
  assert (H : upload Demo.library Demo.calm Demo.five (startup ∅)
              = (Redirect "/results", Demo.five_run.2))
    by (vm_compute; reflexivity).
  destruct (X12_restart_keeps_report _ _ _ _ _ H) as (Hr & _ & Hd & _).
  split; [exact Hr|exact Hd].
Defined.

(** ** What a successful upload publishes *)

Lemma string_append_assoc (s1 s2 s3 : string) :
  (s1 +:+ s2) +:+ s3 = s1 +:+ (s2 +:+ s3).
Proof.
  induction s1 as [|a s1 IH]; [done|].
  change (String a ((s1 +:+ s2) +:+ s3) = String a (s1 +:+ (s2 +:+ s3))).
  by rewrite IH.
Qed.

Lemma published_lookup L t st :
  let d := results_data (published L t st) in
  d !! "raw_preview"
    = Some (PStr (to_html L "table table-bordered" (head 5 (selected t)))) ∧
  d !! "preprocessing_summary"
    = Some (PStr (String.concat (nl +:+ nl)
         ["Initial Shape: " +:+ repr_shape (shape (selected t));
          "Missing Values:" +:+ nl
            +:+ series_to_string L (isnull_sum (selected t));
          "After Cleaning Shape: " +:+ repr_shape (shape (cleaned t))])) ∧
  d !! "eda_plot" = Some (PStr "eda_plot.png") ∧
  d !! "fraud_plot" = Some (PStr "fraud_agencies.png") ∧
  d !! "fraud_count" = Some (PInt (Z.of_nat (nrows (anomalies t)))) ∧
  d !! "total_transactions" = Some (PInt (Z.of_nat (nrows (scored t)))).
Proof.
  unfold published, trace_result_set. cbn [results_data]. cbv zeta.
  match goal with
  | |- context [dict_update ?d (result_set ?a ?b ?c ?e ?f ?g ?h ?i ?j)] =>
      pose proof (lookup_result_set d a b c e f g h i j) as Hlook
  end.
  cbv zeta in Hlook. destruct Hlook as (?&?&?&?&?&?&?&?&?).
  by repeat split.
Qed.

(** X13: the preprocessing summary of a successful upload has three
    paragraphs: the shape [(n, 4)] of the table of the four expected
    columns, where [n] is the number of rows of the uploaded table; the
    count of missing values of that table, column by column; and the shape
    [(m, 4)] after cleaning, where [m <= n] is the [total_transactions] of
    the dictionary. *)
Theorem X13_preprocessing_summary L w (file : FileStorage) (st st' : AppState) :
  upload L w file st = (Redirect "/results", st') →
  ∃ uploaded table (n m : nat),
    read_csv L (stream file) = inr uploaded ∧ n = nrows uploaded ∧
    selected_table L (stream file) = inr table ∧ nrows table = n ∧
    (m ≤ n)%nat ∧
    results_data st' !! "total_transactions" = Some (PInt (Z.of_nat m)) ∧
    results_data st' !! "preprocessing_summary" =
      Some (PStr ("Initial Shape: (" +:+ pretty n +:+ ", 4)" +:+ nl +:+ nl
                  +:+ "Missing Values:" +:+ nl
                  +:+ series_to_string L (isnull_sum table) +:+ nl +:+ nl
                  +:+ "After Cleaning Shape: (" +:+ pretty m +:+ ", 4)")).
Proof.
  intros (t & Ht & ->)%upload_redirect.
  destruct (traces_tables _ _ _ _ Ht) as (Hsel & _ & _).
  destruct (traces_columns _ _ _ _ Ht) as (Hc0 & Hc1 & _ & _).
  destruct (traces_counters _ _ _ _ Ht) as (_ & _ & Hn & _).
  pose proof Ht as (Hraw & _ & Hns & Hcl & _).
  apply Result_bind_inr in Hns as (normalized & Hnorm & Hse).
  apply normalize_inv in Hnorm as [_ Hrows].
  apply select_expected_inv in Hse as (_ & _ & Hi).
  assert (Hn0 : nrows (selected t) = nrows (raw t)).
  { rewrite (index_nrows _ _ Hi). unfold nrows. by rewrite Hrows. }
  assert (Hle : (nrows (cleaned t) ≤ nrows (raw t))%nat).
  { rewrite <- Hn0. unfold nrows.
    rewrite <- (length_fmap fst (rows (cleaned t))),
      <- (length_fmap fst (rows (selected t))).
    apply sublist_length. by eapply clean_sublist. }
  destruct (published_lookup L t (stored file st))
    as (_ & Hsum & _ & _ & _ & Htt).
  exists (raw t), (selected t), (nrows (raw t)), (nrows (cleaned t)).
  repeat (split; [done|]). split; [by rewrite Htt, Hn|].
  rewrite Hsum. unfold shape, repr_shape. rewrite Hc0, Hc1.
  fold (nrows (selected t)). fold (nrows (cleaned t)). rewrite Hn0.
  simpl length. cbn [fst snd String.concat].
  do 2 f_equal. change (pretty 4%nat) with "4".
  rewrite !string_append_assoc. reflexivity.
Qed.

(** X13, witness: the summary of the five-row upload. *)
Lemma X13_preprocessing_summary_witness :
  results_data Demo.five_run.2 !! "preprocessing_summary" =
    Some (PStr ("Initial Shape: (5, 4)" +:+ nl +:+ nl
                +:+ "Missing Values:" +:+ nl +:+ "4 entries" +:+ nl +:+ nl
                +:+ "After Cleaning Shape: (3, 4)")).
Proof.
  assert (H : upload Demo.library Demo.calm Demo.five (startup ∅)
              = (Redirect "/results", Demo.five_run.2))
    by (vm_compute; reflexivity).
  destruct (X13_preprocessing_summary _ _ _ _ _ H)
    as (uploaded & table & n & m & Hu & -> & Ht & _ & _ & Htt & Hsum).
  vm_compute in Hu. injection Hu as <-.
  vm_compute in Ht. injection Ht as <-.
  vm_compute in Htt. injection Htt as Hm. apply (inj Z.of_nat 3%nat) in Hm as <-.
  exact Hsum.
Defined.

(** X14: after a successful upload the two image files named in the
    dictionary exist in [static]: the histogram holds the amounts of
    exactly the cleaned rows, one per counted transaction, and the bar
    chart holds at most eight agencies, taken from the value counts of
    the [AGENCY_NAME] column of the flagged rows, that is of the rows of
    the scored table whose [Anomaly] cell is [-1], one name per counted
    fraud. *)
Theorem X14_figures L w (file : FileStorage) (st st' : AppState) :
  upload L w file st = (Redirect "/results", st') →
  ∃ table amounts scored flagged agencies bars,
    cleaned_table L (stream file) = inr table ∧
    getitem table "TRANSACTION_AMOUNT" = inr amounts ∧
    scored_table L w (stream file) = inr scored ∧
    select_eq scored "Anomaly" (Int (-1)) = inr flagged ∧
    getitem flagged "AGENCY_NAME" = inr agencies ∧
    results_data st' !! "total_transactions"
      = Some (PInt (Z.of_nat (length amounts))) ∧
    results_data st' !! "eda_plot" = Some (PStr "eda_plot.png") ∧
    fs st' !! "static/eda_plot.png"
      = Some (PngFile {| figsize := (10, 5);
                         plot := HistPlot amounts 100 "skyblue";
                         title := "Transaction Amount Distribution";
                         xlabel := "Amount";
                         ylabel := "Frequency" |}) ∧
    results_data st' !! "fraud_count"
      = Some (PInt (Z.of_nat (length agencies))) ∧
    bars = take 8 (value_counts L agencies) ∧ (length bars ≤ 8)%nat ∧
    results_data st' !! "fraud_plot" = Some (PStr "fraud_agencies.png") ∧
    fs st' !! "static/fraud_agencies.png"
      = Some (PngFile {| figsize := (10, 4);
                         plot := BarPlot bars.*2 bars.*1 "rocket";
                         title := "Top Fraud-Prone Agencies";
                         xlabel := "Fraud Count";
                         ylabel := "" |}).
Proof.
  intros (t & Ht & ->)%upload_redirect.
  destruct (traces_tables _ _ _ _ Ht) as (_ & Hcl & Hsc).
  destruct (traces_counters _ _ _ _ Ht) as (_ & _ & Hn & _).
  pose proof Ht as (_&_&_&_&Heng&_&Ham&_&Han&_&Hag).
  apply engineer_inv in Heng
    as (_ & _ & dates & ags & mers & _ & _ & _ & _ & _ & _ & _ & Hother).
  rewrite Hother in Ham.
  2:{ apply (proj1 (bool_decide_eq_false _)). reflexivity. }
  pose proof (getitem_length _ _ _ Ham) as Hlen.
  pose proof (getitem_length _ _ _ Hag) as Hlen'.
  destruct (published_lookup L t (stored file st))
    as (_ & _ & Hep & Hfp & Hfc & Htt).
  exists (cleaned t), (amounts t), (scored t), (anomalies t), (agencies t),
    (take 8 (value_counts L (agencies t))).
  split; [done|]. split; [done|]. split; [done|]. split; [done|].
  split; [done|].
  split; [by rewrite Htt, Hlen, Hn|]. split; [done|].
  split.
  { unfold published. cbn [fs].
    change (path_join STATIC_FOLDER "eda_plot.png") with "static/eda_plot.png".
    by rewrite !lookup_insert_ne, lookup_insert_eq by done. }
  split; [by rewrite Hfc, Hlen'|]. split; [done|].
  split; [rewrite length_take; lia|]. split; [done|].
  unfold published. cbn [fs].
  change (path_join STATIC_FOLDER "fraud_agencies.png")
    with "static/fraud_agencies.png".
  by rewrite lookup_insert_ne, lookup_insert_eq by done.
Qed.

(** X14, witness: the histogram of the five-row upload. *)
Lemma X14_figures_witness :
  fs Demo.five_run.2 !! "static/eda_plot.png"
  = Some (PngFile {| figsize := (10, 5);
                     plot := HistPlot [Int 10; Int 9000; Int 5] 100 "skyblue";
                     title := "Transaction Amount Distribution";
                     xlabel := "Amount";
                     ylabel := "Frequency" |}).
Proof.
  assert (H : upload Demo.library Demo.calm Demo.five (startup ∅)
              = (Redirect "/results", Demo.five_run.2))
    by (vm_compute; reflexivity).
  destruct (X14_figures _ _ _ _ _ H)
    as (table & amounts & scored & flagged & agencies & bars
        & Ht & Ha & _ & _ & _ & _ & _ & Hfs & _).
  vm_compute in Ht. injection Ht as <-.
  vm_compute in Ha. injection Ha as <-.
  exact Hfs.
Defined.

(** ** The selection of the expected columns *)

Lemma getitem_single df name p :
  positions name (columns df) = [p] →
  getitem df name = inr ((λ r, cell r.2 p) <$> rows df).
Proof. unfold getitem. by intros ->. Qed.

(** X15: the expected columns are found by name, not by position: on a
    table whose normalised column names are pairwise distinct and include
    the four expected ones, in any order and among any other columns, the
    selection succeeds, keeps every row, and its four columns hold the
    values of the columns [transaction_date], [agency_name], [vendor] and
    [amount], under the names [TRANSACTION_DATE], [AGENCY_NAME],
    [MERCHANT_NAME] and [TRANSACTION_AMOUNT]. *)
Theorem X15_selection_by_name (df : DataFrame) :
  NoDup (columns df) → has_expected (columns df) = true →
  ∃ df',
    select_expected df = inr df' ∧
    columns df' = canonical_cols ∧ index df' = index df ∧
    getitem df' "TRANSACTION_DATE" = getitem df "transaction_date" ∧
    getitem df' "AGENCY_NAME" = getitem df "agency_name" ∧
    getitem df' "MERCHANT_NAME" = getitem df "vendor" ∧
    getitem df' "TRANSACTION_AMOUNT" = getitem df "amount".
Proof.
  intros Hnd Hexp. unfold has_expected, expected_cols in Hexp. simpl in Hexp.
  repeat (apply andb_prop in Hexp as [?%bool_decide_eq_true Hexp]).
  destruct (positions_nodup "transaction_date" _ Hnd) as [p1 Hp1]; [done|].
  destruct (positions_nodup "agency_name" _ Hnd) as [p2 Hp2]; [done|].
  destruct (positions_nodup "vendor" _ Hnd) as [p3 Hp3]; [done|].
  destruct (positions_nodup "amount" _ Hnd) as [p4 Hp4]; [done|].
  rewrite (getitem_single _ _ _ Hp1), (getitem_single _ _ _ Hp2),
    (getitem_single _ _ _ Hp3), (getitem_single _ _ _ Hp4).
  unfold select_expected, getitem_cols, expected_cols.
  rewrite !filter_cons, filter_nil, !decide_False by by intros [].
  simpl. rewrite Hp1, Hp2, Hp3, Hp4. simpl. unfold set_columns. simpl.
  eexists. split; [reflexivity|]. split; [done|]. split.
  { unfold index. simpl. by rewrite <- list_fmap_compose. }
  unfold getitem. simpl. by rewrite <- !list_fmap_compose.
Qed.

(** X15, witness: the expected columns in reverse order, after a fifth one. *)
Lemma X15_selection_by_name_witness :
  let df := {| columns := ["memo"; "amount"; "vendor"; "agency_name";
                           "transaction_date"];
               rows := [(0%nat, [Str "x"; Int 7; Str "v"; Str "a";
                                 Str "2020-01-01"])] |} in
  select_expected df
  = inr {| columns := canonical_cols;
           rows := [(0%nat, [Str "2020-01-01"; Str "a"; Str "v"; Int 7])] |}.
Proof.
  intros df.
  destruct (X15_selection_by_name df) as (df' & Hsel & _).
  - apply (proj1 (bool_decide_spec _)). vm_compute. exact I.
  - reflexivity.
  - rewrite Hsel. vm_compute in Hsel. by injection Hsel as <-.
Defined.

(** X16: the table keeps the values it was cleaned to: scoring works on a
    scaled copy of the features, so in the scored table, which the report
    and the fraud table are taken from, the four canonical columns hold what
    the cleaned table holds, and the month and the day of the week are
    those of the parsed date of the same row. *)
Theorem X16_scored_keeps_values L w (file : FileStorage) (st st' : AppState) :
  upload L w file st = (Redirect "/results", st') →
  ∃ table scored dates,
    cleaned_table L (stream file) = inr table ∧
    scored_table L w (stream file) = inr scored ∧
    index scored = index table ∧
    (∀ name, name ∈ canonical_cols →
             getitem scored name = getitem table name) ∧
    getitem table "TRANSACTION_DATE" = inr dates ∧
    getitem scored "Month" = inr (dt_month L <$> dates) ∧
    getitem scored "DayOfWeek" = inr (dt_dayofweek L <$> dates).
Proof.
  intros (t & Ht & ->)%upload_redirect.
  destruct (traces_tables _ _ _ _ Ht) as (_ & Hcl & Hsc).
  destruct (traces_counters _ _ _ _ Ht) as (Hi & _).
  pose proof Ht as (_&_&_&_&Heng&_&_&Hscore&_).
  apply engineer_inv in Heng
    as (_ & _ & dates & ags & mers & Hd & _ & _ & Hmo & Hdw & _ & _ & Hother).
  apply score_inv in Hscore as (_ & _ & _ & Hkeep).
  exists (cleaned t), (scored t), dates.
  repeat (split; [done|]). split; [|split; [done|split]].
  - intros name Hname. unfold canonical_cols in Hname.
    rewrite !elem_of_cons in Hname.
    destruct Hname as [->|[->|[->|[->|[]%elem_of_nil]]]];
      (rewrite Hkeep by done; apply Hother;
       apply (proj1 (bool_decide_eq_false _)); reflexivity).
  - by rewrite Hkeep.
  - by rewrite Hkeep.
Qed.

(** X16, witness: the amounts of the scored table of the five-row upload. *)
Lemma X16_scored_keeps_values_witness :
  (scored_table Demo.library Demo.calm (stream Demo.five)
     ≫= λ df, getitem df "TRANSACTION_AMOUNT")
  = inr [Int 10; Int 9000; Int 5].
Proof.
  assert (H : upload Demo.library Demo.calm Demo.five (startup ∅)
              = (Redirect "/results", Demo.five_run.2))
    by (vm_compute; reflexivity).
  destruct (X16_scored_keeps_values _ _ _ _ _ H)
    as (table & scored & dates & Ht & Hs & _ & Hkeep & _).
  rewrite Hs. simpl. rewrite Hkeep.
  - vm_compute in Ht. injection Ht as <-. reflexivity.
  - unfold canonical_cols. do 3 apply list_elem_of_further.
    apply list_elem_of_here.
Defined.

(** ** The normalisation of column names *)

Lemma string_append_nil_r (s : string) : s +:+ "" = s.
Proof.
  induction s as [|a s IH]; [done|].
  change (String a (s +:+ "") = String a s). by rewrite IH.
Qed.

Lemma rev_app_spec (s acc : string) :
  String.rev_app s acc = String.rev s +:+ acc.
Proof.
  revert acc. induction s as [|a s IH]; intros acc; [done|].
  unfold String.rev. simpl. rewrite (IH (String a acc)), (IH (String a "")).
  by rewrite string_append_assoc.
Qed.

Lemma string_rev_cons (a : ascii) (s : string) :
  String.rev (String a s) = String.rev s +:+ String a "".
Proof. unfold String.rev at 1. simpl. apply rev_app_spec. Qed.

Lemma string_rev_append (s t : string) :
  String.rev (s +:+ t) = String.rev t +:+ String.rev s.
Proof.
  induction s as [|a s IH]; [by rewrite string_append_nil_r|].
  change (String a s +:+ t) with (String a (s +:+ t)).
  by rewrite !string_rev_cons, IH, string_append_assoc.
Qed.

Lemma string_rev_involutive (s : string) : String.rev (String.rev s) = s.
Proof.
  induction s as [|a s IH]; [done|]. by rewrite string_rev_cons, string_rev_append, IH.
Qed.

Lemma string_map_append f (s t : string) :
  string_map f (s +:+ t) = string_map f s +:+ string_map f t.
Proof.
  induction s as [|a s IH]; [done|].
  change (String a s +:+ t) with (String a (s +:+ t)). simpl.
  rewrite IH. done.
Qed.

Lemma string_map_rev f (s : string) :
  string_map f (String.rev s) = String.rev (string_map f s).
Proof.
  induction s as [|a s IH]; [done|]. simpl.
  by rewrite !string_rev_cons, string_map_append, IH.
Qed.

Lemma string_map_compose f g (s : string) :
  string_map f (string_map g s) = string_map (f ∘ g) s.
Proof. induction s as [|a s IH]; [done|]. simpl. by rewrite IH. Qed.

Lemma string_map_ext f g (s : string) :
  (∀ a, f a = g a) → string_map f s = string_map g s.
Proof. intros H. induction s as [|a s IH]; [done|]. simpl. by rewrite H, IH. Qed.

Lemma lstrip_string_map f (s : string) :
  (∀ a, is_py_space (f a) = is_py_space a) →
  lstrip (string_map f s) = string_map f (lstrip s).
Proof.
  intros H. induction s as [|a s IH]; [done|]. simpl. rewrite H.
  by destruct (is_py_space a).
Qed.

Lemma strip_string_map f (s : string) :
  (∀ a, is_py_space (f a) = is_py_space a) →
  strip (string_map f s) = string_map f (strip s).
Proof.
  intros H. unfold strip.
  by rewrite lstrip_string_map, <- string_map_rev, lstrip_string_map,
    <- string_map_rev.
Qed.

Lemma head_ok_lstrip (s : string) : head_ok (lstrip s) = true.
Proof.
  induction s as [|a s IH]; [done|]. simpl.
  destruct (is_py_space a) eqn:E; [done|]. simpl. by rewrite E.
Qed.

Lemma lstrip_head_ok (s : string) : head_ok s = true → lstrip s = s.
Proof. destruct s as [|a s]; [done|]. simpl. by destruct (is_py_space a). Qed.

Lemma head_ok_append (s t : string) :
  s ≠ "" → head_ok (s +:+ t) = head_ok s.
Proof. by destruct s. Qed.

Lemma head_ok_rev_lstrip (v : string) :
  head_ok (String.rev v) = true → head_ok (String.rev (lstrip v)) = true.
Proof.
  induction v as [|a v IH]; [done|]. simpl.
  destruct (is_py_space a) eqn:E; [|done].
  rewrite string_rev_cons. destruct v as [|b v]; [simpl; by rewrite E|].
  rewrite head_ok_append.
  - apply IH.
  - rewrite string_rev_cons. by destruct (String.rev v).
Qed.

Lemma strip_ends (s : string) :
  head_ok (strip s) = true ∧ head_ok (String.rev (strip s)) = true.
Proof.
  unfold strip. split.
  - apply head_ok_rev_lstrip. rewrite string_rev_involutive. apply head_ok_lstrip.
  - rewrite string_rev_involutive. apply head_ok_lstrip.
Qed.

Lemma strip_fixed (s : string) :
  head_ok s = true → head_ok (String.rev s) = true → strip s = s.
Proof.
  intros H1 H2. unfold strip.
  by rewrite (lstrip_head_ok s), (lstrip_head_ok (String.rev s)),
    string_rev_involutive.
Qed.

Lemma head_ok_string_map f (s : string) :
  (∀ a, is_py_space a = false → is_py_space (f a) = false) →
  head_ok s = true → head_ok (string_map f s) = true.
Proof.
  intros H. destruct s as [|a s]; [done|]. simpl.
  intros Ha%negb_true_iff. by rewrite H.
Qed.

Lemma all_space_lstrip (s : string) : all_space s = true → lstrip s = "".
Proof.
  induction s as [|a s IH]; [done|]. simpl.
  by intros [-> ?]%andb_prop; auto.
Qed.

Lemma lstrip_append_space (pre s : string) :
  all_space pre = true → lstrip (pre +:+ s) = lstrip s.
Proof.
  induction pre as [|a pre IH]; [done|]. simpl.
  intros [Ha ?]%andb_prop.
  change (String a pre +:+ s) with (String a (pre +:+ s)). simpl.
  rewrite Ha. auto.
Qed.

Lemma lstrip_append (s t : string) :
  all_space s = false → lstrip (s +:+ t) = lstrip s +:+ t.
Proof.
  induction s as [|a s IH]; [done|]. simpl.
  change (String a s +:+ t) with (String a (s +:+ t)). simpl.
  destruct (is_py_space a); simpl; [exact IH|done].
Qed.

Lemma all_space_append (s t : string) :
  all_space (s +:+ t) = all_space s && all_space t.
Proof.
  induction s as [|a s IH]; [done|].
  change (String a s +:+ t) with (String a (s +:+ t)). simpl.
  by rewrite IH, andb_assoc.
Qed.

Lemma all_space_rev (s : string) : all_space (String.rev s) = all_space s.
Proof.
  induction s as [|a s IH]; [done|].
  rewrite string_rev_cons, all_space_append, IH. simpl.
  by rewrite andb_true_r, andb_comm.
Qed.

Lemma strip_padding (pre s post : string) :
  all_space pre = true → all_space post = true →
  strip (pre +:+ s +:+ post) = strip s.
Proof.
  intros Hpre Hpost. unfold strip. rewrite lstrip_append_space by done.
  destruct (all_space s) eqn:Hs.
  - rewrite (all_space_lstrip s), (all_space_lstrip (s +:+ post)); [done|..].
    + by rewrite all_space_append, Hs.
    + done.
  - rewrite lstrip_append by done. rewrite string_rev_append.
    rewrite lstrip_append_space; [done|]. by rewrite all_space_rev.
Qed.

Lemma lower_char_space (a : ascii) :
  is_py_space (lower_char a) = is_py_space a.
Proof. by destruct a as [[] [] [] [] [] [] [] []]. Qed.

Lemma replace_char_space (a : ascii) :
  is_py_space a = false →
  is_py_space (if Ascii.eqb a " " then "_"%char else a) = false.
Proof. by destruct a as [[] [] [] [] [] [] [] []]. Qed.

Lemma normalize_char_idem (a : ascii) :
  let f := λ a, if Ascii.eqb (lower_char a) " " then "_"%char
                else lower_char a in
  f (f a) = f a.
Proof. by destruct a as [[] [] [] [] [] [] [] []]. Qed.

Lemma isascii_append (s t : string) :
  isascii (s +:+ t) = isascii s && isascii t.
Proof.
  induction s as [|a s IH]; [done|].
  change (String a s +:+ t) with (String a (s +:+ t)). simpl.
  by rewrite IH, andb_assoc.
Qed.

Lemma isascii_rev (s : string) : isascii (String.rev s) = isascii s.
Proof.
  induction s as [|a s IH]; [done|].
  rewrite string_rev_cons, isascii_append, IH. simpl.
  by rewrite andb_true_r, andb_comm.
Qed.

Lemma isascii_lstrip (s : string) : isascii s = true → isascii (lstrip s) = true.
Proof.
  induction s as [|a s IH]; [done|]. simpl.
  intros [Ha Hs]%andb_prop. destruct (is_py_space a); [by apply IH|].
  simpl. by rewrite Ha, Hs.
Qed.

Lemma isascii_strip (s : string) : isascii s = true → isascii (strip s) = true.
Proof.
  intros H. unfold strip. rewrite isascii_rev. apply isascii_lstrip.
  rewrite isascii_rev. by apply isascii_lstrip.
Qed.

Lemma isascii_string_map f (s : string) :
  (∀ a, is_ascii a = true → is_ascii (f a) = true) →
  isascii s = true → isascii (string_map f s) = true.
Proof.
  intros Hf. induction s as [|a s IH]; [done|]. simpl.
  intros [Ha Hs]%andb_prop. by rewrite Hf, IH.
Qed.

Lemma all_space_isascii (s : string) : all_space s = true → isascii s = true.
Proof.
  induction s as [|a s IH]; [done|]. simpl.
  intros [Ha Hs]%andb_prop. rewrite IH by done.
  rewrite andb_true_r. revert Ha. by destruct a as [[] [] [] [] [] [] [] []].
Qed.

Lemma lower_char_ascii (a : ascii) :
  is_ascii a = true → is_ascii (lower_char a) = true.
Proof. by destruct a as [[] [] [] [] [] [] [] []]. Qed.

Lemma replace_char_ascii (a : ascii) :
  is_ascii a = true →
  is_ascii (if Ascii.eqb a " " then "_"%char else a) = true.
Proof. by destruct a as [[] [] [] [] [] [] [] []]. Qed.

(** X17: on names in the ASCII range, where [strip], [lower] and
    [replace_space] are the methods of Python, the normalisation of a column
    name (line 93) gives a name in the ASCII range and is idempotent, so a
    header that is already normalised is taken as it is; it does not see the
    case of the letters; and it does not see white space around the name. *)
Theorem X17_normalize_col (s : string) :
  isascii s = true →
  isascii (normalize_col s) = true ∧
  normalize_col (normalize_col s) = normalize_col s ∧
  (∀ s', isascii s' = true → lower s = lower s' →
         normalize_col s = normalize_col s') ∧
  (∀ pre post, all_space pre = true → all_space post = true →
               isascii (pre +:+ s +:+ post) = true ∧
               normalize_col (pre +:+ s +:+ post) = normalize_col s).
Proof.
  intros Hs. split; [|split; [|split]].
  - unfold normalize_col, replace_space, lower.
    apply isascii_string_map; [apply replace_char_ascii|].
    apply isascii_string_map; [apply lower_char_ascii|].
    by apply isascii_strip.
  - unfold normalize_col, replace_space, lower.
    destruct (strip_ends s) as [H1 H2].
    set (t := strip s) in *.
    rewrite strip_fixed.
    + rewrite !string_map_compose. apply string_map_ext.
      intros a. apply normalize_char_idem.
    + apply head_ok_string_map; [apply replace_char_space|].
      apply head_ok_string_map; [|done].
      intros a. by rewrite lower_char_space.
    + rewrite <- !string_map_rev.
      apply head_ok_string_map; [apply replace_char_space|].
      apply head_ok_string_map; [|done].
      intros a. by rewrite lower_char_space.
  - intros s' _ Hlow. unfold normalize_col, lower in *.
    rewrite <- !strip_string_map by apply lower_char_space.
    by rewrite Hlow.
  - intros pre post Hpre Hpost. split.
    + rewrite !isascii_append, Hs, !all_space_isascii by done. done.
    + unfold normalize_col. by rewrite strip_padding.
Qed.

(** X17, witness: a header cell with capitals, an inner space and spaces
    around it. *)
Lemma X17_normalize_col_witness :
  normalize_col "  Transaction Date " = "transaction_date" ∧
  normalize_col "transaction_date" = "transaction_date".
Proof.
  destruct (X17_normalize_col "  Transaction Date " eq_refl)
    as (_ & Hidem & _).
  assert (H : normalize_col "  Transaction Date " = "transaction_date")
    by reflexivity.
  split; [exact H|]. by rewrite H in Hidem.
Defined.

(** ** The ends of the percentage *)

Lemma round_half_even_Qeq (x y : Q) :
  (x == y)%Q → Binary64.round_half_even x = Binary64.round_half_even y.
Proof.
  intros H. unfold Binary64.round_half_even.
  rewrite (Qfloor_comp x y H).
  assert (H' : (x - inject_Z (Qfloor y) == y - inject_Z (Qfloor y))%Q)
    by by rewrite H.
  by rewrite (Qcompare_comp _ _ H' (1 # 2)%Q (1 # 2)%Q (Qeq_refl _)).
Qed.

Lemma ilog2_unique (q : Q) (e : Z) :
  (2 ^ e <= q)%Q → (q < 2 ^ (e + 1))%Q → Binary64.ilog2 q = e.
Proof.
  intros Hlo Hhi.
  assert (Hpos : (0 < q)%Q).
  { eapply Qlt_le_trans; [|exact Hlo]. by apply Qpower_0_lt. }
  destruct (ilog2_spec q Hpos) as [Hlo' Hhi'].
  set (i := Binary64.ilog2 q) in *.
  destruct (Z.lt_trichotomy i e) as [Hlt|[->|Hgt]]; [exfalso| done |exfalso].
  - assert (H : (2 ^ (i + 1) <= 2 ^ e)%Q)
      by (apply Qpower_le_compat_l; [lia|done]).
    apply (Qlt_irrefl q). eapply Qlt_le_trans; [exact Hhi'|].
    by eapply Qle_trans.
  - assert (H : (2 ^ (e + 1) <= 2 ^ i)%Q)
      by (apply Qpower_le_compat_l; [lia|done]).
    apply (Qlt_irrefl q). eapply Qlt_le_trans; [exact Hhi|].
    by eapply Qle_trans.
Qed.

(** Rounding to a double does not see how the rational is written. *)
Lemma RN_Qeq (q q' : Q) :
  (0 < q)%Q → (q == q')%Q → Binary64.RN q = Binary64.RN q'.
Proof.
  intros Hpos Heq.
  assert (Hpos' : (0 < q')%Q) by by rewrite <- Heq.
  assert (Hi : Binary64.ilog2 q' = Binary64.ilog2 q).
  { destruct (ilog2_spec q Hpos) as [Hlo Hhi].
    apply ilog2_unique; by rewrite <- Heq. }
  unfold Binary64.RN.
  assert (Hz : ∀ x, (0 < x)%Q → Qeq_bool x 0 = false).
  { intros x Hx. apply not_true_is_false. intros E%Qeq_bool_eq.
    rewrite E in Hx. by apply Qlt_irrefl in Hx. }
  rewrite !Hz by done. unfold Binary64.ulp_exp. rewrite Hi.
  set (p := Z.max _ _).
  assert (Hdiv : (q / 2 ^ p == q' / 2 ^ p)%Q) by by rewrite Heq.
  by rewrite (round_half_even_Qeq _ _ Hdiv).
Qed.

(** X18: the two ends of the percentage of line 155 are exact: when no row
    is flagged it is the double [0.0], and when every row is flagged it is
    the double [100.0], whatever the number of rows. *)
Theorem X18_percentage_ends (total_transactions : Z) :
  0 < total_transactions →
  percentage 0 total_transactions = inr 0%Q ∧
  percentage total_transactions total_transactions = inr 100%Q.
Proof.
  intros Ht. unfold percentage, truediv.
  destruct (decide (total_transactions = 0)) as [|_]; [lia|]. simpl. split.
  - assert (H0 : Binary64.RN (inject_Z 0 / inject_Z total_transactions) = 0%Q).
    { unfold Binary64.RN. by destruct total_transactions. }
    rewrite H0. reflexivity.
  - assert (H1 : Binary64.RN (inject_Z total_transactions
                              / inject_Z total_transactions)
                 = Binary64.RN 1).
    { assert (Hne : ¬ (inject_Z total_transactions == 0)%Q).
      { change 0%Q with (inject_Z 0). rewrite inject_Z_injective. lia. }
      assert (Hone : (inject_Z total_transactions
                      / inject_Z total_transactions == 1)%Q) by by field.
      apply RN_Qeq; [by rewrite Hone|done]. }
    rewrite H1. reflexivity.
Qed.

(** X18, witness: 4000 rows. *)
Lemma X18_percentage_ends_witness :
  percentage 0 4000 = inr 0%Q ∧ percentage 4000 4000 = inr 100%Q.
Proof. apply (X18_percentage_ends 4000). reflexivity. Defined.

(** ** One dictionary for all clients *)

(** X19: the dictionary belongs to the process, not to a session: when the
    upload of one logged-in client has ended on the results page, the
    results page of any other logged-in client shows the counters of this
    upload, and its download sends the report of this upload. *)
Theorem X19_results_are_shared F L (us : Users) (a a' b : Session) w
    (file : FileStorage) (st st' : AppState) :
  is_Some (current_user us a) → is_Some (current_user us b) →
  handle F L us (to_upload w file) a st
    = (Returned (Redirect "/results"), a', st') →
  ∃ ctx fraud_count records,
    handle F L us to_results b st'
      = (Returned (Template "results.html" ctx), b, st') ∧
    ("fraud_count", PInt fraud_count) ∈ ctx ∧
    results_data st' !! "fraud_count" = Some (PInt fraud_count) ∧
    handle F L us to_download b st'
      = (SendFile "result/fraud_report.csv" (CsvFile report_header records),
         b, st') ∧
    fraud_count = Z.of_nat (length records).
Proof.
  intros [ua Hua] [u Hu] Hup.
  assert (Hup' : upload L w file st = (Redirect "/results", st')).
  { unfold handle, login_required in Hup. rewrite Hua in Hup.
    destruct (upload L w file st) as [r0 st0]. by injection Hup as -> _ ->. }
  pose proof (upload_result_set_ok _ _ _ _ _ Hup') as Hok.
  destruct (result_set_ok_views _ Hok)
    as (rp & ps & es & ep & fp & fc & tt & pc & tb & _ & Hres & _ & Hfc').
  apply upload_redirect in Hup' as (t & Ht & ->).
  destruct (traces_columns _ _ _ _ Ht) as (_ & _ & _ & Hca).
  destruct (published_report L t (stored file st)) as [Hfs Hfc].
  unfold handle, login_required. rewrite Hu, Hres.
  eexists _, fc, (cells_of (anomalies t) <$> rows (anomalies t)).
  split; [reflexivity|].
  split; [do 5 apply list_elem_of_further; apply list_elem_of_here|].
  split; [done|]. split.
  - unfold download. change (path_join RESULT_FOLDER "fraud_report.csv")
      with report_path. by rewrite Hfs, Hca.
  - rewrite Hfc in Hfc'. injection Hfc' as <-. by rewrite length_fmap.
Qed.

(** X19, witness: the results page of a logged-in client after the five-row
    upload. *)
Lemma X19_results_are_shared_witness :
  ∃ ctx,
    handle Demo.flask_login Demo.library users to_results (Some "1")
           Demo.five_run.2
    = (Returned (Template "results.html" ctx), Some "1", Demo.five_run.2) ∧
    ("fraud_count", PInt 1) ∈ ctx.
Proof.
  destruct (X19_results_are_shared Demo.flask_login Demo.library users
              (Some "1") (Some "1") (Some "1") Demo.calm Demo.five
              (startup ∅) Demo.five_run.2)
    as (ctx & fc & records & Hres & Hin & Hfc & _).
  - by eexists.
  - by eexists.
  - vm_compute. reflexivity.
  - exists ctx. split; [exact Hres|].
    vm_compute in Hfc. injection Hfc as <-. exact Hin.
Defined.

(** ** The texts and the model of a successful upload *)

(** X20: the EDA summary of a successful upload has four paragraphs with
    fixed headings, all computed on the cleaned table: the first five value
    counts of the agency names, the first five value counts of the merchant
    names, the description of the amounts, and the value counts of the
    months of the parsed dates, sorted by month. *)
Theorem X20_eda_summary L w (file : FileStorage) (st st' : AppState) :
  upload L w file st = (Redirect "/results", st') →
  ∃ table dates agencies merchants amounts,
    cleaned_table L (stream file) = inr table ∧
    getitem table "TRANSACTION_DATE" = inr dates ∧
    getitem table "AGENCY_NAME" = inr agencies ∧
    getitem table "MERCHANT_NAME" = inr merchants ∧
    getitem table "TRANSACTION_AMOUNT" = inr amounts ∧
    results_data st' !! "eda_summary" =
      Some (PStr (
        "Top 5 Agencies:" +:+ nl
        +:+ series_to_string L (take 5 (value_counts L agencies))
        +:+ nl +:+ nl +:+ "Top 5 Merchants:" +:+ nl
        +:+ series_to_string L (take 5 (value_counts L merchants))
        +:+ nl +:+ nl +:+ "Transaction Amount Stats:" +:+ nl
        +:+ series_to_string L (describe L amounts)
        +:+ nl +:+ nl +:+ "Transactions per Month:" +:+ nl
        +:+ series_to_string L
              (sort_index L (value_counts L (dt_month L <$> dates))))).
Proof.
  intros (t & Ht & ->)%upload_redirect.
  destruct (traces_tables _ _ _ _ Ht) as (_ & Hcl & _).
  pose proof Ht as (_&_&_&_&Heng&Heda&_).
  apply engineer_inv in Heng
    as (_ & _ & dates & ags & mers & Hd & Ha & Hm & Hmo & _ & _ & _ & Hother).
  unfold eda_text in Heda.
  assert (Hnot : ∀ name,
            bool_decide
              (name ∈ ["Month"; "DayOfWeek"; "AGENCY_CODE"; "MERCHANT_CODE"])
            = false →
            getitem (engineered t) name = getitem (cleaned t) name).
  { intros name Hname. by apply Hother, (proj1 (bool_decide_eq_false _)). }
  rewrite (Hnot "AGENCY_NAME" eq_refl), (Hnot "MERCHANT_NAME" eq_refl),
    (Hnot "TRANSACTION_AMOUNT" eq_refl), Ha, Hm, Hmo in Heda.
  simpl in Heda.
  destruct (getitem (cleaned t) "TRANSACTION_AMOUNT") as [|ams] eqn:Ham;
    [done|].
  simpl in Heda. injection Heda as Heda.
  exists (cleaned t), dates, ags, mers, ams. repeat (split; [done|]).
  unfold published, trace_result_set. cbn [results_data].
  match goal with
  | |- context [dict_update ?d (result_set ?a ?b ?c ?e ?f ?g ?h ?i ?j)] =>
      pose proof (lookup_result_set d a b c e f g h i j) as Hlook
  end.
  cbv zeta in Hlook. destruct Hlook as (_&_&Hes&_).
  rewrite Hes, <- Heda. reflexivity.
Qed.

(** X20, witness: the summary of the five-row upload. *)
Lemma X20_eda_summary_witness :
  results_data Demo.five_run.2 !! "eda_summary" =
    Some (PStr ("Top 5 Agencies:" +:+ nl +:+ "3 entries"
                +:+ nl +:+ nl +:+ "Top 5 Merchants:" +:+ nl +:+ "3 entries"
                +:+ nl +:+ nl +:+ "Transaction Amount Stats:" +:+ nl
                +:+ "0 entries"
                +:+ nl +:+ nl +:+ "Transactions per Month:" +:+ nl
                +:+ "1 entries")).
Proof.
  assert (H : upload Demo.library Demo.calm Demo.five (startup ∅)
              = (Redirect "/results", Demo.five_run.2))
    by (vm_compute; reflexivity).
  destruct (X20_eda_summary _ _ _ _ _ H)
    as (table & dates & ags & mers & ams & Ht & Hd & Ha & Hm & Ham & Hsum).
  vm_compute in Ht. injection Ht as <-.
  vm_compute in Hd. injection Hd as <-.
  vm_compute in Ha. injection Ha as <-.
  vm_compute in Hm. injection Hm as <-.
  vm_compute in Ham. injection Ham as <-.
  exact Hsum.
Defined.

(** X21: what the model of a successful upload is given: the five feature
    columns, in the order amount, agency code, merchant code, month, day of
    week, one row per cleaned row; the forest is fitted with 100 trees, the
    contamination 0.02 and the seed 42 on the scaled matrix, and the flags of
    the scored table are its predictions on this same matrix. *)
Theorem X21_model_inputs L w (file : FileStorage) (st st' : AppState) :
  upload L w file st = (Redirect "/results", st') →
  ∃ table features X model labels scored,
    cleaned_table L (stream file) = inr table ∧
    columns features = feature_cols ∧ index features = index table ∧
    getitem features "TRANSACTION_AMOUNT"
      = getitem table "TRANSACTION_AMOUNT" ∧
    fit_transform L features = inr X ∧
    isolation_forest_fit L 100 (Binary64.RN (2 # 100)) 42 X = inr model ∧
    predict L model X = inr labels ∧
    scored_table L w (stream file) = inr scored ∧
    getitem scored "Anomaly" = inr (Int <$> labels) ∧
    length labels = nrows table.
Proof.
  intros (t & Ht & ->)%upload_redirect.
  destruct (traces_tables _ _ _ _ Ht) as (_ & Hcl & Hsc).
  destruct (traces_columns _ _ _ _ Ht) as (_ & Hcc & _).
  destruct (traces_counters _ _ _ _ Ht) as (_ & _ & Hn & _).
  pose proof Ht as (_&_&_&_&Heng&_&_&Hscore&_).
  pose proof (engineer_inv _ _ _ Heng)
    as (Hi & Hcols & dates & ags & mers & _ & _ & _ & _ & _ & _ & _ & Hother).
  apply score_inv in Hscore
    as (_ & _ & (features & X & model & labels & Hf & HX & Hm & Hp & Han) & _).
  rewrite Hcc in Hcols. simpl in Hcols.
  exists (cleaned t), features, X, model, labels, (scored t).
  split; [done|].
  assert (Hfeat : features =
    {| columns := feature_cols;
       rows := (λ r, (r.1, cell r.2 <$> [3; 6; 7; 4; 5]%nat))
                 <$> rows (engineered t) |}).
  { unfold getitem_cols in Hf. rewrite Hcols in Hf.
    vm_compute filter in Hf. change (positions ?l ?c) with (positions_from 0 l c) in Hf.
    simpl in Hf. by injection Hf as <-. }
  split; [by rewrite Hfeat|]. split.
  { rewrite Hfeat, <- Hi. unfold index. simpl. by rewrite <- list_fmap_compose. }
  split.
  { rewrite <- Hother
      by (apply (proj1 (bool_decide_eq_false _)); reflexivity).
    rewrite Hfeat. unfold getitem. rewrite Hcols. simpl.
    by rewrite <- list_fmap_compose. }
  repeat (split; [done|]).
  apply getitem_length in Han. rewrite length_fmap in Han. by rewrite Han.
Qed.

(** X21, witness: the flags of the five-row upload. *)
Lemma X21_model_inputs_witness :
  ∃ labels,
    (scored_table Demo.library Demo.calm (stream Demo.five)
       ≫= λ df, getitem df "Anomaly") = inr (Int <$> labels) ∧
    length labels = 3%nat.
Proof.
  assert (H : upload Demo.library Demo.calm Demo.five (startup ∅)
              = (Redirect "/results", Demo.five_run.2))
    by (vm_compute; reflexivity).
  destruct (X21_model_inputs _ _ _ _ _ H)
    as (table & features & X & model & labels & scored
        & Ht & _ & _ & _ & _ & _ & _ & Hs & Han & Hlen).
  exists labels. rewrite Hs. simpl. split; [exact Han|].
  rewrite Hlen. vm_compute in Ht. injection Ht as <-. reflexivity.
Defined.

(** ** A client that stays logged in *)

Lemma serve_cons_state L w file requests st :
  (serve L ((w, file) :: requests) st).2
  = (serve L requests (upload L w file st).2).2.
Proof.
  simpl. destruct (upload L w file st) as [r st1]. simpl.
  by destruct (serve L requests st1).
Qed.

Lemma handle_logged_in F L us v session st r session' st' :
  is_Some (current_user us session) → v ≠ to_logout →
  handle F L us v session st = (r, session', st') →
  is_Some (current_user us session') ∧
  st' = match v with
        | to_upload w file => (upload L w file st).2
        | _ => st
        end.
Proof.
  intros [u Hu] Hv. unfold handle, login_required. rewrite Hu.
  destruct v as [|request| | |w file| |]; try done;
    try (by intros [= <- <- <-]).
  - destruct (login us request session) as [r0 s0] eqn:E.
    intros [= <- <- <-]. split; [|done].
    apply login_cases in E as [(_ & _ & key & user & Hin & ->)|(_ & -> & _)].
    + by eapply current_user_login.
    + by exists u.
  - destruct (upload L w file st) as [r0 st0]. by intros [= <- <- <-].
Qed.

(** X22: a logged-in client stays logged in until it asks for [/logout]:
    after any sequence of other requests, failed logins included, its
    session still identifies a user, and the state of the application is
    the one that its uploads alone, in their order, lead to. *)
Theorem X22_session_persists F L (us : Users) (visits : list Visit)
    (session : Session) (st : AppState) rs session' st' :
  is_Some (current_user us session) →
  Forall (λ v, v ≠ to_logout) visits →
  browse F L us visits session st = (rs, session', st') →
  is_Some (current_user us session') ∧
  st' = (serve L (uploads_of visits) st).2.
Proof.
  intros Hu Hall. revert session st rs Hu.
  induction Hall as [|v visits Hv Hall IH]; intros session st rs Hu; simpl.
  { by intros [= <- <- <-]. }
  destruct (handle F L us v session st) as [[r s1] st1] eqn:E.
  destruct (browse F L us visits s1 st1) as [[rs0 s2] st2] eqn:E2.
  intros [= <- <- <-].
  destruct (handle_logged_in _ _ _ _ _ _ _ _ _ Hu Hv E) as [Hu1 Hst1].
  destruct (IH _ _ _ Hu1 E2) as [Hu2 ->]. split; [done|].
  unfold uploads_of. destruct v as [|request| | |w file| |]; subst st1;
    try done.
  cbn [omap list_omap]. by rewrite serve_cons_state.
Qed.

(** X22, witness: an upload, a failed login and the dashboard, in a session of
    [admin]. *)
Lemma X22_session_persists_witness :
  let visits := [to_upload Demo.calm Demo.five;
                 to_login (Demo.post "admin" "nothing");
                 to_dashboard] in
  (browse Demo.flask_login Demo.library users visits (Some "1")
          (startup ∅)).2
  = Demo.five_run.2.
Proof.
  intros visits.
  assert (Hu : is_Some (current_user users (Some "1"))) by by eexists.
  assert (Hall : Forall (λ v, v ≠ to_logout) visits)
    by (unfold visits; repeat (constructor; [discriminate|]); constructor).
  assert (Hs : (serve Demo.library (uploads_of visits) (startup ∅)).2
               = Demo.five_run.2) by (vm_compute; reflexivity).
  destruct (browse Demo.flask_login Demo.library users visits (Some "1")
              (startup ∅)) as [[rs s'] st'] eqn:E.
  destruct (X22_session_persists _ _ _ _ _ _ _ _ _ Hu Hall E) as [_ Hst].
  change (st' = Demo.five_run.2). rewrite Hst. exact Hs.
Defined.
